(** * ProBowler: the biomechanics extractor of [EnhancedCricketBiomechanicsExtractor.py]

    A shallow embedding of the event detector, the frame feature extractor,
    the knee phase analysers, the summary aggregator and the [analyze_bowling]
    entry point, with the properties of the specification stated over it.

    Numbers.  A Python/numpy float is modelled as a real number, an infinity
    or NaN: arithmetic is exact (no rounding, no overflow, no signed zero),
    while the IEEE special cases that the code relies on (0/0 = NaN, x/0 = inf,
    NaN propagation, comparisons with NaN are false) are written out.  Where
    rounding decides what the Angle Calculator returns, the module [binary64]
    gives the same computation over IEEE 754 binary64 numbers. *)

From Stdlib Require Import Reals Lra Lia ZArith.
From Stdlib Require PrimFloat SpecFloat FloatOps FloatAxioms.
From stdpp Require Import base decidable option list strings gmap.

#[local] Open Scope Z_scope.

(** ** Decidable comparisons on the reals *)

#[global] Instance Rlt_decision : RelDecision Rlt := Rlt_dec.
#[global] Instance Rle_decision : RelDecision Rle := Rle_dec.
#[global] Instance Req_decision : EqDecision R := Req_dec_T.

(** ** numpy: floats, elementwise arithmetic, reductions *)

Module np.

Inductive float : Type :=
| NaN
| Inf (negative : bool)
| Fin (r : R).

Definition isnan (x : float) : bool :=
  match x with NaN => true | _ => false end.

Definition neg (x : float) : float :=
  match x with
  | NaN => NaN
  | Inf s => Inf (negb s)
  | Fin r => Fin (- r)
  end.

Definition add (x y : float) : float :=
  match x, y with
  | NaN, _ | _, NaN => NaN
  | Inf s, Inf t => if Bool.eqb s t then Inf s else NaN
  | Inf s, Fin _ | Fin _, Inf s => Inf s
  | Fin a, Fin b => Fin (a + b)
  end.

Definition sub (x y : float) : float := add x (neg y).

Definition mul (x y : float) : float :=
  match x, y with
  | NaN, _ | _, NaN => NaN
  | Inf s, Inf t => Inf (xorb s t)
  | Inf s, Fin b | Fin b, Inf s =>
      if decide (b = 0%R) then NaN else Inf (xorb s (bool_decide (b < 0)%R))
  | Fin a, Fin b => Fin (a * b)
  end.

(** numpy division of float64 scalars: a zero divisor gives NaN (0/0) or an
    infinity (x/0) together with a RuntimeWarning, never an exception. *)
Definition div (x y : float) : float :=
  match x, y with
  | NaN, _ | _, NaN => NaN
  | Inf _, Inf _ => NaN
  | Inf s, Fin b => Inf (xorb s (bool_decide (b < 0)%R))
  | Fin _, Inf _ => Fin 0
  | Fin a, Fin b =>
      if decide (b = 0%R)
      then (if decide (a = 0%R) then NaN else Inf (bool_decide (a < 0)%R))
      else Fin (a / b)
  end.

Definition sqrt (x : float) : float :=
  match x with
  | NaN => NaN
  | Inf s => if s then NaN else Inf false
  | Fin r => if decide (r < 0)%R then NaN else Fin (R_sqrt.sqrt r)
  end.

Definition abs (x : float) : float :=
  match x with
  | NaN => NaN
  | Inf _ => Inf false
  | Fin r => Fin (Rabs r)
  end.

(** Comparisons: false as soon as one side is NaN. *)
Definition le (x y : float) : bool :=
  match x, y with
  | NaN, _ | _, NaN => false
  | Inf s, Inf t => implb t s
  | Inf s, Fin _ => s
  | Fin _, Inf t => negb t
  | Fin a, Fin b => bool_decide (a <= b)%R
  end.

Definition ge (x y : float) : bool := le y x.

(** [np.clip(x, lo, hi)] for finite bounds. *)
Definition clip (x : float) (lo hi : R) : float :=
  match x with
  | NaN => NaN
  | Inf s => Fin (if s then lo else hi)
  | Fin r => Fin (Rmin (Rmax r lo) hi)
  end.

Definition arccos (x : float) : float :=
  match x with
  | Fin r => if decide (-1 <= r <= 1)%R then Fin (acos r) else NaN
  | _ => NaN
  end.

Definition degrees (x : float) : float := mul x (Fin (180 / PI)).

(** A 2-D point as the code passes it: a pair of coordinates. *)
Definition point : Type := float * float.

Definition vsub (a b : point) : point := (sub a.1 b.1, sub a.2 b.2).

Definition dot (u v : point) : float := add (mul u.1 v.1) (mul u.2 v.2).

(** [np.linalg.norm] of a vector: the square root of its dot product with
    itself. *)
Definition norm (u : point) : float := sqrt (dot u u).

(** [np.argmax] of a 1-d array: the first index of the maximum, a NaN
    counting as the maximum; an empty array has no argmax (ValueError). *)
Fixpoint argmax_loop (mp : float) (mi i : nat) (ip : list float) : nat :=
  match ip with
  | [] => mi
  | x :: rest =>
      if le x mp then argmax_loop mp mi (S i) rest
      else if isnan x then i
      else argmax_loop x i (S i) rest
  end.

Definition argmax (a : list float) : option nat :=
  match a with
  | [] => None
  | x :: rest => Some (if isnan x then 0%nat else argmax_loop x 0 1 rest)
  end.

Fixpoint argmin_loop (mp : float) (mi i : nat) (ip : list float) : nat :=
  match ip with
  | [] => mi
  | x :: rest =>
      if ge x mp then argmin_loop mp mi (S i) rest
      else if isnan x then i
      else argmin_loop x i (S i) rest
  end.

Definition argmin (a : list float) : option nat :=
  match a with
  | [] => None
  | x :: rest => Some (if isnan x then 0%nat else argmin_loop x 0 1 rest)
  end.

End np.

Export np.

(** ** The Angle Calculator *)

(** [calculate_angle(a, b, c)]: the angle at [b], in degrees, computed in
    exact arithmetic. *)
Definition calculate_angle (a b c : point) : float :=
  let ba := vsub a b in
  let bc := vsub c b in
  let cosine := div (dot ba bc) (mul (norm ba) (norm bc)) in
  degrees (arccos (clip cosine (-1) 1)).

(** ** The Angle Calculator in float64 arithmetic *)

(** The same lines over IEEE 754 binary64 numbers.  Subtraction, product,
    sum, square root and quotient are the correctly rounded operations of the
    processor.  [np.arccos] calls the [acos] of the platform's mathematical
    library, which is left as a parameter for numbers; of a NaN it is NaN. *)
Module binary64.
Import PrimFloat.
#[local] Open Scope float_scope.

Definition point : Type := float * float.

Definition vsub (a b : point) : point := (a.1 - b.1, a.2 - b.2).

Definition dot (u v : point) : float := u.1 * v.1 + u.2 * v.2.

Definition norm (u : point) : float := sqrt (dot u u).

(** [np.clip(x, lo, hi)]: the larger of [x] and [lo], then the smaller of
    that and [hi]; a NaN is passed on. *)
Definition clip (x lo hi : float) : float :=
  let t := if is_nan x || (lo <? x) then x else lo in
  if is_nan t || (t <? hi) then t else hi.

(** [np.degrees]: the product with the float nearest to 180/pi. *)
Definition degrees (x : float) : float := x * 0x1.ca5dc1a63c1f8p+5.

(** [np.arccos]: NaN for NaN, the library's [acos] for a number. *)
Definition arccos (acos : float -> float) (x : float) : float :=
  if is_nan x then x else acos x.

Definition calculate_angle (acos : float -> float) (a b c : point) : float :=
  let ba := vsub a b in
  let bc := vsub c b in
  let cosine := dot ba bc / (norm ba * norm bc) in
  degrees (arccos acos (clip cosine (-1) 1)).

(** Three points apart from each other, at a distance of [1e-200] (the
    float Python reads [1e-200] as) from the vertex. *)
Definition vertex : point := (0, 0).
Definition near_on_x : point := (0x1.87e92154ef7acp-665, 0).
Definition near_on_y : point := (0, 0x1.87e92154ef7acp-665).

(** A point off the axes, at a distance from the vertex whose square, 13,
    has no exact square root. *)
Definition off_axes : point := (2, 3).

(** Two points at a distance of [1e200] and more from the vertex. *)
Definition far_on_x : point := (0x1.4e718d7d7625ap+664, 0).
Definition far_off_axes : point := (0x1.4e718d7d7625ap+664, 0x1.4e718d7d7625ap+664).

(** The float nearest to pi/2, which [acos] returns for a zero. *)
Definition half_pi : float := 0x1.921fb54442d18p+0.

Definition right_angle : float := 90.

End binary64.

(** ** Python values: exceptions, results, data frames *)

Inductive exn : Type :=
| KeyError (key : string)
| IndexError (message : string)
| ValueError (message : string)
| AttributeError (message : string)
| TypeError (message : string).

Inductive result (A : Type) : Type :=
| Ok (a : A)
| Raise (e : exn).
Arguments Ok {A} a.
Arguments Raise {A} e.

#[global] Instance result_ret : MRet result := fun A a => Ok a.
#[global] Instance result_bind : MBind result := fun A B f m =>
  match m with Ok a => f a | Raise e => Raise e end.
#[global] Instance result_fmap : FMap result := fun A B f m =>
  match m with Ok a => Ok (f a) | Raise e => Raise e end.

(** [str(e)]: the text the exception was raised with; a KeyError shows its
    key in quotes. *)
Definition str (e : exn) : string :=
  match e with
  | KeyError key => "'" +:+ key +:+ "'"
  | IndexError message | ValueError message
  | AttributeError message | TypeError message => message
  end.

(** One row of the landmark table: its ['frame'] cell and the landmark
    columns the table has ([<LANDMARK>_x], [_y], [_z], [_v]). *)
Record Row : Type := mkRow {
  frame : Z;
  cells : gmap string float
}.

Definition DataFrame : Type := list Row.

(** What [EnhancedCricketBiomechanicsExtractor(...)] is constructed with:
    [main] passes a data frame, [analyze_bowling] the path it was given. *)
Inductive pyobj : Type :=
| PyStr (s : string)
| PyDataFrame (d : DataFrame).

(** [row[key]] *)
Definition getitem (row : Row) (key : string) : result float :=
  match cells row !! key with
  | Some v => Ok v
  | None => Raise (KeyError key)
  end.

(** [row.get(key, default)] *)
Definition get (row : Row) (key : string) (default : float) : float :=
  match cells row !! key with
  | Some v => v
  | None => default
  end.

Definition len (d : DataFrame) : Z := Z.of_nat (length d).

(** [df.iloc[i]]: a negative position counts from the end. *)
Definition iloc (d : DataFrame) (i : Z) : result Row :=
  let j := if i <? 0 then len d + i else i in
  if (0 <=? j) && (j <? len d)
  then match d !! Z.to_nat j with
       | Some row => Ok row
       | None => Raise (IndexError "single positional indexer is out-of-bounds")
       end
  else Raise (IndexError "single positional indexer is out-of-bounds").

(** [obj.iterrows()] *)
Definition iterrows (obj : pyobj) : result DataFrame :=
  match obj with
  | PyDataFrame d => Ok d
  | PyStr _ => Raise (AttributeError "'str' object has no attribute 'iterrows'")
  end.

(** [obj[obj['frame'] >= f]] *)
Definition frames_from (obj : pyobj) (f : Z) : result DataFrame :=
  match obj with
  | PyDataFrame d => Ok (List.filter (fun row => f <=? frame row) d)
  | PyStr _ => Raise (TypeError "string indices must be integers")
  end.

(** [a[mask]] and [np.where(mask)[0]] *)
Fixpoint boolean_index {A : Type} (a : list A) (mask : list bool) : list A :=
  match a, mask with
  | x :: a', m :: mask' =>
      if m then x :: boolean_index a' mask' else boolean_index a' mask'
  | _, _ => []
  end.

Fixpoint where_from (i : nat) (mask : list bool) : list nat :=
  match mask with
  | [] => []
  | m :: mask' => if m then i :: where_from (S i) mask' else where_from (S i) mask'
  end.

Definition where_ (mask : list bool) : list nat := where_from 0 mask.

(** [a[i]] for a position computed by the code (never negative). *)
Definition item {A : Type} (a : list A) (i : nat) : result A :=
  match a !! i with
  | Some x => Ok x
  | None => Raise (IndexError "index out of bounds")
  end.

(** ** The extractor object *)

(** The fields the methods read or set ([self.features] is set to the empty
    list by [__init__] and never used). *)
Record Extractor : Type := mkExtractor {
  df : pyobj;
  ffc_frame : option Z;
  ball_release_frame : option Z
}.

(** [__init__] *)
Definition init (landmarks_df : pyobj) : Extractor :=
  {| df := landmarks_df; ffc_frame := None; ball_release_frame := None |}.

(** ** The Event Detector *)

(** The two per-frame signals of the detection loop.  [row.get] and
    [calculate_angle] do not raise, so the loop's handler is never entered. *)
Definition front_ankle_y_of (rows : DataFrame) : list float :=
  map (fun row => get row "RIGHT_ANKLE_y" NaN) rows.

Definition hip_shoulder_separation_of (rows : DataFrame) : list float :=
  map (fun row =>
         calculate_angle
           (get row "LEFT_HIP_x" (Fin 0), get row "LEFT_HIP_y" (Fin 0))
           (get row "RIGHT_SHOULDER_x" (Fin 0), get row "RIGHT_SHOULDER_y" (Fin 0))
           (get row "RIGHT_HIP_x" (Fin 0), get row "RIGHT_HIP_y" (Fin 0)))
      rows.

(** [ffc_frame_idx] of the ankle branch: the position of the first maximum
    of the defined front-ankle heights. *)
Definition ffc_frame_idx_of (front_ankle_y : list float) : result nat :=
  let valid_indices := map (fun y => negb (isnan y)) front_ankle_y in
  let ffc_candidates := where_ valid_indices in
  match argmax (boolean_index front_ankle_y valid_indices) with
  | Some k => item ffc_candidates k
  | None => Raise (ValueError "attempt to get argmax of an empty sequence")
  end.

(** [detect_front_foot_contact]: sets [ffc_frame] and [ball_release_frame]. *)
Definition detect_front_foot_contact (self : Extractor) : result Extractor :=
  rows ← iterrows (df self);
  let front_ankle_y := front_ankle_y_of rows in
  let hip_shoulder_separation := hip_shoulder_separation_of rows in
  let valid_indices := map (fun y => negb (isnan y)) front_ankle_y in
  if existsb (fun b => b) valid_indices then
    ffc_frame_idx ← ffc_frame_idx_of front_ankle_y;
    ffc_row ← iloc rows (Z.of_nat ffc_frame_idx);
    let release_offset := Z.min 8 (len rows - Z.of_nat ffc_frame_idx - 1) in
    if 0 <? release_offset then
      release_row ← iloc rows (Z.of_nat ffc_frame_idx + release_offset);
      mret {| df := df self;
              ffc_frame := Some (frame ffc_row);
              ball_release_frame := Some (frame release_row) |}
    else
      mret {| df := df self;
              ffc_frame := Some (frame ffc_row);
              ball_release_frame := Some (frame ffc_row) |}
  else
    let mid_frame := len rows / 2 in
    ffc_row ← iloc rows mid_frame;
    release_row ← iloc rows (Z.min (mid_frame + 5) (len rows - 1));
    mret {| df := df self;
            ffc_frame := Some (frame ffc_row);
            ball_release_frame := Some (frame release_row) |}.

(** ** The Frame Feature Extractor *)

(** One entry of [frame_features]: the dictionary appended per frame. *)
Record FrameFeatures : Type := mkFrameFeatures {
  ff_frame : Z;
  phase : string;
  is_ball_release : bool;
  is_ffc : bool;
  Elbow_Angle : float;
  Front_Knee_Angle : float;
  Back_Knee_Angle : float;
  Trunk_Lean : float;
  Hip_Shoulder_Separation : float;
  Shoulder_Alignment : float;
  Bowling_Arm_Angle : float;
  Non_Bowling_Arm_Angle : float;
  Head_Position : float;
  Pelvis_Rotation : float;
  Front_Ankle_Angle : float;
  Back_Ankle_Angle : float;
  Spine_Angle : float
}.

(** The three lists the extraction loop appends to. *)
Record Locals : Type := mkLocals {
  front_knee_angles : list (Z * float);
  back_knee_angles : list (Z * float);
  frame_features : list FrameFeatures
}.

(** Statements of the loop body: they read and extend the lists and may
    raise; what was appended before a raise stays appended. *)
Definition M (A : Type) : Type := Locals -> result A * Locals.

#[global] Instance M_ret : MRet M := fun A a s => (Ok a, s).
#[global] Instance M_bind : MBind M := fun A B f m s =>
  match m s with
  | (Ok a, s') => f a s'
  | (Raise e, s') => (Raise e, s')
  end.

Definition lift {A : Type} (r : result A) : M A := fun s => (r, s).

Definition try_except {A : Type} (body : M A) (handler : exn -> M A) : M A :=
  fun s =>
    match body s with
    | (Ok a, s') => (Ok a, s')
    | (Raise e, s') => handler e s'
    end.

Definition append_front_knee (x : Z * float) : M unit := fun s =>
  (Ok tt, {| front_knee_angles := front_knee_angles s ++ [x];
             back_knee_angles := back_knee_angles s;
             frame_features := frame_features s |}).

Definition append_back_knee (x : Z * float) : M unit := fun s =>
  (Ok tt, {| front_knee_angles := front_knee_angles s;
             back_knee_angles := back_knee_angles s ++ [x];
             frame_features := frame_features s |}).

Definition append_features (x : FrameFeatures) : M unit := fun s =>
  (Ok tt, {| front_knee_angles := front_knee_angles s;
             back_knee_angles := back_knee_angles s;
             frame_features := frame_features s ++ [x] |}).

(** [(row["<L>_x"], row["<L>_y"])] *)
Definition xy (row : Row) (landmark : string) : result point :=
  x ← getitem row (landmark +:+ "_x");
  y ← getitem row (landmark +:+ "_y");
  mret (x, y).

(** [self.calculate_angle] of three landmarks of the row. *)
Definition landmark_angle (row : Row) (a b c : string) : result float :=
  pa ← xy row a;
  pb ← xy row b;
  pc ← xy row c;
  mret (calculate_angle pa pb pc).

Definition pelvis_rotation_of (row : Row) : result float :=
  pa ← xy row "LEFT_HIP";
  pb ← xy row "RIGHT_HIP";
  rx ← getitem row "RIGHT_HIP_x";
  ry ← getitem row "RIGHT_HIP_y";
  mret (calculate_angle pa pb (add rx (Fin 10), ry)).

Definition midpoint (row : Row) (l r : string) : result point :=
  lx ← getitem row (l +:+ "_x");
  rx ← getitem row (r +:+ "_x");
  ly ← getitem row (l +:+ "_y");
  ry ← getitem row (r +:+ "_y");
  mret (div (add lx rx) (Fin 2), div (add ly ry) (Fin 2)).

Definition spine_angle_of (row : Row) : result float :=
  hips ← midpoint row "LEFT_HIP" "RIGHT_HIP";
  shoulders ← midpoint row "LEFT_SHOULDER" "RIGHT_SHOULDER";
  reference ← midpoint row "LEFT_SHOULDER" "RIGHT_SHOULDER";
  mret (calculate_angle hips shoulders (add reference.1 (Fin 10), reference.2)).

Definition shoulder_alignment_of (row : Row) : result float :=
  ly ← getitem row "LEFT_SHOULDER_y";
  ry ← getitem row "RIGHT_SHOULDER_y";
  mret (mul (abs (sub ly ry)) (Fin 57.2958)).

(** The [try] block of the loop body, statement by statement. *)
Definition try_block (self : Extractor) (row : Row) : M unit :=
  front_knee_angle ← lift (landmark_angle row "RIGHT_HIP" "RIGHT_KNEE" "RIGHT_ANKLE");
  _ ← append_front_knee (frame row, front_knee_angle);
  elbow_angle ← lift (landmark_angle row "RIGHT_SHOULDER" "RIGHT_ELBOW" "RIGHT_WRIST");
  back_knee_angle ← lift (landmark_angle row "LEFT_HIP" "LEFT_KNEE" "LEFT_ANKLE");
  _ ← append_back_knee (frame row, back_knee_angle);
  trunk_angle ← lift (landmark_angle row "LEFT_SHOULDER" "RIGHT_HIP" "RIGHT_KNEE");
  separation ← lift (landmark_angle row "LEFT_HIP" "RIGHT_SHOULDER" "RIGHT_HIP");
  shoulder_alignment ← lift (shoulder_alignment_of row);
  bowling_arm_angle ← lift (landmark_angle row "RIGHT_SHOULDER" "RIGHT_ELBOW" "RIGHT_WRIST");
  non_bowling_arm_angle ← lift (landmark_angle row "LEFT_SHOULDER" "LEFT_ELBOW" "LEFT_WRIST");
  head_tilt ← lift (landmark_angle row "LEFT_SHOULDER" "NOSE" "RIGHT_SHOULDER");
  pelvis_rotation ← lift (pelvis_rotation_of row);
  front_ankle_angle ← lift (landmark_angle row "RIGHT_KNEE" "RIGHT_ANKLE" "RIGHT_FOOT_INDEX");
  back_ankle_angle ← lift (landmark_angle row "LEFT_KNEE" "LEFT_ANKLE" "LEFT_FOOT_INDEX");
  spine_angle ← lift (spine_angle_of row);
  append_features
    {| ff_frame := frame row;
       phase := "post_ffc";
       is_ball_release := bool_decide (Some (frame row) = ball_release_frame self);
       is_ffc := bool_decide (Some (frame row) = ffc_frame self);
       Elbow_Angle := elbow_angle;
       Front_Knee_Angle := front_knee_angle;
       Back_Knee_Angle := back_knee_angle;
       Trunk_Lean := trunk_angle;
       Hip_Shoulder_Separation := separation;
       Shoulder_Alignment := shoulder_alignment;
       Bowling_Arm_Angle := bowling_arm_angle;
       Non_Bowling_Arm_Angle := non_bowling_arm_angle;
       Head_Position := head_tilt;
       Pelvis_Rotation := pelvis_rotation;
       Front_Ankle_Angle := front_ankle_angle;
       Back_Ankle_Angle := back_ankle_angle;
       Spine_Angle := spine_angle |}.

(** The record of the [except] block: every feature NaN, both flags False. *)
Definition nan_features (f : Z) : FrameFeatures :=
  {| ff_frame := f;
     phase := "post_ffc";
     is_ball_release := false;
     is_ffc := false;
     Elbow_Angle := NaN;
     Front_Knee_Angle := NaN;
     Back_Knee_Angle := NaN;
     Trunk_Lean := NaN;
     Hip_Shoulder_Separation := NaN;
     Shoulder_Alignment := NaN;
     Bowling_Arm_Angle := NaN;
     Non_Bowling_Arm_Angle := NaN;
     Head_Position := NaN;
     Pelvis_Rotation := NaN;
     Front_Ankle_Angle := NaN;
     Back_Ankle_Angle := NaN;
     Spine_Angle := NaN |}.

Definition except_block (row : Row) (e : exn) : M unit :=
  _ ← append_front_knee (frame row, NaN);
  _ ← append_back_knee (frame row, NaN);
  append_features (nan_features (frame row)).

Definition loop_body (self : Extractor) (row : Row) : M unit :=
  try_except (try_block self row) (except_block row).

(** [for idx, row in post_ffc_frames.iterrows(): ...]; the handler does not
    raise, so every iteration runs. *)
Definition extraction_loop (self : Extractor) (rows : DataFrame) (s : Locals) : Locals :=
  fold_left (fun s row => (loop_body self row s).2) rows s.

(** What [extract_features_post_ffc] returns: a bare empty data frame, or
    the triple of the feature table and the two knee series. *)
Inductive extraction : Type :=
| EmptyDataFrame
| Extracted (post_ffc_features : list FrameFeatures)
            (front_knee_angles back_knee_angles_list : list (Z * float)).

Definition extract_features_post_ffc (self : Extractor)
  : result (extraction * Extractor) :=
  self ← match ffc_frame self with
         | None => detect_front_foot_contact self
         | Some _ => Ok self
         end;
  match ffc_frame self with
  | None => Raise (TypeError "'>=' not supported between 'int' and 'NoneType'")
  | Some ffc =>
      post_ffc_frames ← frames_from (df self) ffc;
      if bool_decide (post_ffc_frames = [])
      then mret (EmptyDataFrame, self)
      else
        let s := extraction_loop self post_ffc_frames
                   {| front_knee_angles := [];
                      back_knee_angles := [];
                      frame_features := [] |} in
        mret (Extracted (frame_features s) (front_knee_angles s) (back_knee_angles s),
              self)
  end.

(** ** The Phase Analyzer *)

(** What [np.argmax] and [np.argmin] raise on an empty array. *)
Definition empty_argmax : exn :=
  ValueError "attempt to get argmax of an empty sequence".
Definition empty_argmin : exn :=
  ValueError "attempt to get argmin of an empty sequence".

(** The seven values a phase analysis returns; [None] below stands for the
    tuple of seven [None]. *)
Record KneePhases : Type := mkKneePhases {
  contact_angle : float;
  max_flexion_angle : float;
  max_extension_angle : float;
  contact_frame : Z;
  max_flexion_frame : Z;
  max_extension_frame : Z;
  deviation : float
}.

(** [[(frame, angle) for frame, angle in series if not np.isnan(angle)]] *)
Definition valid_angles_of (series : list (Z * float)) : list (Z * float) :=
  List.filter (fun fa => negb (isnan fa.2)) series.

(** [b - a if not np.isnan(a) and not np.isnan(b) else np.nan] *)
Definition deviation_of (contact extension : float) : float :=
  if negb (isnan contact) && negb (isnan extension)
  then sub extension contact
  else NaN.

(** [analyze_front_knee_phases].  After the two emptiness checks the series
    has a first entry, so the [len(...) > 0] guards of the source hold. *)
Definition analyze_front_knee_phases (front_knee_angles : list (Z * float))
  : result (option KneePhases) :=
  if bool_decide (front_knee_angles = []) then mret None else
  let valid_angles := valid_angles_of front_knee_angles in
  if bool_decide (valid_angles = []) then mret None else
  let frames := map fst valid_angles in
  let angles := map snd valid_angles in
  ffc_angle ← item angles 0;
  ffc_frame ← item frames 0;
  max_flex_idx ← from_option Ok (Raise empty_argmin) (argmin angles);
  max_flexion_angle ← item angles max_flex_idx;
  max_flexion_frame ← item frames max_flex_idx;
  max_ext_idx ← from_option Ok (Raise empty_argmax) (argmax angles);
  max_extension_angle ← item angles max_ext_idx;
  max_extension_frame ← item frames max_ext_idx;
  let knee_angle_deviation := deviation_of ffc_angle max_extension_angle in
  mret (Some {| contact_angle := ffc_angle;
                max_flexion_angle := max_flexion_angle;
                max_extension_angle := max_extension_angle;
                contact_frame := ffc_frame;
                max_flexion_frame := max_flexion_frame;
                max_extension_frame := max_extension_frame;
                deviation := knee_angle_deviation |}).

(** [max_ext_idx] of the back leg: the argmax of the latter half, shifted
    back to a position of the whole filtered series. *)
Definition back_max_ext_idx (angles : list float) : result nat :=
  let latter_half_start := (length angles / 2)%nat in
  max_ext_idx_relative ←
    from_option Ok (Raise empty_argmax) (argmax (drop latter_half_start angles));
  mret (latter_half_start + max_ext_idx_relative)%nat.

(** [analyze_back_knee_phases] *)
Definition analyze_back_knee_phases (back_knee_angles_list : list (Z * float))
  : result (option KneePhases) :=
  if bool_decide (back_knee_angles_list = []) then mret None else
  let valid_angles := valid_angles_of back_knee_angles_list in
  if bool_decide (valid_angles = []) then mret None else
  let frames := map fst valid_angles in
  let angles := map snd valid_angles in
  bfc_frame ← item frames 0;
  bfc_angle ← item angles 0;
  max_flex_idx ← from_option Ok (Raise empty_argmin) (argmin angles);
  max_flexion_angle ← item angles max_flex_idx;
  max_flexion_frame ← item frames max_flex_idx;
  max_ext_idx ← back_max_ext_idx angles;
  max_extension_angle ← item angles max_ext_idx;
  max_extension_frame ← item frames max_ext_idx;
  let back_knee_deviation := deviation_of bfc_angle max_extension_angle in
  mret (Some {| contact_angle := bfc_angle;
                max_flexion_angle := max_flexion_angle;
                max_extension_angle := max_extension_angle;
                contact_frame := bfc_frame;
                max_flexion_frame := max_flexion_frame;
                max_extension_frame := max_extension_frame;
                deviation := back_knee_deviation |}).

(** ** The Summary Aggregator *)

Record SummaryRow : Type := mkSummaryRow {
  Feature : string;
  Average : float;
  Min : float;
  Max : float;
  Frames : Z;
  Measurement_Phase : string;
  FFC_Frame : option Z;
  Release_Frame : option Z
}.

(** pandas series of floats: [dropna], [mean], [min], [max]. *)
Definition dropna (values : list float) : list float :=
  List.filter (fun x => negb (isnan x)) values.

Definition mean (values : list float) : float :=
  div (fold_left add values (Fin 0)) (Fin (INR (length values))).

Definition series_min (values : list float) : float :=
  match values with
  | [] => NaN
  | x :: rest => fold_left (fun m y => if le y m then y else m) rest x
  end.

Definition series_max (values : list float) : float :=
  match values with
  | [] => NaN
  | x :: rest => fold_left (fun m y => if ge y m then y else m) rest x
  end.

(** [frame[name]] on the feature table. *)
Definition column (name : string) : option (FrameFeatures -> float) :=
  if decide (name = "Elbow Angle") then Some Elbow_Angle
  else if decide (name = "Front Knee Angle") then Some Front_Knee_Angle
  else if decide (name = "Back Knee Angle") then Some Back_Knee_Angle
  else if decide (name = "Trunk Lean") then Some Trunk_Lean
  else if decide (name = "Hip-Shoulder Separation") then Some Hip_Shoulder_Separation
  else if decide (name = "Shoulder Alignment") then Some Shoulder_Alignment
  else if decide (name = "Bowling Arm Angle") then Some Bowling_Arm_Angle
  else if decide (name = "Non-Bowling Arm Angle") then Some Non_Bowling_Arm_Angle
  else if decide (name = "Head Position") then Some Head_Position
  else if decide (name = "Pelvis Rotation") then Some Pelvis_Rotation
  else if decide (name = "Front Ankle Angle") then Some Front_Ankle_Angle
  else if decide (name = "Back Ankle Angle") then Some Back_Ankle_Angle
  else if decide (name = "Spine Angle") then Some Spine_Angle
  else None.

Definition getcolumn (data : list FrameFeatures) (name : string) : result (list float) :=
  match column name with
  | Some f => Ok (map f data)
  | None => Raise (KeyError name)
  end.

(** [frame.tail(3)] *)
Definition tail3 {A : Type} (l : list A) : list A := drop (length l - 3) l.

(** A statistics row over the release window. *)
Definition release_row (self : Extractor) (feature : string) (values : list float)
  : SummaryRow :=
  {| Feature := feature;
     Average := mean values;
     Min := series_min values;
     Max := series_max values;
     Frames := Z.of_nat (length values);
     Measurement_Phase := "Ball Release";
     FFC_Frame := ffc_frame self;
     Release_Frame := ball_release_frame self |}.

(** The row the comprehensive loop emits when no value is defined. *)
Definition empty_row (self : Extractor) (feature : string) : SummaryRow :=
  {| Feature := feature;
     Average := NaN;
     Min := NaN;
     Max := NaN;
     Frames := 0;
     Measurement_Phase := "Ball Release";
     FFC_Frame := ffc_frame self;
     Release_Frame := ball_release_frame self |}.

(** A single-frame row of a phase value. *)
Definition phase_row (feature phase_label : string) (value : float)
    (ffc release : option Z) : SummaryRow :=
  {| Feature := feature;
     Average := value;
     Min := value;
     Max := value;
     Frames := 1;
     Measurement_Phase := phase_label;
     FFC_Frame := ffc;
     Release_Frame := release |}.

(** [if v is not None and not np.isnan(v): summary_data.append(row)] *)
Definition append_if_defined {A : Type} (phases : option KneePhases)
    (value : KneePhases -> float) (row : KneePhases -> A) : list A :=
  match phases with
  | Some p => if negb (isnan (value p)) then [row p] else []
  | None => []
  end.

Definition comprehensive_features : list (string * string) :=
  [ ("Trunk Lean", "Trunk Lean");
    ("Hip-Shoulder Separation", "Hip-Shoulder Separation");
    ("Shoulder Alignment", "Shoulder Alignment");
    ("Bowling Arm Angle", "Bowling Arm Angle");
    ("Non-Bowling Arm Angle", "Non-Bowling Arm Angle");
    ("Head Position", "Head Position");
    ("Pelvis Rotation", "Pelvis Rotation");
    ("Front Ankle Angle", "Front Ankle Angle");
    ("Back Ankle Angle", "Back Ankle Angle");
    ("Spine Angle", "Spine Angle") ].

(** One iteration of the comprehensive loop. *)
Definition comprehensive_row (self : Extractor) (release_frame_data : list FrameFeatures)
    (fc : string * string) : result SummaryRow :=
  values ← dropna <$> getcolumn release_frame_data fc.2;
  if negb (bool_decide (values = []))
  then mret (release_row self fc.1 values)
  else mret (empty_row self fc.1).

(** The frames the statistics are taken over: those flagged as the ball
    release or, when there is none, the last three. *)
Definition release_window (post_ffc_features : list FrameFeatures) : list FrameFeatures :=
  let release_frame_data := List.filter is_ball_release post_ffc_features in
  if bool_decide (release_frame_data = [])
  then tail3 post_ffc_features
  else release_frame_data.

(** The rows appended to [summary_data], in the order of the appends. *)
Definition summary_rows (self : Extractor) (release_frame_data : list FrameFeatures)
    (front back : option KneePhases) : result (list SummaryRow) :=
  elbow_values ← dropna <$> getcolumn release_frame_data "Elbow Angle";
  let summary_data :=
    (if negb (bool_decide (elbow_values = []))
     then [release_row self "Elbow Angle" elbow_values] else [])
    ++ append_if_defined front contact_angle (fun p =>
         phase_row "Front Knee at FFC" "Front Foot Contact" (contact_angle p)
           (Some (contact_frame p)) (ball_release_frame self))
    ++ append_if_defined front max_flexion_angle (fun p =>
         phase_row "Front Knee Max Flexion" "Maximum Flexion" (max_flexion_angle p)
           (ffc_frame self) (ball_release_frame self))
    ++ append_if_defined front max_extension_angle (fun p =>
         phase_row "Front Knee Max Extension" "Maximum Extension"
           (max_extension_angle p) (ffc_frame self) (ball_release_frame self))
    ++ append_if_defined front deviation (fun p =>
         phase_row "Knee Angle Deviation" "FFC to Max Extension" (deviation p)
           (ffc_frame self) (ball_release_frame self))
    ++ append_if_defined back contact_angle (fun p =>
         phase_row "Back Knee at BFC" "Back Foot Contact" (contact_angle p)
           (ffc_frame self) (ball_release_frame self))
    ++ append_if_defined back max_flexion_angle (fun p =>
         phase_row "Back Knee Max Flexion" "Back Maximum Flexion"
           (max_flexion_angle p) (ffc_frame self) (ball_release_frame self))
    ++ append_if_defined back max_extension_angle (fun p =>
         phase_row "Back Knee Max Extension" "Back Maximum Extension"
           (max_extension_angle p) (ffc_frame self) (ball_release_frame self))
    ++ append_if_defined back deviation (fun p =>
         phase_row "Back Knee Deviation" "BFC to Max Extension" (deviation p)
           (ffc_frame self) (ball_release_frame self)) in
  back_knee_values ← dropna <$> getcolumn release_frame_data "Back Knee Angle";
  let summary_data :=
    summary_data ++
    (if negb (bool_decide (back_knee_values = []))
     then [release_row self "Back Knee Angle" back_knee_values] else []) in
  comprehensive ← mapM (comprehensive_row self release_frame_data)
                    comprehensive_features;
  mret (summary_data ++ comprehensive).

(** [calculate_biomechanical_summary] *)
Definition calculate_biomechanical_summary (self : Extractor)
  : result (list SummaryRow * Extractor) :=
  '(result, self) ← extract_features_post_ffc self;
  match result with
  | EmptyDataFrame =>
      Raise (ValueError "not enough values to unpack (expected 3, got 0)")
  | Extracted post_ffc_features front_knee_angles back_knee_angles_list =>
      if bool_decide (post_ffc_features = []) then mret ([], self) else
      front ← analyze_front_knee_phases front_knee_angles;
      back ← analyze_back_knee_phases back_knee_angles_list;
      summary_data ← summary_rows self (release_window post_ffc_features) front back;
      mret (summary_data, self)
  end.

(** ** The entry point of [analyze.py] *)

(** The dictionary [analyze_bowling] returns. *)
Record Response : Type := mkResponse {
  status : string;
  message : string;
  details : option (list SummaryRow)
}.

(** [try: body except Exception as e: handler(e)] for a function body. *)
Definition try_return {A : Type} (body : result A) (handler : exn -> result A)
  : result A :=
  match body with
  | Ok a => Ok a
  | Raise e => handler e
  end.

(** What [analyze_bowling(video_path)] returns once its diagnostics are
    written: the [try] statement of lines 10 to 27. *)
Definition analyze_bowling (video_path : pyobj) : result Response :=
  try_return
    (let extractor := init video_path in
     '(result, _) ← calculate_biomechanical_summary extractor;
     mret {| status := "success";
             message := "Video analyzed successfully";
             details := Some result |})
    (fun e => mret {| status := "error"; message := str e; details := None |}).

(** [sys.stdout] as a [print] meets it: a stream that takes what is written
    to it, or one on which writing raises ([ValueError] on a closed stream,
    an [OSError] on a broken pipe). *)
Inductive TextIO : Type :=
| Accepting
| Failing (e : exn).

(** [print(...)], whatever the text. *)
Definition print (stdout : TextIO) : result unit :=
  match stdout with
  | Accepting => Ok ()
  | Failing e => Raise e
  end.

(** [sys.stdout] over a call of [analyze_bowling]: as the call finds it, and
    as the handler finds it, should the pipeline raise.  In between, the
    stream is taken to accept the diagnostics of the extractor, which are
    left out here; a stream that takes some texts and refuses others is not
    distinguished. *)
Record Console : Type := mkConsole {
  at_call : TextIO;
  at_handler : TextIO
}.

(** [analyze_bowling(video_path)] with its two diagnostics: the [print] of
    line 8 runs before the [try], the one of line 24 inside the handler. *)
Definition analyze_bowling_on (console : Console) (video_path : pyobj)
  : result Response :=
  _ ← print (at_call console);
  try_return
    (let extractor := init video_path in
     '(result, _) ← calculate_biomechanical_summary extractor;
     mret {| status := "success";
             message := "Video analyzed successfully";
             details := Some result |})
    (fun e =>
       _ ← print (at_handler console);
       mret {| status := "error"; message := str e; details := None |}).

(** ** Vocabulary for the properties of the extractor *)

(** The landmarks whose [_x] and [_y] columns the [try] block reads. *)
Definition required_landmarks : list string :=
  [ "RIGHT_HIP"; "RIGHT_KNEE"; "RIGHT_ANKLE";
    "RIGHT_SHOULDER"; "RIGHT_ELBOW"; "RIGHT_WRIST";
    "LEFT_HIP"; "LEFT_KNEE"; "LEFT_ANKLE";
    "LEFT_SHOULDER"; "LEFT_ELBOW"; "LEFT_WRIST";
    "NOSE"; "RIGHT_FOOT_INDEX"; "LEFT_FOOT_INDEX" ].

Definition has_landmark (row : Row) (landmark : string) : Prop :=
  is_Some (cells row !! (landmark +:+ "_x")) /\
  is_Some (cells row !! (landmark +:+ "_y")).

Definition has_columns (row : Row) : Prop :=
  Forall (has_landmark row) required_landmarks.

#[global] Instance has_columns_dec (row : Row) : Decision (has_columns row).
Proof. unfold has_columns, has_landmark. apply _. Defined.

(** The coordinates of a landmark in a row (NaN for a column not there). *)
Definition pt (row : Row) (landmark : string) : point :=
  (get row (landmark +:+ "_x") NaN, get row (landmark +:+ "_y") NaN).

(** The record the [try] block appends when no lookup fails, as a function
    of the row. *)
Definition computed_features (self : Extractor) (row : Row) : FrameFeatures :=
  let P := pt row in
  {| ff_frame := frame row;
     phase := "post_ffc";
     is_ball_release := bool_decide (Some (frame row) = ball_release_frame self);
     is_ffc := bool_decide (Some (frame row) = ffc_frame self);
     Elbow_Angle :=
       calculate_angle (P "RIGHT_SHOULDER") (P "RIGHT_ELBOW") (P "RIGHT_WRIST");
     Front_Knee_Angle :=
       calculate_angle (P "RIGHT_HIP") (P "RIGHT_KNEE") (P "RIGHT_ANKLE");
     Back_Knee_Angle :=
       calculate_angle (P "LEFT_HIP") (P "LEFT_KNEE") (P "LEFT_ANKLE");
     Trunk_Lean :=
       calculate_angle (P "LEFT_SHOULDER") (P "RIGHT_HIP") (P "RIGHT_KNEE");
     Hip_Shoulder_Separation :=
       calculate_angle (P "LEFT_HIP") (P "RIGHT_SHOULDER") (P "RIGHT_HIP");
     Shoulder_Alignment :=
       mul (abs (sub (P "LEFT_SHOULDER").2 (P "RIGHT_SHOULDER").2)) (Fin 57.2958);
     Bowling_Arm_Angle :=
       calculate_angle (P "RIGHT_SHOULDER") (P "RIGHT_ELBOW") (P "RIGHT_WRIST");
     Non_Bowling_Arm_Angle :=
       calculate_angle (P "LEFT_SHOULDER") (P "LEFT_ELBOW") (P "LEFT_WRIST");
     Head_Position :=
       calculate_angle (P "LEFT_SHOULDER") (P "NOSE") (P "RIGHT_SHOULDER");
     Pelvis_Rotation :=
       calculate_angle (P "LEFT_HIP") (P "RIGHT_HIP")
         (add (P "RIGHT_HIP").1 (Fin 10), (P "RIGHT_HIP").2);
     Front_Ankle_Angle :=
       calculate_angle (P "RIGHT_KNEE") (P "RIGHT_ANKLE") (P "RIGHT_FOOT_INDEX");
     Back_Ankle_Angle :=
       calculate_angle (P "LEFT_KNEE") (P "LEFT_ANKLE") (P "LEFT_FOOT_INDEX");
     Spine_Angle :=
       calculate_angle
         (div (add (P "LEFT_HIP").1 (P "RIGHT_HIP").1) (Fin 2),
          div (add (P "LEFT_HIP").2 (P "RIGHT_HIP").2) (Fin 2))
         (div (add (P "LEFT_SHOULDER").1 (P "RIGHT_SHOULDER").1) (Fin 2),
          div (add (P "LEFT_SHOULDER").2 (P "RIGHT_SHOULDER").2) (Fin 2))
         (add (div (add (P "LEFT_SHOULDER").1 (P "RIGHT_SHOULDER").1) (Fin 2)) (Fin 10),
          div (add (P "LEFT_SHOULDER").2 (P "RIGHT_SHOULDER").2) (Fin 2)) |}.

(** The features that are the angle at one landmark between two others. *)
Definition angle_features : list (string * (string * string * string)) :=
  [ ("Elbow Angle", ("RIGHT_SHOULDER", "RIGHT_ELBOW", "RIGHT_WRIST"));
    ("Front Knee Angle", ("RIGHT_HIP", "RIGHT_KNEE", "RIGHT_ANKLE"));
    ("Back Knee Angle", ("LEFT_HIP", "LEFT_KNEE", "LEFT_ANKLE"));
    ("Trunk Lean", ("LEFT_SHOULDER", "RIGHT_HIP", "RIGHT_KNEE"));
    ("Hip-Shoulder Separation", ("LEFT_HIP", "RIGHT_SHOULDER", "RIGHT_HIP"));
    ("Bowling Arm Angle", ("RIGHT_SHOULDER", "RIGHT_ELBOW", "RIGHT_WRIST"));
    ("Non-Bowling Arm Angle", ("LEFT_SHOULDER", "LEFT_ELBOW", "LEFT_WRIST"));
    ("Head Position", ("LEFT_SHOULDER", "NOSE", "RIGHT_SHOULDER"));
    ("Front Ankle Angle", ("RIGHT_KNEE", "RIGHT_ANKLE", "RIGHT_FOOT_INDEX"));
    ("Back Ankle Angle", ("LEFT_KNEE", "LEFT_ANKLE", "LEFT_FOOT_INDEX")) ].

(** The record appended for a row, whichever block appends it. *)
Definition features_of_row (self : Extractor) (row : Row) : FrameFeatures :=
  if decide (has_columns row)
  then computed_features self row
  else nan_features (frame row).

(** The row the comprehensive loop emits for a feature and its column. *)
Definition comprehensive_row_of (self : Extractor)
    (release_frame_data : list FrameFeatures) (feature : string)
    (col : FrameFeatures -> float) : SummaryRow :=
  let values := dropna (map col release_frame_data) in
  if negb (bool_decide (values = []))
  then release_row self feature values
  else empty_row self feature.

(** A binary64 number that is a zero or NaN. *)
Definition zero_or_nan (x : PrimFloat.float) : Prop :=
  match FloatOps.Prim2SF x with
  | SpecFloat.S754_zero _ | SpecFloat.S754_nan => True
  | _ => False
  end.

(** The number of rows of a report that carry a feature name. *)
Definition count_feature (name : string) (rows : list SummaryRow) : nat :=
  length (List.filter (fun r => bool_decide (Feature r = name)) rows).

(** The order in which [calculate_biomechanical_summary] appends its rows. *)
Definition catalog_order : list string :=
  [ "Elbow Angle";
    "Front Knee at FFC"; "Front Knee Max Flexion"; "Front Knee Max Extension";
    "Knee Angle Deviation";
    "Back Knee at BFC"; "Back Knee Max Flexion"; "Back Knee Max Extension";
    "Back Knee Deviation";
    "Back Knee Angle";
    "Trunk Lean"; "Hip-Shoulder Separation"; "Shoulder Alignment";
    "Bowling Arm Angle"; "Non-Bowling Arm Angle"; "Head Position";
    "Pelvis Rotation"; "Front Ankle Angle"; "Back Ankle Angle"; "Spine Angle" ].

(** ** Sample trials *)

(** A row holding the [_x] and [_y] columns of the listed landmarks; of two
    entries for one landmark the first counts. *)
Definition landmarks_row (f : Z) (landmarks : list (string * point)) : Row :=
  {| frame := f;
     cells := list_to_map
                (flat_map (fun l => [(l.1 +:+ "_x", l.2.1); (l.1 +:+ "_y", l.2.2)])
                   landmarks) |}.

(** A delivery stride in normalised image coordinates, front (right) foot
    on the ground. *)
Definition pose : list (string * point) :=
  [ ("NOSE", (Fin 0.5, Fin 0.1));
    ("LEFT_SHOULDER", (Fin 0.4, Fin 0.2));
    ("RIGHT_SHOULDER", (Fin 0.6, Fin 0.2));
    ("LEFT_ELBOW", (Fin 0.3, Fin 0.3));
    ("RIGHT_ELBOW", (Fin 0.7, Fin 0.3));
    ("LEFT_WRIST", (Fin 0.3, Fin 0.4));
    ("RIGHT_WRIST", (Fin 0.7, Fin 0.1));
    ("LEFT_HIP", (Fin 0.45, Fin 0.5));
    ("RIGHT_HIP", (Fin 0.55, Fin 0.5));
    ("LEFT_KNEE", (Fin 0.4, Fin 0.7));
    ("RIGHT_KNEE", (Fin 0.6, Fin 0.7));
    ("LEFT_ANKLE", (Fin 0.4, Fin 0.9));
    ("RIGHT_ANKLE", (Fin 0.6, Fin 0.9));
    ("LEFT_FOOT_INDEX", (Fin 0.35, Fin 0.95));
    ("RIGHT_FOOT_INDEX", (Fin 0.65, Fin 0.95)) ].

(** Two frames: the front ankle is lowest (largest y) in the first one. *)
Definition two_frames : DataFrame :=
  [ landmarks_row 0 pose;
    landmarks_row 1 (("RIGHT_ANKLE", (Fin 0.6, Fin 0.5)) :: pose) ].

(** One frame whose table has no [NOSE] columns (the pose without its first
    entry). *)
Definition frame_without_nose : DataFrame := [ landmarks_row 0 (tail pose) ].

(** One frame in which the bowling-arm elbow was not located: its cells
    are NaN. *)
Definition elbow_hidden : DataFrame :=
  [ landmarks_row 0 (("RIGHT_ELBOW", (NaN, NaN)) :: pose) ].

(** Two frames; the front foot is planted in the first one, where the front
    knee was not located, and lifted in the second. *)
Definition knee_hidden_at_ffc : DataFrame :=
  [ landmarks_row 0 (("RIGHT_KNEE", (NaN, NaN)) :: pose);
    landmarks_row 1 (("RIGHT_ANKLE", (Fin 0.6, Fin 0.5)) :: pose) ].

(** A back-knee series whose largest angle comes first; one entry is
    undefined. *)
Definition back_knee_series : list (Z * float) :=
  [ (10, Fin 170); (11, NaN); (12, Fin 120); (13, Fin 160) ].

(** Three frames in which the front ankle was not located. *)
Definition ankle_hidden : DataFrame :=
  [ landmarks_row 3 (("RIGHT_ANKLE", (NaN, NaN)) :: pose);
    landmarks_row 4 (("RIGHT_ANKLE", (NaN, NaN)) :: pose);
    landmarks_row 7 (("RIGHT_ANKLE", (NaN, NaN)) :: pose) ].

(** * Properties *)

Lemma norm_fin (x y : R) :
  norm (Fin x, Fin y) = Fin (R_sqrt.sqrt (x * x + y * y)).
Proof.
  unfold norm, dot; simpl.
  destruct (decide (x * x + y * y < 0)%R) as [H|H]; [nra | reflexivity].
Qed.

Lemma sqrt_sumsq_zero (x y : R) :
  R_sqrt.sqrt (x * x + y * y) = 0%R -> x = 0%R /\ y = 0%R.
Proof.
  intros H. apply sqrt_eq_0 in H; [| nra]. split; nra.
Qed.

Lemma degrees_acos_bounds (r : R) :
  (0 <= acos r * (180 / PI) <= 180)%R.
Proof.
  pose proof (acos_bound r) as [H0 H1].
  pose proof PI_RGT_0 as Hpi.
  assert (Hk : (0 < 180 / PI)%R) by (apply Rdiv_lt_0_compat; lra).
  split; [nra |].
  replace 180%R with (PI * (180 / PI))%R at 2 by (field; lra).
  apply Rmult_le_compat_r; lra.
Qed.

Lemma clip_range (r : R) : (-1 <= Rmin (Rmax r (-1)) 1 <= 1)%R.
Proof.
  unfold Rmin, Rmax.
  repeat match goal with |- context [Rle_dec ?a ?b] => destruct (Rle_dec a b) end; lra.
Qed.

(** The angle of three finite points, by cases on degeneracy. *)
Lemma calculate_angle_fin (ax ay bx by' cx cy : R) :
  calculate_angle (Fin ax, Fin ay) (Fin bx, Fin by') (Fin cx, Fin cy) =
  if decide ((ax, ay) = (bx, by') \/ (cx, cy) = (bx, by')) then NaN
  else Fin (acos (Rmin (Rmax
         (((ax + - bx) * (cx + - bx) + (ay + - by') * (cy + - by')) /
          (R_sqrt.sqrt ((ax + - bx) * (ax + - bx) + (ay + - by') * (ay + - by')) *
           R_sqrt.sqrt ((cx + - bx) * (cx + - bx) + (cy + - by') * (cy + - by'))))
         (-1)) 1) * (180 / PI)).
Proof.
  unfold calculate_angle, vsub. cbn [fst snd sub neg add].
  rewrite !norm_fin. unfold dot. cbn [fst snd mul add div].
  set (na := R_sqrt.sqrt _). set (nc := R_sqrt.sqrt _).
  destruct (decide (_ \/ _)) as [Hdeg|Hnd].
  - assert (Hz : (na * nc = 0)%R).
    { destruct Hdeg as [E|E]; inversion E; subst.
      - subst na. replace (bx + - bx)%R with 0%R by lra.
        replace (by' + - by')%R with 0%R by lra.
        rewrite Rmult_0_r, Rplus_0_r, sqrt_0. lra.
      - subst nc. replace (bx + - bx)%R with 0%R by lra.
        replace (by' + - by')%R with 0%R by lra.
        rewrite Rmult_0_r, Rplus_0_r, sqrt_0. lra. }
    destruct (decide (na * nc = 0)%R) as [_|Hn]; [| contradiction].
    destruct (decide (_ = 0)%R) as [_|Hn]; [reflexivity |].
    exfalso; apply Hn.
    destruct Hdeg as [E|E]; inversion E; subst; nra.
  - destruct (decide (na * nc = 0)%R) as [Hz|_].
    + exfalso; apply Hnd.
      apply Rmult_integral in Hz as [Hz|Hz];
        apply sqrt_sumsq_zero in Hz as [H1 H2]; [left | right];
        f_equal; lra.
    + cbn [clip arccos].
      destruct (decide (_ <= _ <= _)%R) as [_|Hr]; [| destruct Hr; apply clip_range].
      unfold degrees; cbn [mul]. reflexivity.
Qed.

(** ** The Angle Calculator *)

(** The angle of three finite points whose two vectors have lengths between
    [1e-150] and [1e150]: the squares computed on the way neither vanish nor
    overflow in float64 arithmetic. *)
Lemma calculate_angle_measurable (ax ay bx by' cx cy : R) :
  (1e-300 <= (ax - bx) * (ax - bx) + (ay - by') * (ay - by') <= 1e300)%R ->
  (1e-300 <= (cx - bx) * (cx - bx) + (cy - by') * (cy - by') <= 1e300)%R ->
  exists v : R,
    calculate_angle (Fin ax, Fin ay) (Fin bx, Fin by') (Fin cx, Fin cy) = Fin v /\
    (0 <= v <= 180)%R /\
    ((bx, by') = (0, 0)%R -> (ax * cx + ay * cy = 0)%R -> v = 90%R).
Proof.
  intros Ha Hc. rewrite calculate_angle_fin.
  destruct (decide (_ \/ _)) as [[E|E]|_].
  - inversion E; subst. lra.
  - inversion E; subst. lra.
  - eexists. split; [reflexivity |]. split; [apply degrees_acos_bounds |].
    intros Hb Hperp. inversion Hb; subst.
    replace ((ax + - 0) * (cx + - 0) + (ay + - 0) * (cy + - 0))%R with 0%R by lra.
    unfold Rdiv at 1. rewrite Rmult_0_l.
    rewrite Rmax_left, Rmin_left by lra. rewrite acos_0.
    pose proof PI_RGT_0. field. lra.
Qed.

(** *** Zero-length vectors in binary64 arithmetic *)

Lemma sub_diag_zero_or_nan (x : PrimFloat.float) : zero_or_nan (PrimFloat.sub x x).
Proof.
  unfold zero_or_nan. rewrite FloatAxioms.sub_spec.
  destruct (FloatOps.Prim2SF x) as [s|s| |s m e]; cbn.
  - destruct s; exact I.
  - destruct s; exact I.
  - exact I.
  - rewrite Z.min_id. unfold SpecFloat.shl_align.
    rewrite ?Z.sub_diag. cbn [fst]. rewrite ?Z.sub_diag. exact I.
Qed.

Lemma mul_zero_or_nan_l (x y : PrimFloat.float) :
  zero_or_nan x -> zero_or_nan (PrimFloat.mul x y).
Proof.
  unfold zero_or_nan. rewrite FloatAxioms.mul_spec.
  destruct (FloatOps.Prim2SF x) as [s|s| |s m e]; try contradiction; intros _;
    destruct (FloatOps.Prim2SF y) as [t|t| |t n f]; exact I.
Qed.

Lemma mul_zero_or_nan_r (x y : PrimFloat.float) :
  zero_or_nan y -> zero_or_nan (PrimFloat.mul x y).
Proof.
  unfold zero_or_nan. rewrite FloatAxioms.mul_spec.
  destruct (FloatOps.Prim2SF y) as [t|t| |t n f]; try contradiction; intros _;
    destruct (FloatOps.Prim2SF x) as [s|s| |s m e]; exact I.
Qed.

Lemma add_zero_or_nan (x y : PrimFloat.float) :
  zero_or_nan x -> zero_or_nan y -> zero_or_nan (PrimFloat.add x y).
Proof.
  unfold zero_or_nan. rewrite FloatAxioms.add_spec.
  destruct (FloatOps.Prim2SF x) as [s|s| |s m e]; try contradiction; intros _;
    destruct (FloatOps.Prim2SF y) as [t|t| |t n f]; try contradiction; intros _;
    try exact I.
  destruct s, t; exact I.
Qed.

Lemma sqrt_zero_or_nan (x : PrimFloat.float) :
  zero_or_nan x -> zero_or_nan (PrimFloat.sqrt x).
Proof.
  unfold zero_or_nan. rewrite FloatAxioms.sqrt_spec.
  destruct (FloatOps.Prim2SF x) as [s|s| |s m e]; try contradiction; intros _; exact I.
Qed.

Lemma div_zero_or_nan (x y : PrimFloat.float) :
  zero_or_nan x -> zero_or_nan y -> PrimFloat.div x y = PrimFloat.nan.
Proof.
  unfold zero_or_nan. intros Hx Hy. apply FloatAxioms.Prim2SF_inj.
  rewrite FloatAxioms.div_spec.
  destruct (FloatOps.Prim2SF x) as [s|s| |s m e]; try contradiction;
    destruct (FloatOps.Prim2SF y) as [t|t| |t n f]; try contradiction; reflexivity.
Qed.

Lemma norm_diag_zero_or_nan (a : binary64.point) :
  zero_or_nan (binary64.norm (binary64.vsub a a)).
Proof.
  unfold binary64.norm, binary64.dot, binary64.vsub. cbn [fst snd].
  apply sqrt_zero_or_nan, add_zero_or_nan; apply mul_zero_or_nan_l, sub_diag_zero_or_nan.
Qed.

(** A zero-length vector makes the angle NaN, whatever the other one is. *)
Lemma binary64_zero_length (acos : PrimFloat.float -> PrimFloat.float)
    (a b c : binary64.point) :
  a = b \/ c = b -> binary64.calculate_angle acos a b c = PrimFloat.nan.
Proof.
  intros H. unfold binary64.calculate_angle.
  assert (E : PrimFloat.div (binary64.dot (binary64.vsub a b) (binary64.vsub c b))
                (PrimFloat.mul (binary64.norm (binary64.vsub a b))
                               (binary64.norm (binary64.vsub c b))) = PrimFloat.nan).
  { apply div_zero_or_nan.
    - unfold binary64.dot. destruct H as [-> | ->]; unfold binary64.vsub; cbn [fst snd].
      + apply add_zero_or_nan; apply mul_zero_or_nan_l, sub_diag_zero_or_nan.
      + apply add_zero_or_nan; apply mul_zero_or_nan_r, sub_diag_zero_or_nan.
    - destruct H as [-> | ->].
      + apply mul_zero_or_nan_l, norm_diag_zero_or_nan.
      + apply mul_zero_or_nan_r, norm_diag_zero_or_nan. }
  cbv zeta. rewrite E. reflexivity.
Qed.

(** C8.  For three points with finite coordinates, [calculate_angle] returns
    a number of degrees between 0 and 180 when both vectors from the vertex
    [b] have lengths between 1e-150 and 1e150, and 90 when, with [b] at the
    origin, the two are perpendicular; it returns the missing-data marker NaN
    when [a = b] or [c = b].  The last part holds in binary64 arithmetic as
    well, for all floats and whatever the library's [acos] does on numbers.
    Being a total function of its arguments, it raises in no case. *)
Theorem calculate_angle_range (ax ay bx by' cx cy : R) :
  ((1e-300 <= (ax - bx) * (ax - bx) + (ay - by') * (ay - by') <= 1e300)%R ->
   (1e-300 <= (cx - bx) * (cx - bx) + (cy - by') * (cy - by') <= 1e300)%R ->
   exists v : R,
     calculate_angle (Fin ax, Fin ay) (Fin bx, Fin by') (Fin cx, Fin cy) = Fin v /\
     (0 <= v <= 180)%R /\
     ((bx, by') = (0, 0)%R -> (ax * cx + ay * cy = 0)%R -> v = 90%R)) /\
  ((ax, ay) = (bx, by') \/ (cx, cy) = (bx, by') ->
   calculate_angle (Fin ax, Fin ay) (Fin bx, Fin by') (Fin cx, Fin cy) = NaN) /\
  (forall (acos : PrimFloat.float -> PrimFloat.float) (a b c : binary64.point),
     a = b \/ c = b -> binary64.calculate_angle acos a b c = PrimFloat.nan).
Proof.
  split; [apply calculate_angle_measurable |].
  split; [| exact binary64_zero_length].
  rewrite calculate_angle_fin.
  intros Hdeg. destruct (decide (_ \/ _)) as [_|Hn]; [reflexivity | contradiction].
Qed.

Lemma calculate_angle_range_witness :
  calculate_angle (Fin 0.3, Fin 0) (Fin 0, Fin 0) (Fin 0, Fin 0.4) = Fin 90 /\
  calculate_angle (Fin 0, Fin 0) (Fin 0, Fin 0) (Fin 1, Fin 1) = NaN /\
  binary64.calculate_angle (fun x => x)
    binary64.vertex binary64.vertex binary64.off_axes = PrimFloat.nan.
Proof.
  split; [| split].
  - destruct (calculate_angle_range 0.3 0 0 0 0 0.4) as [Hdef _].
    destruct Hdef as (v & -> & _ & Hv); [lra | lra |].
    f_equal. apply Hv; [reflexivity | lra].
  - apply (calculate_angle_range 0 0 0 0 1 1). left; reflexivity.
  - apply (calculate_angle_range 0 0 0 0 0 0). left; reflexivity.
Defined.

(** C8 fails as stated: in binary64 arithmetic, take the vertex apart from
    both end points, at a distance of 1e-200.  The square of that distance
    underflows to zero, both lengths are computed as zero, and the angle is
    0/0 = NaN.  At a distance of 1e200 the squares overflow, the lengths are
    infinite, and the angle is inf/inf = NaN. *)
Lemma squared_lengths_leave_the_float_range :
  binary64.vertex <> binary64.near_on_x /\
  binary64.vertex <> binary64.near_on_y /\
  binary64.norm (binary64.vsub binary64.near_on_x binary64.vertex) = PrimFloat.zero /\
  (forall acos : PrimFloat.float -> PrimFloat.float,
     binary64.calculate_angle acos
       binary64.near_on_x binary64.vertex binary64.near_on_y = PrimFloat.nan) /\
  binary64.vertex <> binary64.far_on_x /\
  binary64.vertex <> binary64.far_off_axes /\
  binary64.norm (binary64.vsub binary64.far_on_x binary64.vertex) = PrimFloat.infinity /\
  (forall acos : PrimFloat.float -> PrimFloat.float,
     binary64.calculate_angle acos
       binary64.far_off_axes binary64.vertex binary64.far_on_x = PrimFloat.nan).
Proof.
  assert (Hne : forall p : binary64.point,
            PrimFloat.eqb p.1 PrimFloat.zero = false -> binary64.vertex <> p).
  { intros p Hp E. rewrite <- E in Hp. vm_compute in Hp. discriminate. }
  assert (Hne' : forall p : binary64.point,
            PrimFloat.eqb p.2 PrimFloat.zero = false -> binary64.vertex <> p).
  { intros p Hp E. rewrite <- E in Hp. vm_compute in Hp. discriminate. }
  split; [apply Hne; reflexivity |].
  split; [apply Hne'; reflexivity |].
  split; [vm_compute; reflexivity |].
  split; [intros acos; vm_compute; reflexivity |].
  split; [apply Hne; reflexivity |].
  split; [apply Hne; reflexivity |].
  split; [vm_compute; reflexivity |].
  intros acos. vm_compute. reflexivity.
Qed.

(** A NaN coordinate propagates to the result, without raising. *)
Lemma calculate_angle_nan_vertex (a c : point) (y : float) :
  calculate_angle a (NaN, y) c = NaN.
Proof.
  destruct a as [ax ay], c as [cx cy].
  unfold calculate_angle, vsub, norm, dot; cbn [fst snd].
  destruct ax, ay, y, cx, cy; cbn; repeat (destruct (decide _); cbn); reflexivity.
Qed.

(** ** Order on floats and [np.argmax] *)

Lemma le_refl (x : float) : isnan x = false -> le x x = true.
Proof.
  destruct x as [|s|r]; cbn; intros H; try discriminate.
  - destruct s; reflexivity.
  - apply bool_decide_eq_true_2; lra.
Qed.

Lemma le_total (x y : float) :
  isnan x = false -> isnan y = false -> le x y = false -> le y x = true.
Proof.
  destruct x as [|s|a], y as [|t|b]; cbn; intros Hx Hy H; try discriminate.
  - destruct s, t; cbn in *; congruence.
  - destruct s; cbn in *; congruence.
  - destruct t; cbn in *; congruence.
  - apply bool_decide_eq_false_1 in H. apply bool_decide_eq_true_2; lra.
Qed.

Lemma le_trans (x y z : float) :
  le x y = true -> le y z = true -> le x z = true.
Proof.
  destruct x as [|s|a], y as [|t|b], z as [|u|c]; cbn; intros H1 H2;
    try discriminate; try reflexivity;
    try (destruct s, t, u; cbn in *; congruence);
    try (destruct s, t; cbn in *; congruence);
    try (destruct s, u; cbn in *; congruence);
    try (destruct t, u; cbn in *; congruence);
    try (destruct s; cbn in *; congruence);
    try (destruct t; cbn in *; congruence);
    try (destruct u; cbn in *; congruence).
  apply bool_decide_eq_true_1 in H1, H2. apply bool_decide_eq_true_2; lra.
Qed.

(** The loop of [np.argmax] keeps the position of the first maximum of what
    it has scanned. *)
Lemma argmax_loop_spec (ip pre : list float) (mp : float) (mi i : nat) :
  Forall (fun x => isnan x = false) ip ->
  isnan mp = false ->
  length pre = i ->
  pre !! mi = Some mp ->
  (forall j x, pre !! j = Some x -> le x mp = true) ->
  (forall j x, (j < mi)%nat -> pre !! j = Some x -> le mp x = false) ->
  exists m,
    (pre ++ ip) !! argmax_loop mp mi i ip = Some m /\
    (forall j x, (pre ++ ip) !! j = Some x -> le x m = true) /\
    (forall j x, (j < argmax_loop mp mi i ip)%nat ->
                 (pre ++ ip) !! j = Some x -> le m x = false).
Proof.
  revert pre mp mi i.
  induction ip as [|x rest IH]; intros pre mp mi i Hnn Hmp Hlen Hmi Hmax Hfirst.
  - cbn. rewrite app_nil_r. eauto.
  - apply Forall_cons in Hnn as [Hx Hrest]. cbn [argmax_loop].
    replace (pre ++ x :: rest) with ((pre ++ [x]) ++ rest)
      by (rewrite <- app_assoc; reflexivity).
    destruct (le x mp) eqn:Hle.
    + apply IH; auto.
      * rewrite length_app; cbn; lia.
      * apply lookup_app_l_Some; exact Hmi.
      * intros j y Hj. apply lookup_app_Some in Hj as [Hj|[_ Hj]]; [eauto |].
        apply list_lookup_singleton_Some in Hj as [_ <-]. exact Hle.
      * intros j y Hlt Hj. apply lookup_app_Some in Hj as [Hj|[Hge _]]; [eauto |].
        apply lookup_lt_Some in Hmi. lia.
    + rewrite Hx. apply IH; auto.
      * rewrite length_app; cbn; lia.
      * rewrite lookup_app_r by lia. rewrite Hlen, Nat.sub_diag. reflexivity.
      * intros j y Hj. apply lookup_app_Some in Hj as [Hj|[_ Hj]].
        -- eapply le_trans; [eapply Hmax; eauto |]. apply le_total; auto.
        -- apply list_lookup_singleton_Some in Hj as [_ <-]. apply le_refl; auto.
      * intros j y Hlt Hj. apply lookup_app_Some in Hj as [Hj|[Hge _]]; [| lia].
        destruct (le x y) eqn:Hxy; [| reflexivity].
        rewrite (le_trans x y mp Hxy (Hmax _ _ Hj)) in Hle. discriminate.
Qed.

Lemma argmax_spec (a : list float) :
  a <> [] ->
  Forall (fun x => isnan x = false) a ->
  exists k m,
    argmax a = Some k /\ a !! k = Some m /\
    (forall j x, a !! j = Some x -> le x m = true) /\
    (forall j x, (j < k)%nat -> a !! j = Some x -> le m x = false).
Proof.
  intros Hne Hnn. destruct a as [|x rest]; [contradiction |].
  apply Forall_cons in Hnn as [Hx Hrest]. cbn [argmax]. rewrite Hx.
  destruct (argmax_loop_spec rest [x] x 0 1 Hrest Hx eq_refl eq_refl) as (m & H1 & H2 & H3).
  - intros [|j] y Hj; cbn in Hj; [| discriminate]. inversion Hj; subst. apply le_refl; auto.
  - intros j y Hlt; lia.
  - exists (argmax_loop x 0 1 rest), m. auto.
Qed.

Lemma argmin_loop_lt (ip : list float) (mp : float) (mi i : nat) :
  (mi < i)%nat -> (argmin_loop mp mi i ip < i + length ip)%nat.
Proof.
  revert mp mi i. induction ip as [|x rest IH]; intros mp mi i Hlt; cbn; [lia |].
  destruct (ge x mp).
  - specialize (IH mp mi (S i)). lia.
  - destruct (isnan x); [lia |]. specialize (IH x i (S i)). lia.
Qed.

Lemma argmin_lt (a : list float) :
  a <> [] -> exists k, argmin a = Some k /\ (k < length a)%nat.
Proof.
  destruct a as [|x rest]; [contradiction | intros _]. cbn [argmin].
  eexists; split; [reflexivity |].
  destruct (isnan x); cbn; [lia |].
  pose proof (argmin_loop_lt rest x 0 1). lia.
Qed.

Lemma argmax_loop_lt (ip : list float) (mp : float) (mi i : nat) :
  (mi < i)%nat -> (argmax_loop mp mi i ip < i + length ip)%nat.
Proof.
  revert mp mi i. induction ip as [|x rest IH]; intros mp mi i Hlt; cbn; [lia |].
  destruct (le x mp).
  - specialize (IH mp mi (S i)). lia.
  - destruct (isnan x); [lia |]. specialize (IH x i (S i)). lia.
Qed.

Lemma argmax_lt (a : list float) :
  a <> [] -> exists k, argmax a = Some k /\ (k < length a)%nat.
Proof.
  destruct a as [|x rest]; [contradiction | intros _]. cbn [argmax].
  eexists; split; [reflexivity |].
  destruct (isnan x); cbn; [lia |].
  pose proof (argmax_loop_lt rest x 0 1). lia.
Qed.

(** ** Boolean masks: [a[mask]] against [np.where(mask)[0]] *)

Lemma where_from_length (ys : list float) (i : nat) :
  length (where_from i (map (fun y => negb (isnan y)) ys)) =
  length (boolean_index ys (map (fun y => negb (isnan y)) ys)).
Proof.
  revert i. induction ys as [|y ys IH]; intros i; cbn; [reflexivity |].
  destruct (isnan y); cbn; auto.
Qed.

Lemma boolean_index_not_nan (ys : list float) :
  Forall (fun x => isnan x = false) (boolean_index ys (map (fun y => negb (isnan y)) ys)).
Proof.
  induction ys as [|y ys IH]; cbn; [constructor |].
  destruct (isnan y) eqn:E; cbn; auto.
Qed.

Lemma boolean_index_nonempty (ys : list float) :
  existsb (fun b => b) (map (fun y => negb (isnan y)) ys) = true ->
  boolean_index ys (map (fun y => negb (isnan y)) ys) <> [].
Proof.
  induction ys as [|y ys IH]; cbn; [discriminate |].
  destruct (isnan y); cbn; [exact IH | discriminate].
Qed.

Lemma existsb_valid (ys : list float) :
  existsb (fun b => b) (map (fun y => negb (isnan y)) ys) = true <->
  exists q y, ys !! q = Some y /\ isnan y = false.
Proof.
  induction ys as [|y ys IH]; cbn.
  - split; [discriminate | intros (q & y & H & _); discriminate].
  - destruct (isnan y) eqn:E; cbn.
    + rewrite IH. split.
      * intros (q & y' & H1 & H2). exists (S q), y'. auto.
      * intros ([|q] & y' & H1 & H2); cbn in H1; [congruence | eauto].
    + split; [| reflexivity]. intros _. exists 0%nat, y. auto.
Qed.

(** The [k]-th candidate position holds the [k]-th defined value, and the
    defined values before that position are the earlier ones. *)
Lemma where_from_lookup (ys : list float) (i k p : nat) :
  where_from i (map (fun y => negb (isnan y)) ys) !! k = Some p ->
  exists v,
    (i <= p)%nat /\ ys !! (p - i)%nat = Some v /\ isnan v = false /\
    boolean_index ys (map (fun y => negb (isnan y)) ys) !! k = Some v /\
    (forall q y', (q < p - i)%nat -> ys !! q = Some y' -> isnan y' = false ->
       exists j, (j < k)%nat /\
         boolean_index ys (map (fun y => negb (isnan y)) ys) !! j = Some y').
Proof.
  revert i k p. induction ys as [|y ys IH]; intros i k p; cbn; [discriminate |].
  destruct (isnan y) eqn:E; cbn.
  - intros H. destruct (IH _ _ _ H) as (v & Hle & Hv & Hnn & Hk & Hbefore).
    exists v. replace (p - i)%nat with (S (p - S i)) by lia.
    repeat split; [lia | exact Hv | exact Hnn | exact Hk |].
    intros [|q] y' Hq Hy' Hnn'; cbn in Hy'; [congruence |].
    apply (Hbefore q y'); [lia | auto..].
  - destruct k as [|k]; cbn.
    + intros [= <-]. exists y. rewrite Nat.sub_diag.
      repeat split; auto. intros q y' Hq; lia.
    + intros H. destruct (IH _ _ _ H) as (v & Hle & Hv & Hnn & Hk & Hbefore).
      exists v. replace (p - i)%nat with (S (p - S i)) by lia.
      repeat split; [lia | exact Hv | exact Hnn | exact Hk |].
      intros [|q] y' Hq Hy' Hnn'; cbn in Hy'.
      * exists 0%nat. split; [lia |]. cbn. congruence.
      * destruct (Hbefore q y') as (j & Hj & Hj'); [lia | auto..].
        exists (S j). split; [lia | exact Hj'].
Qed.

Lemma boolean_index_elem (ys : list float) (q : nat) (y : float) :
  ys !! q = Some y -> isnan y = false ->
  exists j, boolean_index ys (map (fun y => negb (isnan y)) ys) !! j = Some y.
Proof.
  revert q. induction ys as [|y0 ys IH]; intros q; cbn; [discriminate |].
  destruct q as [|q]; cbn.
  - intros [= ->] ->. exists 0%nat. reflexivity.
  - intros Hq Hnn. destruct (IH _ Hq Hnn) as (j & Hj).
    destruct (isnan y0); cbn; [exists j | exists (S j)]; exact Hj.
Qed.

(** ** The Event Detector *)

(** The ankle rule: the FFC position is that of the first maximum of the
    defined front-ankle heights. *)
Lemma ffc_frame_idx_spec (ys : list float) :
  (exists q y, ys !! q = Some y /\ isnan y = false) ->
  exists p y,
    ffc_frame_idx_of ys = Ok p /\ ys !! p = Some y /\ isnan y = false /\
    (forall q y', ys !! q = Some y' -> isnan y' = false -> le y' y = true) /\
    (forall q y', (q < p)%nat -> ys !! q = Some y' -> isnan y' = false ->
                  le y y' = false).
Proof.
  intros Hex. apply existsb_valid in Hex.
  destruct (argmax_spec _ (boolean_index_nonempty _ Hex) (boolean_index_not_nan ys))
    as (k & m & Hk & Hm & Hmax & Hfirst).
  unfold ffc_frame_idx_of. rewrite Hk. unfold item, where_.
  assert (Hlt : (k < length (where_from 0 (map (fun y => negb (isnan y)) ys)))%nat).
  { rewrite where_from_length. eapply lookup_lt_Some; eauto. }
  apply lookup_lt_is_Some in Hlt as [p Hp]. rewrite Hp.
  destruct (where_from_lookup _ _ _ _ Hp) as (v & _ & Hv & Hnn & Hkv & Hbefore).
  rewrite Nat.sub_0_r in Hv, Hbefore.
  assert (v = m) by congruence; subst v.
  exists p, m. repeat split; auto.
  - intros q y' Hq Hnn'. destruct (boolean_index_elem _ _ _ Hq Hnn') as (j & Hj). eauto.
  - intros q y' Hlt Hq Hnn'. destruct (Hbefore q y' Hlt Hq Hnn') as (j & Hj & Hj'). eauto.
Qed.

Lemma front_ankle_y_lookup (d : DataFrame) (q : nat) :
  front_ankle_y_of d !! q = (fun row => get row "RIGHT_ANKLE_y" NaN) <$> d !! q.
Proof. unfold front_ankle_y_of. apply list_lookup_fmap. Qed.

Lemma iloc_lookup (d : DataFrame) (i : nat) (row : Row) :
  d !! i = Some row -> iloc d (Z.of_nat i) = Ok row.
Proof.
  intros H. pose proof (lookup_lt_Some _ _ _ H) as Hlt.
  unfold iloc, len.
  replace (Z.of_nat i <? 0) with false by (symmetry; apply Z.ltb_ge; lia).
  replace (0 <=? Z.of_nat i) with true by (symmetry; apply Z.leb_le; lia).
  replace (Z.of_nat i <? Z.of_nat (length d)) with true by (symmetry; apply Z.ltb_lt; lia).
  cbn. rewrite Nat2Z.id, H. reflexivity.
Qed.

(** The detector on a data frame, ankle branch: what it sets, in terms of
    the FFC position. *)
Lemma detect_ankle_branch (d : DataFrame) (p : nat) (ffc_row release_row : Row) :
  (exists q y, front_ankle_y_of d !! q = Some y /\ isnan y = false) ->
  ffc_frame_idx_of (front_ankle_y_of d) = Ok p ->
  d !! p = Some ffc_row ->
  d !! (p + Nat.min 8 (length d - p - 1))%nat = Some release_row ->
  detect_front_foot_contact (init (PyDataFrame d)) =
  Ok {| df := PyDataFrame d;
        ffc_frame := Some (frame ffc_row);
        ball_release_frame := Some (frame release_row) |}.
Proof.
  intros Hex Hp Hrow Hrel. apply existsb_valid in Hex.
  unfold detect_front_foot_contact. cbn [init df iterrows mbind result_bind].
  rewrite Hex, Hp. cbn [mbind result_bind].
  rewrite (iloc_lookup _ _ _ Hrow). cbn [mbind result_bind mret result_ret].
  pose proof (lookup_lt_Some _ _ _ Hrow) as Hlt. unfold len.
  destruct (0 <? _) eqn:Hoff.
  - apply Z.ltb_lt in Hoff.
    replace (Z.of_nat p + Z.min 8 (Z.of_nat (length d) - Z.of_nat p - 1))
      with (Z.of_nat (p + Nat.min 8 (length d - p - 1))) by lia.
    rewrite (iloc_lookup _ _ _ Hrel). reflexivity.
  - apply Z.ltb_ge in Hoff.
    replace (p + Nat.min 8 (length d - p - 1))%nat with p in Hrel by lia.
    assert (release_row = ffc_row) as -> by congruence. reflexivity.
Qed.

(** The detector on a data frame, midpoint fallback. *)
Lemma detect_midpoint_branch (d : DataFrame) (ffc_row release_row : Row) :
  (forall q y, front_ankle_y_of d !! q = Some y -> isnan y = true) ->
  d !! (length d / 2)%nat = Some ffc_row ->
  d !! Nat.min (length d / 2 + 5) (length d - 1) = Some release_row ->
  detect_front_foot_contact (init (PyDataFrame d)) =
  Ok {| df := PyDataFrame d;
        ffc_frame := Some (frame ffc_row);
        ball_release_frame := Some (frame release_row) |}.
Proof.
  intros Hnone Hrow Hrel.
  assert (Hex : existsb (fun b => b)
                  (map (fun y => negb (isnan y)) (front_ankle_y_of d)) = false).
  { apply not_true_is_false. intros H. apply existsb_valid in H as (q & y & Hq & Hy).
    rewrite (Hnone _ _ Hq) in Hy. discriminate. }
  unfold detect_front_foot_contact. cbn [init df iterrows mbind result_bind].
  rewrite Hex. unfold len.
  pose proof (lookup_lt_Some _ _ _ Hrow) as Hlt.
  replace (Z.of_nat (length d) / 2) with (Z.of_nat (length d / 2))
    by (rewrite Nat2Z.inj_div; reflexivity).
  rewrite (iloc_lookup _ _ _ Hrow). cbn [mbind result_bind].
  replace (Z.min (Z.of_nat (length d / 2) + 5) (Z.of_nat (length d) - 1))
    with (Z.of_nat (Nat.min (length d / 2 + 5) (length d - 1))) by lia.
  rewrite (iloc_lookup _ _ _ Hrel). reflexivity.
Qed.

(** C7.  When some frame has a defined front-ankle height, the detector
    succeeds and FFC is the frame of a row whose height is defined and is at
    least every other defined height (the first such row); in particular,
    when exactly one frame has a defined height, FFC is that frame, wherever
    it stands in the sequence. *)
Theorem ffc_is_max_front_ankle (d : DataFrame) :
  (exists q row, d !! q = Some row /\ isnan (get row "RIGHT_ANKLE_y" NaN) = false) ->
  exists self' p ffc_row,
    detect_front_foot_contact (init (PyDataFrame d)) = Ok self' /\
    d !! p = Some ffc_row /\
    ffc_frame self' = Some (frame ffc_row) /\
    isnan (get ffc_row "RIGHT_ANKLE_y" NaN) = false /\
    (forall q row, d !! q = Some row ->
       isnan (get row "RIGHT_ANKLE_y" NaN) = false ->
       le (get row "RIGHT_ANKLE_y" NaN) (get ffc_row "RIGHT_ANKLE_y" NaN) = true) /\
    (forall q row, (q < p)%nat -> d !! q = Some row ->
       isnan (get row "RIGHT_ANKLE_y" NaN) = false ->
       le (get ffc_row "RIGHT_ANKLE_y" NaN) (get row "RIGHT_ANKLE_y" NaN) = false) /\
    (forall q row, d !! q = Some row ->
       isnan (get row "RIGHT_ANKLE_y" NaN) = false ->
       (forall q' row', d !! q' = Some row' ->
          isnan (get row' "RIGHT_ANKLE_y" NaN) = false -> q' = q) ->
       ffc_frame self' = Some (frame row)).
Proof.
  intros (q0 & row0 & Hq0 & Hnn0).
  assert (Hex : exists q y, front_ankle_y_of d !! q = Some y /\ isnan y = false).
  { exists q0, (get row0 "RIGHT_ANKLE_y" NaN). rewrite front_ankle_y_lookup, Hq0. auto. }
  destruct (ffc_frame_idx_spec _ Hex) as (p & y & Hp & Hy & Hnn & Hmax & Hfirst).
  rewrite front_ankle_y_lookup in Hy.
  destruct (d !! p) as [ffc_row|] eqn:Hrow; [| discriminate].
  cbn in Hy. injection Hy as <-.
  assert (Hrel : is_Some (d !! (p + Nat.min 8 (length d - p - 1))%nat)).
  { apply lookup_lt_is_Some. apply lookup_lt_Some in Hrow. lia. }
  destruct Hrel as [release_row Hrel].
  eexists _, p, ffc_row. split; [eapply detect_ankle_branch; eauto |].
  cbn [ffc_frame]. repeat split; auto.
  - intros q row Hq Hrn. apply (Hmax q); [| exact Hrn].
    rewrite front_ankle_y_lookup, Hq. reflexivity.
  - intros q row Hlt Hq Hrn. apply (Hfirst q); [exact Hlt | | exact Hrn].
    rewrite front_ankle_y_lookup, Hq. reflexivity.
  - intros q row Hq Hrn Huniq.
    assert (p = q) by (apply Huniq with ffc_row; auto). subst q. congruence.
Qed.

(** C4.  On a non-empty sequence with strictly increasing frame indices the
    detector succeeds, by the ankle rule or by the midpoint fallback, and the
    BallRelease frame index lies between the FFC frame index and the index
    of the last frame. *)
Theorem release_between_ffc_and_last (d : DataFrame) :
  d <> [] ->
  (forall i j ri rj, d !! i = Some ri -> d !! j = Some rj ->
     (i < j)%nat -> frame ri < frame rj) ->
  exists self' ffc release last_row,
    detect_front_foot_contact (init (PyDataFrame d)) = Ok self' /\
    ffc_frame self' = Some ffc /\
    ball_release_frame self' = Some release /\
    last d = Some last_row /\
    ffc <= release <= frame last_row.
Proof.
  intros Hne Hinc.
  assert (Hlen : (0 < length d)%nat) by (destruct d; [contradiction | cbn; lia]).
  assert (Hmono : forall i j ri rj, d !! i = Some ri -> d !! j = Some rj ->
            (i <= j)%nat -> frame ri <= frame rj).
  { intros i j ri rj Hi Hj Hle. destruct (decide (i = j)) as [->|Hneq].
    - assert (ri = rj) by congruence. subst. lia.
    - assert (frame ri < frame rj) by (eapply Hinc; eauto; lia). lia. }
  destruct (last d) as [last_row|] eqn:Hlast;
    [| apply last_None in Hlast; contradiction].
  pose proof Hlast as Hlast'. rewrite last_lookup in Hlast'.
  destruct (existsb (fun b => b)
              (map (fun y => negb (isnan y)) (front_ankle_y_of d))) eqn:Hex.
  - apply existsb_valid in Hex.
    destruct (ffc_frame_idx_spec _ Hex) as (p & y & Hp & Hy & _).
    apply lookup_lt_Some in Hy. unfold front_ankle_y_of in Hy. rewrite length_map in Hy.
    destruct (lookup_lt_is_Some_2 d p Hy) as [ffc_row Hrow].
    destruct (lookup_lt_is_Some_2 d (p + Nat.min 8 (length d - p - 1))%nat)
      as [release_row Hrel]; [lia |].
    exists {| df := PyDataFrame d; ffc_frame := Some (frame ffc_row);
              ball_release_frame := Some (frame release_row) |},
      (frame ffc_row), (frame release_row), last_row.
    split; [eapply detect_ankle_branch; eauto |].
    repeat split; auto.
    + eapply Hmono; eauto; lia.
    + eapply Hmono; eauto. apply lookup_lt_Some in Hrel. lia.
  - assert (Hdiv : (length d / 2 < length d)%nat)
      by (apply Nat.div_lt; lia).
    destruct (lookup_lt_is_Some_2 d (length d / 2)%nat Hdiv) as [ffc_row Hrow].
    destruct (lookup_lt_is_Some_2 d (Nat.min (length d / 2 + 5) (length d - 1)))
      as [release_row Hrel]; [lia |].
    exists {| df := PyDataFrame d; ffc_frame := Some (frame ffc_row);
              ball_release_frame := Some (frame release_row) |},
      (frame ffc_row), (frame release_row), last_row.
    split.
    { eapply detect_midpoint_branch; eauto.
      intros q y Hq. destruct (isnan y) eqn:E; [reflexivity |].
      assert (existsb (fun b => b)
                (map (fun y => negb (isnan y)) (front_ankle_y_of d)) = true)
        by (apply existsb_valid; eauto).
      congruence. }
    repeat split; auto.
    + eapply Hmono; eauto. lia.
    + eapply Hmono; eauto. apply lookup_lt_Some in Hrel. lia.
Qed.

(** C5, as the code has it.  When FFC is detected from ankle data, BallRelease
    is the frame standing [min(8, r)] positions after the FFC frame, where [r]
    is the number of frames that follow the FFC frame: eight positions ahead,
    clamped to the last frame.  It is the FFC frame itself when no frame
    follows; with one frame following, it is that frame. *)
Theorem release_offset_from_ffc (d : DataFrame) :
  (exists q row, d !! q = Some row /\ isnan (get row "RIGHT_ANKLE_y" NaN) = false) ->
  exists self' p ffc_row release_row,
    ffc_frame_idx_of (front_ankle_y_of d) = Ok p /\
    detect_front_foot_contact (init (PyDataFrame d)) = Ok self' /\
    d !! p = Some ffc_row /\
    ffc_frame self' = Some (frame ffc_row) /\
    d !! (p + Nat.min 8 (length d - p - 1))%nat = Some release_row /\
    ball_release_frame self' = Some (frame release_row) /\
    (p + Nat.min 8 (length d - p - 1) <= length d - 1)%nat /\
    ((length d - p - 1 = 0)%nat -> ball_release_frame self' = ffc_frame self') /\
    ((length d - p - 1 = 1)%nat -> d !! (p + 1)%nat = Some release_row).
Proof.
  intros (q0 & row0 & Hq0 & Hnn0).
  assert (Hex : exists q y, front_ankle_y_of d !! q = Some y /\ isnan y = false).
  { exists q0, (get row0 "RIGHT_ANKLE_y" NaN). rewrite front_ankle_y_lookup, Hq0. auto. }
  destruct (ffc_frame_idx_spec _ Hex) as (p & y & Hp & Hy & _).
  apply lookup_lt_Some in Hy. unfold front_ankle_y_of in Hy. rewrite length_map in Hy.
  destruct (lookup_lt_is_Some_2 d p Hy) as [ffc_row Hrow].
  destruct (lookup_lt_is_Some_2 d (p + Nat.min 8 (length d - p - 1))%nat)
    as [release_row Hrel]; [lia |].
  eexists _, p, ffc_row, release_row.
  split; [exact Hp |]. split; [eapply detect_ankle_branch; eauto |].
  cbn [ffc_frame ball_release_frame]. repeat split; auto.
  - lia.
  - intros H0. rewrite H0 in Hrel. cbn in Hrel. rewrite Nat.add_0_r in Hrel. congruence.
  - intros H1. rewrite H1 in Hrel. exact Hrel.
Qed.

(** ** Evaluating the detector on sample trials *)

Lemma le_fin_true (a b : R) : (a <= b)%R -> le (Fin a) (Fin b) = true.
Proof. intros H. cbn. apply bool_decide_eq_true_2; exact H. Qed.

Lemma le_fin_false (a b : R) : (b < a)%R -> le (Fin a) (Fin b) = false.
Proof. intros H. cbn. apply bool_decide_eq_false_2; lra. Qed.

Lemma two_frames_ffc_idx : ffc_frame_idx_of (front_ankle_y_of two_frames) = Ok 0%nat.
Proof.
  change (front_ankle_y_of two_frames) with [Fin 0.9; Fin 0.5].
  unfold ffc_frame_idx_of. cbn [map isnan negb boolean_index argmax argmax_loop].
  rewrite le_fin_true by lra. reflexivity.
Qed.

(** C5 fails as stated: here FFC comes from the ankle rule at the first of
    two frames, so one frame (fewer than two) follows it, and BallRelease is
    that following frame, not the FFC frame. *)
Lemma release_with_one_frame_left :
  exists self',
    detect_front_foot_contact (init (PyDataFrame two_frames)) = Ok self' /\
    ffc_frame_idx_of (front_ankle_y_of two_frames) = Ok 0%nat /\
    (length two_frames - 0 - 1 < 2)%nat /\
    ffc_frame self' = Some 0 /\
    ball_release_frame self' = Some 1 /\
    ball_release_frame self' <> ffc_frame self'.
Proof.
  eexists. split.
  - eapply (detect_ankle_branch two_frames 0); [| exact two_frames_ffc_idx | reflexivity..].
    exists 0%nat, (Fin 0.9). split; reflexivity.
  - cbn [ffc_frame ball_release_frame frame landmarks_row two_frames].
    split; [exact two_frames_ffc_idx |]. repeat split; [cbn; lia | discriminate].
Qed.

Lemma two_frames_increasing (i j : nat) (ri rj : Row) :
  two_frames !! i = Some ri -> two_frames !! j = Some rj ->
  (i < j)%nat -> frame ri < frame rj.
Proof.
  destruct i as [|[|i]], j as [|[|j]]; cbn; intros Hi Hj Hlt;
    try discriminate; try lia.
  injection Hi as <-. injection Hj as <-. cbn. lia.
Defined.

Lemma ffc_is_max_front_ankle_witness :
  exists self' p ffc_row,
    detect_front_foot_contact (init (PyDataFrame two_frames)) = Ok self' /\
    two_frames !! p = Some ffc_row /\
    ffc_frame self' = Some (frame ffc_row).
Proof.
  destruct (ffc_is_max_front_ankle two_frames) as (self' & p & ffc_row & H1 & H2 & H3 & _).
  - exists 0%nat, (landmarks_row 0 pose). split; reflexivity.
  - exists self', p, ffc_row. auto.
Defined.

Lemma release_between_ffc_and_last_witness :
  exists self' ffc release last_row,
    detect_front_foot_contact (init (PyDataFrame two_frames)) = Ok self' /\
    ffc_frame self' = Some ffc /\
    ball_release_frame self' = Some release /\
    last two_frames = Some last_row /\
    ffc <= release <= frame last_row.
Proof.
  apply (release_between_ffc_and_last two_frames).
  - discriminate.
  - exact two_frames_increasing.
Defined.

Lemma release_offset_from_ffc_witness :
  exists self' p release_row,
    detect_front_foot_contact (init (PyDataFrame two_frames)) = Ok self' /\
    two_frames !! (p + Nat.min 8 (length two_frames - p - 1))%nat = Some release_row /\
    ball_release_frame self' = Some (frame release_row).
Proof.
  destruct (release_offset_from_ffc two_frames)
    as (self' & p & ffc_row & release_row & _ & H1 & _ & _ & H2 & H3 & _).
  - exists 0%nat, (landmarks_row 0 pose). split; reflexivity.
  - exists self', p, release_row. auto.
Defined.

(** ** The Phase Analyzer *)

Lemma item_lookup {A : Type} (l : list A) (i : nat) (x : A) :
  l !! i = Some x -> item l i = Ok x.
Proof. unfold item. intros ->. reflexivity. Qed.

Lemma valid_angles_not_nan (series : list (Z * float)) :
  Forall (fun x => isnan x = false) (map snd (valid_angles_of series)).
Proof.
  unfold valid_angles_of. induction series as [|[f a] series IH]; cbn; [constructor |].
  destruct (isnan a) eqn:E; cbn; auto.
Qed.

(** The back-leg search looks at the latter half only. *)
Lemma back_max_ext_idx_spec (angles : list float) :
  angles <> [] ->
  Forall (fun x => isnan x = false) angles ->
  exists idx m,
    back_max_ext_idx angles = Ok idx /\
    (length angles / 2 <= idx < length angles)%nat /\
    angles !! idx = Some m /\
    (forall j x, (length angles / 2 <= j)%nat -> angles !! j = Some x -> le x m = true).
Proof.
  intros Hne Hnn.
  assert (Hlen : (0 < length angles)%nat) by (destruct angles; [contradiction | cbn; lia]).
  assert (Hhalf : (length angles / 2 < length angles)%nat) by (apply Nat.div_lt; lia).
  set (h := (length angles / 2)%nat) in *.
  assert (Hdrop : drop h angles <> []).
  { intros E. apply (f_equal length) in E. rewrite length_drop in E.
    change (length (@nil float)) with 0%nat in E. lia. }
  assert (Hdnn : Forall (fun x => isnan x = false) (drop h angles))
    by (apply Forall_drop; exact Hnn).
  destruct (argmax_spec _ Hdrop Hdnn) as (k & m & Hk & Hm & Hmax & _).
  unfold back_max_ext_idx. fold h. rewrite Hk.
  cbn [mbind result_bind from_option mret result_ret].
  rewrite lookup_drop in Hm.
  exists (h + k)%nat, m. split; [reflexivity |].
  split; [apply lookup_lt_Some in Hm; lia |]. split; [exact Hm |].
  intros j x Hj Hx. apply (Hmax (j - h)%nat).
  rewrite lookup_drop. replace (h + (j - h))%nat with j by lia. exact Hx.
Qed.

(** C9.  When the filtered back-knee series has at least two entries, the
    analysis succeeds and its Max-Extension entry stands in the filtered
    series at a position of the second half (at least the length
    integer-divided by 2), where it is the largest angle of that half. *)
Theorem back_max_extension_in_second_half (series : list (Z * float)) :
  (2 <= length (valid_angles_of series))%nat ->
  exists phases idx,
    analyze_back_knee_phases series = Ok (Some phases) /\
    back_max_ext_idx (map snd (valid_angles_of series)) = Ok idx /\
    (length (valid_angles_of series) / 2 <= idx < length (valid_angles_of series))%nat /\
    valid_angles_of series !! idx =
      Some (max_extension_frame phases, max_extension_angle phases) /\
    (forall j fa, (length (valid_angles_of series) / 2 <= j)%nat ->
       valid_angles_of series !! j = Some fa ->
       le fa.2 (max_extension_angle phases) = true).
Proof.
  intros Hlen.
  set (valid := valid_angles_of series) in *.
  assert (Hvalid : valid <> []) by (intros E; rewrite E in Hlen; cbn in Hlen; lia).
  assert (Hseries : series <> []) by (intros E; subst series; apply Hvalid; reflexivity).
  assert (Hangles : map snd valid <> [])
    by (intros E; apply Hvalid; destruct valid; [reflexivity | discriminate]).
  destruct (back_max_ext_idx_spec _ Hangles (valid_angles_not_nan series))
    as (idx & m & Hidx & Hrange & Hm & Hmax).
  rewrite length_map in Hrange, Hmax.
  destruct (argmin_lt _ Hangles) as (kf & Hkf & Hkf_lt).
  rewrite length_map in Hkf_lt.
  destruct (lookup_lt_is_Some_2 valid 0) as [[f0 a0] H0]; [lia |].
  destruct (lookup_lt_is_Some_2 valid kf Hkf_lt) as [[ff af] Hf].
  destruct (lookup_lt_is_Some_2 valid idx) as [[fe ae] He]; [lia |].
  assert (ae = m).
  { rewrite list_lookup_fmap, He in Hm. cbn in Hm. congruence. }
  subst ae.
  exists {| contact_angle := a0; max_flexion_angle := af; max_extension_angle := m;
            contact_frame := f0; max_flexion_frame := ff; max_extension_frame := fe;
            deviation := deviation_of a0 m |}, idx.
  split.
  { unfold analyze_back_knee_phases. fold valid.
    rewrite (bool_decide_eq_false_2 _ Hseries), (bool_decide_eq_false_2 _ Hvalid).
    rewrite (item_lookup (map fst valid) 0 f0) by (rewrite list_lookup_fmap, H0; reflexivity).
    rewrite (item_lookup (map snd valid) 0 a0) by (rewrite list_lookup_fmap, H0; reflexivity).
    rewrite Hkf, Hidx. cbn [mbind result_bind from_option].
    rewrite (item_lookup (map snd valid) kf af) by (rewrite list_lookup_fmap, Hf; reflexivity).
    rewrite (item_lookup (map fst valid) kf ff) by (rewrite list_lookup_fmap, Hf; reflexivity).
    cbn [mbind result_bind].
    rewrite (item_lookup (map snd valid) idx m) by (rewrite list_lookup_fmap, He; reflexivity).
    rewrite (item_lookup (map fst valid) idx fe) by (rewrite list_lookup_fmap, He; reflexivity).
    reflexivity. }
  cbn [max_extension_frame max_extension_angle].
  repeat split; auto; try lia.
  intros j [f a] Hj Hja. apply (Hmax j); [exact Hj |].
  rewrite list_lookup_fmap, Hja. reflexivity.
Qed.

Lemma back_max_extension_in_second_half_witness :
  exists phases idx,
    analyze_back_knee_phases back_knee_series = Ok (Some phases) /\
    (length (valid_angles_of back_knee_series) / 2 <= idx)%nat /\
    valid_angles_of back_knee_series !! idx =
      Some (max_extension_frame phases, max_extension_angle phases).
Proof.
  destruct (back_max_extension_in_second_half back_knee_series)
    as (phases & idx & H1 & _ & H2 & H3 & _).
  - unfold back_knee_series, valid_angles_of.
    cbn [List.filter snd isnan negb length]. lia.
  - exists phases, idx. split; [exact H1 |]. split; [lia | exact H3].
Defined.

(** On that series the search returns the entry of frame 13 (160 degrees),
    not the larger first entry (170 degrees at frame 10). *)
Lemma back_knee_series_max_extension :
  exists phases,
    analyze_back_knee_phases back_knee_series = Ok (Some phases) /\
    max_extension_frame phases = 13 /\
    max_extension_angle phases = Fin 160.
Proof.
  unfold analyze_back_knee_phases, back_knee_series, valid_angles_of.
  cbn [List.filter snd fst isnan negb map].
  rewrite !bool_decide_eq_false_2 by discriminate.
  unfold back_max_ext_idx.
  cbn [item lookup list_lookup mbind result_bind from_option argmin argmax
       argmin_loop argmax_loop isnan length Nat.div Nat.divmod fst drop ge].
  unfold ge.
  rewrite ?(le_fin_false 170 120), ?(le_fin_false 170 160), ?(le_fin_true 120 160),
          ?(le_fin_false 160 120) by lra.
  cbn. eexists. split; [reflexivity |]. split; reflexivity.
Qed.

(** ** The entry point and the empty sequence *)

(** With a stream that takes the diagnostics, the two prints change
    nothing. *)
Lemma analyze_bowling_on_accepting (video_path : pyobj) :
  analyze_bowling_on (mkConsole Accepting Accepting) video_path =
  analyze_bowling video_path.
Proof.
  unfold analyze_bowling_on, analyze_bowling, try_return.
  cbn [print at_call at_handler mbind result_bind].
  destruct (calculate_biomechanical_summary (init video_path)) as [[summary self']|e];
    reflexivity.
Qed.

(** C10.  [analyze_bowling] contains what the pipeline raises, and nothing
    else.  When the [print] of line 8 is written, it returns the dictionary
    with status "success" and the summary if the pipeline returns, and, if
    the pipeline raises, the dictionary with status "error" and the
    exception's message once the [print] of the handler is written.  What
    a [print] raises is not contained: the exception of the [print] before
    the [try], or of the one inside the handler, reaches the caller. *)
Theorem analyze_bowling_contains_pipeline_errors
    (console : Console) (video_path : pyobj) :
  (at_call console = Accepting ->
   (forall summary self',
      calculate_biomechanical_summary (init video_path) = Ok (summary, self') ->
      analyze_bowling_on console video_path =
        Ok {| status := "success";
              message := "Video analyzed successfully";
              details := Some summary |}) /\
   (forall e,
      calculate_biomechanical_summary (init video_path) = Raise e ->
      (at_handler console = Accepting ->
       analyze_bowling_on console video_path =
         Ok {| status := "error"; message := str e; details := None |}) /\
      (forall e', at_handler console = Failing e' ->
                  analyze_bowling_on console video_path = Raise e'))) /\
  (forall e, at_call console = Failing e ->
             analyze_bowling_on console video_path = Raise e).
Proof.
  unfold analyze_bowling_on, try_return. split.
  - intros ->. cbn [print mbind result_bind]. split.
    + intros summary self' ->. reflexivity.
    + intros e ->. split.
      * intros ->. reflexivity.
      * intros e' ->. reflexivity.
  - intros e ->. reflexivity.
Qed.

Lemma analyze_bowling_contains_pipeline_errors_witness :
  analyze_bowling_on (mkConsole Accepting Accepting) (PyDataFrame []) =
    Ok {| status := "error";
          message := "single positional indexer is out-of-bounds";
          details := None |}.
Proof.
  destruct (analyze_bowling_contains_pipeline_errors
              (mkConsole Accepting Accepting) (PyDataFrame [])) as [Hopen _].
  destruct (Hopen eq_refl) as [_ Hraise].
  apply (Hraise (IndexError "single positional indexer is out-of-bounds"));
    reflexivity.
Defined.

(** C10 fails as stated: with [sys.stdout] closed, the [print] of line 8
    raises ValueError before the [try] is entered, and [analyze_bowling]
    raises it to its caller; closed by the time the handler runs, it is the
    [print] of line 24 that raises. *)
Lemma print_failures_propagate :
  analyze_bowling_on
    (mkConsole (Failing (ValueError "I/O operation on closed file.")) Accepting)
    (PyStr "uploads/delivery.mp4") =
    Raise (ValueError "I/O operation on closed file.") /\
  analyze_bowling_on
    (mkConsole Accepting (Failing (ValueError "I/O operation on closed file.")))
    (PyStr "uploads/delivery.mp4") =
    Raise (ValueError "I/O operation on closed file.").
Proof. split; reflexivity. Qed.

(** The upload handler passes the path of the saved video. *)
Lemma analyze_bowling_of_path (path : string) :
  analyze_bowling (PyStr path) =
  Ok {| status := "error";
        message := "'str' object has no attribute 'iterrows'";
        details := None |}.
Proof. reflexivity. Qed.

(** C3, on the code: with zero frames no ankle height is defined, the
    midpoint fallback reads position [0 // 2 = 0] of an empty table, and the
    detector raises IndexError; the aggregator, which starts with the
    detection, raises with it and produces no row. *)
Theorem empty_sequence_raises :
  detect_front_foot_contact (init (PyDataFrame [])) =
    Raise (IndexError "single positional indexer is out-of-bounds") /\
  calculate_biomechanical_summary (init (PyDataFrame [])) =
    Raise (IndexError "single positional indexer is out-of-bounds") /\
  analyze_bowling (PyDataFrame []) =
    Ok {| status := "error";
          message := "single positional indexer is out-of-bounds";
          details := None |}.
Proof. repeat split; reflexivity. Qed.

(** ** The Frame Feature Extractor *)

Lemma has_columns_landmark (row : Row) (landmark : string) :
  has_columns row -> landmark ∈ required_landmarks -> has_landmark row landmark.
Proof. unfold has_columns. rewrite Forall_forall. auto. Qed.

Lemma getitem_get (row : Row) (key : string) :
  is_Some (cells row !! key) -> getitem row key = Ok (get row key NaN).
Proof. intros [v Hv]. unfold getitem, get. rewrite Hv. reflexivity. Qed.

Lemma getitem_ok_inv (row : Row) (key : string) (v : float) :
  getitem row key = Ok v -> is_Some (cells row !! key).
Proof. unfold getitem. destruct (cells row !! key); [eauto | discriminate]. Qed.

Lemma xy_ok (row : Row) (landmark : string) :
  has_landmark row landmark -> xy row landmark = Ok (pt row landmark).
Proof.
  intros [Hx Hy]. unfold xy, pt.
  rewrite (getitem_get _ _ Hx), (getitem_get _ _ Hy). reflexivity.
Qed.

Lemma xy_ok_inv (row : Row) (landmark : string) (p : point) :
  xy row landmark = Ok p -> has_landmark row landmark.
Proof.
  unfold xy, has_landmark.
  destruct (getitem row (landmark +:+ "_x")) eqn:Hx; [| discriminate].
  destruct (getitem row (landmark +:+ "_y")) eqn:Hy; [| discriminate].
  intros _. split; eapply getitem_ok_inv; eauto.
Qed.

Lemma landmark_angle_ok (row : Row) (a b c : string) :
  has_landmark row a -> has_landmark row b -> has_landmark row c ->
  landmark_angle row a b c = Ok (calculate_angle (pt row a) (pt row b) (pt row c)).
Proof.
  intros Ha Hb Hc. unfold landmark_angle.
  rewrite (xy_ok _ _ Ha), (xy_ok _ _ Hb), (xy_ok _ _ Hc). reflexivity.
Qed.

Lemma landmark_angle_ok_inv (row : Row) (a b c : string) (v : float) :
  landmark_angle row a b c = Ok v ->
  has_landmark row a /\ has_landmark row b /\ has_landmark row c.
Proof.
  unfold landmark_angle.
  destruct (xy row a) eqn:Ha; [| discriminate].
  destruct (xy row b) eqn:Hb; [| discriminate].
  destruct (xy row c) eqn:Hc; [| discriminate].
  intros _. repeat split; eapply xy_ok_inv; eauto.
Qed.

Lemma pelvis_rotation_ok (row : Row) :
  has_landmark row "LEFT_HIP" -> has_landmark row "RIGHT_HIP" ->
  pelvis_rotation_of row =
  Ok (calculate_angle (pt row "LEFT_HIP") (pt row "RIGHT_HIP")
        (add (pt row "RIGHT_HIP").1 (Fin 10), (pt row "RIGHT_HIP").2)).
Proof.
  intros Hl Hr. unfold pelvis_rotation_of.
  rewrite (xy_ok _ _ Hl), (xy_ok _ _ Hr).
  destruct Hr as [Hx Hy].
  cbn [mbind result_bind].
  change ("RIGHT_HIP" +:+ "_x") with "RIGHT_HIP_x" in Hx.
  change ("RIGHT_HIP" +:+ "_y") with "RIGHT_HIP_y" in Hy.
  rewrite (getitem_get _ _ Hx), (getitem_get _ _ Hy). reflexivity.
Qed.

Lemma midpoint_ok (row : Row) (l r : string) :
  has_landmark row l -> has_landmark row r ->
  midpoint row l r =
  Ok (div (add (pt row l).1 (pt row r).1) (Fin 2),
      div (add (pt row l).2 (pt row r).2) (Fin 2)).
Proof.
  intros [Hlx Hly] [Hrx Hry]. unfold midpoint.
  rewrite (getitem_get _ _ Hlx), (getitem_get _ _ Hrx),
          (getitem_get _ _ Hly), (getitem_get _ _ Hry).
  reflexivity.
Qed.

Lemma spine_angle_ok (self : Extractor) (row : Row) :
  has_landmark row "LEFT_HIP" -> has_landmark row "RIGHT_HIP" ->
  has_landmark row "LEFT_SHOULDER" -> has_landmark row "RIGHT_SHOULDER" ->
  spine_angle_of row = Ok (Spine_Angle (computed_features self row)).
Proof.
  intros H1 H2 H3 H4. unfold spine_angle_of.
  rewrite (midpoint_ok _ _ _ H1 H2), (midpoint_ok _ _ _ H3 H4). reflexivity.
Qed.

Lemma shoulder_alignment_ok (row : Row) :
  has_landmark row "LEFT_SHOULDER" -> has_landmark row "RIGHT_SHOULDER" ->
  shoulder_alignment_of row =
  Ok (mul (abs (sub (pt row "LEFT_SHOULDER").2 (pt row "RIGHT_SHOULDER").2))
        (Fin 57.2958)).
Proof.
  intros [_ Hl] [_ Hr]. unfold shoulder_alignment_of.
  change ("LEFT_SHOULDER" +:+ "_y") with "LEFT_SHOULDER_y" in Hl.
  change ("RIGHT_SHOULDER" +:+ "_y") with "RIGHT_SHOULDER_y" in Hr.
  rewrite (getitem_get _ _ Hl), (getitem_get _ _ Hr). reflexivity.
Qed.

Ltac landmark_in :=
  match goal with
  | H : has_columns ?row |- has_landmark ?row ?l =>
      apply (has_columns_landmark row l H); unfold required_landmarks;
      repeat first [apply list_elem_of_here | apply list_elem_of_further]
  end.

(** With every column there, the [try] block runs to its end. *)
Lemma try_block_ok (self : Extractor) (row : Row) (s : Locals) :
  has_columns row ->
  try_block self row s =
  (Ok tt,
   {| front_knee_angles :=
        front_knee_angles s ++
        [(frame row, Front_Knee_Angle (computed_features self row))];
      back_knee_angles :=
        back_knee_angles s ++
        [(frame row, Back_Knee_Angle (computed_features self row))];
      frame_features := frame_features s ++ [computed_features self row] |}).
Proof.
  intros Hc. unfold try_block.
  rewrite !landmark_angle_ok by landmark_in.
  rewrite shoulder_alignment_ok, pelvis_rotation_ok, (spine_angle_ok self) by landmark_in.
  reflexivity.
Qed.

Ltac run_step r :=
  let H := fresh "Hstep" in
  destruct r eqn:H;
  cbn [mbind M_bind lift append_front_knee append_back_knee append_features
       front_knee_angles back_knee_angles frame_features];
  [ try (apply landmark_angle_ok_inv in H as (? & ? & ?))
  | eexists _, _; split; reflexivity ].

(** With a column missing, the [try] block raises before it appends a
    record. *)
Lemma try_block_raise (self : Extractor) (row : Row) (s : Locals) :
  ~ has_columns row ->
  exists e s',
    try_block self row s = (Raise e, s') /\
    frame_features s' = frame_features s.
Proof.
  intros Hmissing. unfold try_block.
  run_step (landmark_angle row "RIGHT_HIP" "RIGHT_KNEE" "RIGHT_ANKLE").
  run_step (landmark_angle row "RIGHT_SHOULDER" "RIGHT_ELBOW" "RIGHT_WRIST").
  run_step (landmark_angle row "LEFT_HIP" "LEFT_KNEE" "LEFT_ANKLE").
  run_step (landmark_angle row "LEFT_SHOULDER" "RIGHT_HIP" "RIGHT_KNEE").
  run_step (landmark_angle row "LEFT_HIP" "RIGHT_SHOULDER" "RIGHT_HIP").
  run_step (shoulder_alignment_of row).
  run_step (landmark_angle row "LEFT_SHOULDER" "LEFT_ELBOW" "LEFT_WRIST").
  run_step (landmark_angle row "LEFT_SHOULDER" "NOSE" "RIGHT_SHOULDER").
  run_step (pelvis_rotation_of row).
  run_step (landmark_angle row "RIGHT_KNEE" "RIGHT_ANKLE" "RIGHT_FOOT_INDEX").
  run_step (landmark_angle row "LEFT_KNEE" "LEFT_ANKLE" "LEFT_FOOT_INDEX").
  exfalso. apply Hmissing. unfold has_columns, required_landmarks.
  repeat (apply Forall_cons; split; [assumption |]). apply Forall_nil_2.
Qed.

(** One iteration appends exactly one record, that of the row. *)
Lemma loop_body_features (self : Extractor) (row : Row) (s : Locals) :
  frame_features (loop_body self row s).2 =
  frame_features s ++ [features_of_row self row].
Proof.
  unfold loop_body, try_except, features_of_row.
  destruct (decide (has_columns row)) as [Hc|Hm].
  - rewrite (try_block_ok _ _ _ Hc). reflexivity.
  - destruct (try_block_raise self row s Hm) as (e & s' & -> & Hs').
    unfold except_block, mbind, M_bind, append_front_knee, append_back_knee,
      append_features.
    cbn [frame_features snd]. rewrite Hs'. reflexivity.
Qed.

Lemma loop_body_knees (self : Extractor) (row : Row) (s : Locals) :
  has_columns row ->
  front_knee_angles (loop_body self row s).2 =
    front_knee_angles s ++ [(frame row, Front_Knee_Angle (computed_features self row))] /\
  back_knee_angles (loop_body self row s).2 =
    back_knee_angles s ++ [(frame row, Back_Knee_Angle (computed_features self row))].
Proof.
  intros Hc. unfold loop_body, try_except.
  rewrite (try_block_ok _ _ _ Hc). split; reflexivity.
Qed.

Lemma extraction_loop_features (self : Extractor) (rows : DataFrame) (s : Locals) :
  frame_features (extraction_loop self rows s) =
  frame_features s ++ map (features_of_row self) rows.
Proof.
  revert s. induction rows as [|row rows IH]; intros s; cbn.
  - rewrite app_nil_r. reflexivity.
  - unfold extraction_loop in IH. rewrite IH, loop_body_features, <- app_assoc.
    reflexivity.
Qed.

Lemma extraction_loop_knees (self : Extractor) (rows : DataFrame) (s : Locals) :
  Forall has_columns rows ->
  front_knee_angles (extraction_loop self rows s) =
    front_knee_angles s ++
    map (fun row => (frame row, Front_Knee_Angle (computed_features self row))) rows /\
  back_knee_angles (extraction_loop self rows s) =
    back_knee_angles s ++
    map (fun row => (frame row, Back_Knee_Angle (computed_features self row))) rows.
Proof.
  revert s. induction rows as [|row rows IH]; intros s Hall; cbn.
  - rewrite !app_nil_r. auto.
  - apply Forall_cons in Hall as [Hrow Hrows].
    unfold extraction_loop in IH.
    destruct (IH (loop_body self row s).2 Hrows) as [-> ->].
    destruct (loop_body_knees self row s Hrow) as [-> ->].
    rewrite <- !app_assoc. auto.
Qed.

Lemma ff_frame_features_of_row (self : Extractor) (row : Row) :
  ff_frame (features_of_row self row) = frame row.
Proof. unfold features_of_row. destruct (decide _); reflexivity. Qed.

(** The detector succeeds on every non-empty table, and FFC is the frame of
    one of its rows. *)
Lemma detect_succeeds (d : DataFrame) :
  d <> [] ->
  exists ffc_row release_row,
    ffc_row ∈ d /\ release_row ∈ d /\
    detect_front_foot_contact (init (PyDataFrame d)) =
    Ok {| df := PyDataFrame d;
          ffc_frame := Some (frame ffc_row);
          ball_release_frame := Some (frame release_row) |}.
Proof.
  intros Hne.
  assert (Hlen : (0 < length d)%nat) by (destruct d; [contradiction | cbn; lia]).
  destruct (existsb (fun b => b)
              (map (fun y => negb (isnan y)) (front_ankle_y_of d))) eqn:Hex.
  - apply existsb_valid in Hex.
    destruct (ffc_frame_idx_spec _ Hex) as (p & y & Hp & Hy & _).
    apply lookup_lt_Some in Hy. unfold front_ankle_y_of in Hy. rewrite length_map in Hy.
    destruct (lookup_lt_is_Some_2 d p Hy) as [ffc_row Hrow].
    destruct (lookup_lt_is_Some_2 d (p + Nat.min 8 (length d - p - 1))%nat)
      as [release_row Hrel]; [lia |].
    exists ffc_row, release_row.
    split; [eapply list_elem_of_lookup_2; eauto |].
    split; [eapply list_elem_of_lookup_2; eauto |].
    eapply detect_ankle_branch; eauto.
  - assert (Hdiv : (length d / 2 < length d)%nat) by (apply Nat.div_lt; lia).
    destruct (lookup_lt_is_Some_2 d (length d / 2)%nat Hdiv) as [ffc_row Hrow].
    destruct (lookup_lt_is_Some_2 d (Nat.min (length d / 2 + 5) (length d - 1)))
      as [release_row Hrel]; [lia |].
    exists ffc_row, release_row.
    split; [eapply list_elem_of_lookup_2; eauto |].
    split; [eapply list_elem_of_lookup_2; eauto |].
    eapply detect_midpoint_branch; eauto.
    intros q y Hq. destruct (isnan y) eqn:E; [reflexivity |].
    assert (existsb (fun b => b)
              (map (fun y => negb (isnan y)) (front_ankle_y_of d)) = true)
      by (apply existsb_valid; eauto).
    congruence.
Qed.

(** What the extractor returns on a non-empty table. *)
Lemma extract_features_spec (d : DataFrame) :
  d <> [] ->
  exists self' ffc,
    detect_front_foot_contact (init (PyDataFrame d)) = Ok self' /\
    df self' = PyDataFrame d /\
    ffc_frame self' = Some ffc /\
    List.filter (fun row => ffc <=? frame row) d <> [] /\
    extract_features_post_ffc (init (PyDataFrame d)) =
    Ok (let s := extraction_loop self'
                   (List.filter (fun row => ffc <=? frame row) d)
                   {| front_knee_angles := [];
                      back_knee_angles := [];
                      frame_features := [] |} in
        Extracted (frame_features s) (front_knee_angles s) (back_knee_angles s),
        self').
Proof.
  intros Hne.
  destruct (detect_succeeds d Hne) as (ffc_row & release_row & Hin & _ & Hdet).
  eexists _, (frame ffc_row). split; [exact Hdet |].
  split; [reflexivity |]. split; [reflexivity |].
  assert (Hpost : List.filter (fun row => frame ffc_row <=? frame row) d <> []).
  { intros E.
    assert (Hf : In ffc_row (List.filter (fun row => frame ffc_row <=? frame row) d)).
    { apply filter_In. split; [apply list_elem_of_In; exact Hin | apply Z.leb_refl]. }
    rewrite E in Hf. contradiction. }
  split; [exact Hpost |].
  unfold extract_features_post_ffc. cbn [init ffc_frame].
  rewrite Hdet. cbn [mbind result_bind ffc_frame df frames_from].
  rewrite (bool_decide_eq_false_2 _ Hpost). reflexivity.
Qed.

(** C2, as the code has it.  On a non-empty table the extractor returns one
    record per frame at or after FFC, in the order of the frames: no frame is
    dropped, whatever it lacks.  A frame that lacks a column read by the
    extractor gets the record with all thirteen features NaN and both flags
    False.  A frame that has them all gets each of the thirteen features
    computed from its own landmarks alone, whatever the other landmarks hold:
    the ten angle features as the angle of their three landmarks, a value in
    [0, 180] as soon as these three have finite coordinates and both vectors
    from the vertex have lengths between 1e-150 and 1e150; Shoulder
    Alignment, Pelvis Rotation and Spine Angle by their formulas over the
    shoulders and the hips. *)
Theorem extraction_per_frame (d : DataFrame) :
  d <> [] ->
  exists self' ffc features fk bk,
    extract_features_post_ffc (init (PyDataFrame d)) =
      Ok (Extracted features fk bk, self') /\
    ffc_frame self' = Some ffc /\
    map ff_frame features = map frame (List.filter (fun row => ffc <=? frame row) d) /\
    forall i row rec,
      List.filter (fun row => ffc <=? frame row) d !! i = Some row ->
      features !! i = Some rec ->
      (~ has_columns row ->
       rec = nan_features (frame row) /\
       is_ffc rec = false /\ is_ball_release rec = false /\
       forall name f, column name = Some f -> f rec = NaN) /\
      (has_columns row ->
       (forall name a b c f,
          (name, (a, b, c)) ∈ angle_features ->
          column name = Some f ->
          f rec = calculate_angle (pt row a) (pt row b) (pt row c) /\
          forall ax ay bx by' cx cy,
            pt row a = (Fin ax, Fin ay) ->
            pt row b = (Fin bx, Fin by') ->
            pt row c = (Fin cx, Fin cy) ->
            (1e-300 <= (ax - bx) * (ax - bx) + (ay - by') * (ay - by') <= 1e300)%R ->
            (1e-300 <= (cx - bx) * (cx - bx) + (cy - by') * (cy - by') <= 1e300)%R ->
            exists v : R, f rec = Fin v /\ (0 <= v <= 180)%R) /\
       Shoulder_Alignment rec =
         mul (abs (sub (pt row "LEFT_SHOULDER").2 (pt row "RIGHT_SHOULDER").2))
           (Fin 57.2958) /\
       Pelvis_Rotation rec =
         calculate_angle (pt row "LEFT_HIP") (pt row "RIGHT_HIP")
           (add (pt row "RIGHT_HIP").1 (Fin 10), (pt row "RIGHT_HIP").2) /\
       Spine_Angle rec =
         calculate_angle
           (div (add (pt row "LEFT_HIP").1 (pt row "RIGHT_HIP").1) (Fin 2),
            div (add (pt row "LEFT_HIP").2 (pt row "RIGHT_HIP").2) (Fin 2))
           (div (add (pt row "LEFT_SHOULDER").1 (pt row "RIGHT_SHOULDER").1) (Fin 2),
            div (add (pt row "LEFT_SHOULDER").2 (pt row "RIGHT_SHOULDER").2) (Fin 2))
           (add (div (add (pt row "LEFT_SHOULDER").1 (pt row "RIGHT_SHOULDER").1)
                   (Fin 2)) (Fin 10),
            div (add (pt row "LEFT_SHOULDER").2 (pt row "RIGHT_SHOULDER").2) (Fin 2))).
Proof.
  intros Hne.
  destruct (extract_features_spec d Hne) as (self' & ffc & _ & _ & Hffc & _ & Hex).
  eexists self', ffc, _, _, _. split; [exact Hex |]. split; [exact Hffc |].
  rewrite extraction_loop_features. cbn [frame_features app].
  split.
  { rewrite map_map. apply map_ext. intros row. apply ff_frame_features_of_row. }
  intros i row rec Hrow Hrec.
  rewrite list_lookup_fmap, Hrow in Hrec. injection Hrec as <-.
  unfold features_of_row. split.
  - intros Hm. destruct (decide (has_columns row)); [contradiction |].
    split; [reflexivity |]. split; [reflexivity |]. split; [reflexivity |].
    intros name f Hcol. unfold column in Hcol.
    repeat (destruct (decide _) in Hcol; [injection Hcol as <-; reflexivity |]).
    discriminate.
  - intros Hc. destruct (decide (has_columns row)); [| contradiction].
    split; [| split; [reflexivity | split; reflexivity]].
    intros name a b c f Hin Hcol.
    assert (Heq : f (computed_features self' row) =
                  calculate_angle (pt row a) (pt row b) (pt row c)).
    { unfold angle_features in Hin.
      repeat (apply elem_of_cons in Hin as [Hin|Hin];
              [injection Hin as -> -> -> ->; vm_compute in Hcol;
               injection Hcol as <-; reflexivity |]).
      apply elem_of_nil in Hin. contradiction. }
    split; [exact Heq |].
    intros ax ay bx by' cx cy Ha Hb Hcc Hba Hbc.
    rewrite Heq, Ha, Hb, Hcc.
    destruct (calculate_angle_measurable ax ay bx by' cx cy Hba Hbc) as (v & Hv & Hr & _).
    exists v. auto.
Qed.

Lemma extraction_per_frame_witness :
  exists self' ffc features fk bk,
    extract_features_post_ffc (init (PyDataFrame two_frames)) =
      Ok (Extracted features fk bk, self') /\
    ffc_frame self' = Some ffc /\
    map ff_frame features =
      map frame (List.filter (fun row => ffc <=? frame row) two_frames).
Proof.
  destruct (extraction_per_frame two_frames)
    as (self' & ffc & features & fk & bk & Hex & Hffc & Hframes & _).
  - discriminate.
  - exists self', ffc, features, fk, bk. auto.
Defined.

(** C2 fails as stated: this frame has no [NOSE] columns, which only Head
    Position reads; its shoulder, elbow and wrist are there, finite and apart,
    so that the elbow angle is a value in [0, 180]; yet the record of the frame
    has the Elbow Angle undefined. *)
Lemma missing_nose_blanks_the_elbow :
  cells (landmarks_row 0 (tail pose)) !! "NOSE_x" = None /\
  (exists v : R,
     landmark_angle (landmarks_row 0 (tail pose))
       "RIGHT_SHOULDER" "RIGHT_ELBOW" "RIGHT_WRIST" = Ok (Fin v) /\
     (0 <= v <= 180)%R) /\
  exists self' rec fk bk,
    extract_features_post_ffc (init (PyDataFrame frame_without_nose)) =
      Ok (Extracted [rec] fk bk, self') /\
    Elbow_Angle rec = NaN.
Proof.
  split; [reflexivity |]. split.
  - change (landmark_angle (landmarks_row 0 (tail pose))
              "RIGHT_SHOULDER" "RIGHT_ELBOW" "RIGHT_WRIST")
      with (Ok (calculate_angle (Fin 0.6, Fin 0.2) (Fin 0.7, Fin 0.3) (Fin 0.7, Fin 0.1))).
    destruct (calculate_angle_measurable 0.6 0.2 0.7 0.3 0.7 0.1)
      as (v & -> & Hv & _); [lra | lra |].
    exists v. auto.
  - eexists _, _, _, _. split; reflexivity.
Qed.

(** ** The Phase Analyzer never raises *)

Lemma analyze_front_knee_phases_spec (series : list (Z * float)) :
  match valid_angles_of series with
  | [] => analyze_front_knee_phases series = Ok None
  | (f0, a0) :: _ =>
      exists p, analyze_front_knee_phases series = Ok (Some p) /\
                contact_frame p = f0 /\ contact_angle p = a0 /\ isnan a0 = false
  end.
Proof.
  unfold analyze_front_knee_phases.
  destruct (valid_angles_of series) as [|[f0 a0] rest] eqn:Hvalid.
  - destruct (bool_decide (series = [])); reflexivity.
  - assert (Hseries : series <> []) by (intros ->; discriminate).
    rewrite (bool_decide_eq_false_2 _ Hseries).
    rewrite bool_decide_eq_false_2 by discriminate.
    set (angles := map snd ((f0, a0) :: rest)).
    set (frames := map fst ((f0, a0) :: rest)).
    assert (Hangles : angles <> []) by discriminate.
    assert (Hlen : length frames = length angles)
      by (unfold frames, angles; rewrite !length_map; reflexivity).
    destruct (argmin_lt _ Hangles) as (kf & -> & Hkf).
    destruct (argmax_lt _ Hangles) as (ke & -> & Hke).
    destruct (lookup_lt_is_Some_2 angles kf Hkf) as [af Haf].
    destruct (lookup_lt_is_Some_2 frames kf) as [ff Hff]; [lia |].
    destruct (lookup_lt_is_Some_2 angles ke Hke) as [ae Hae].
    destruct (lookup_lt_is_Some_2 frames ke) as [fe Hfe]; [lia |].
    cbn [from_option mbind result_bind].
    rewrite (item_lookup angles 0 a0) by reflexivity.
    rewrite (item_lookup frames 0 f0) by reflexivity.
    cbn [mbind result_bind].
    rewrite (item_lookup _ _ _ Haf), (item_lookup _ _ _ Hff).
    cbn [mbind result_bind].
    rewrite (item_lookup _ _ _ Hae), (item_lookup _ _ _ Hfe).
    cbn [mbind result_bind mret result_ret].
    eexists. split; [reflexivity |]. cbn. repeat split.
    pose proof (valid_angles_not_nan series) as Hnn. rewrite Hvalid in Hnn.
    apply Forall_cons in Hnn as [Hnn _]. exact Hnn.
Qed.

Lemma analyze_back_knee_phases_total (series : list (Z * float)) :
  exists r, analyze_back_knee_phases series = Ok r.
Proof.
  unfold analyze_back_knee_phases.
  destruct (bool_decide (series = [])); [eexists; reflexivity |].
  destruct (valid_angles_of series) as [|[f0 a0] rest] eqn:Hvalid.
  - rewrite bool_decide_eq_true_2 by reflexivity. eexists; reflexivity.
  - rewrite bool_decide_eq_false_2 by discriminate.
    set (angles := map snd ((f0, a0) :: rest)).
    set (frames := map fst ((f0, a0) :: rest)).
    assert (Hangles : angles <> []) by discriminate.
    assert (Hlen : length frames = length angles)
      by (unfold frames, angles; rewrite !length_map; reflexivity).
    assert (Hnn : Forall (fun x => isnan x = false) angles).
    { pose proof (valid_angles_not_nan series) as H. rewrite Hvalid in H. exact H. }
    destruct (argmin_lt _ Hangles) as (kf & -> & Hkf).
    destruct (back_max_ext_idx_spec _ Hangles Hnn) as (ke & m & -> & Hke & Hm & _).
    destruct (lookup_lt_is_Some_2 angles kf Hkf) as [af Haf].
    destruct (lookup_lt_is_Some_2 frames kf) as [ff Hff]; [lia |].
    destruct (lookup_lt_is_Some_2 frames ke) as [fe Hfe]; [lia |].
    rewrite (item_lookup frames 0 f0) by reflexivity.
    rewrite (item_lookup angles 0 a0) by reflexivity.
    cbn [from_option mbind result_bind].
    rewrite (item_lookup _ _ _ Haf), (item_lookup _ _ _ Hff).
    cbn [mbind result_bind].
    rewrite (item_lookup _ _ _ Hm), (item_lookup _ _ _ Hfe).
    eexists; reflexivity.
Qed.

(** ** The Summary Aggregator *)

Lemma comprehensive_row_eq (self : Extractor) (data : list FrameFeatures)
    (name : string) (col : FrameFeatures -> float) :
  column name = Some col ->
  comprehensive_row self data (name, name) =
  Ok (comprehensive_row_of self data name col).
Proof.
  intros Hcol. unfold comprehensive_row, comprehensive_row_of, getcolumn.
  cbn [fst snd]. rewrite Hcol. cbn [fmap result_fmap mbind result_bind].
  destruct (negb _); reflexivity.
Qed.

(** The rows of the report, written out: the aggregator never raises. *)
Lemma summary_rows_eq (self : Extractor) (data : list FrameFeatures)
    (front back : option KneePhases) :
  summary_rows self data front back =
  Ok (((if negb (bool_decide (dropna (map Elbow_Angle data) = []))
        then [release_row self "Elbow Angle" (dropna (map Elbow_Angle data))] else [])
       ++ append_if_defined front contact_angle (fun p =>
            phase_row "Front Knee at FFC" "Front Foot Contact" (contact_angle p)
              (Some (contact_frame p)) (ball_release_frame self))
       ++ append_if_defined front max_flexion_angle (fun p =>
            phase_row "Front Knee Max Flexion" "Maximum Flexion" (max_flexion_angle p)
              (ffc_frame self) (ball_release_frame self))
       ++ append_if_defined front max_extension_angle (fun p =>
            phase_row "Front Knee Max Extension" "Maximum Extension"
              (max_extension_angle p) (ffc_frame self) (ball_release_frame self))
       ++ append_if_defined front deviation (fun p =>
            phase_row "Knee Angle Deviation" "FFC to Max Extension" (deviation p)
              (ffc_frame self) (ball_release_frame self))
       ++ append_if_defined back contact_angle (fun p =>
            phase_row "Back Knee at BFC" "Back Foot Contact" (contact_angle p)
              (ffc_frame self) (ball_release_frame self))
       ++ append_if_defined back max_flexion_angle (fun p =>
            phase_row "Back Knee Max Flexion" "Back Maximum Flexion"
              (max_flexion_angle p) (ffc_frame self) (ball_release_frame self))
       ++ append_if_defined back max_extension_angle (fun p =>
            phase_row "Back Knee Max Extension" "Back Maximum Extension"
              (max_extension_angle p) (ffc_frame self) (ball_release_frame self))
       ++ append_if_defined back deviation (fun p =>
            phase_row "Back Knee Deviation" "BFC to Max Extension" (deviation p)
              (ffc_frame self) (ball_release_frame self)))
      ++ (if negb (bool_decide (dropna (map Back_Knee_Angle data) = []))
          then [release_row self "Back Knee Angle" (dropna (map Back_Knee_Angle data))]
          else [])
      ++ [ comprehensive_row_of self data "Trunk Lean" Trunk_Lean;
           comprehensive_row_of self data "Hip-Shoulder Separation" Hip_Shoulder_Separation;
           comprehensive_row_of self data "Shoulder Alignment" Shoulder_Alignment;
           comprehensive_row_of self data "Bowling Arm Angle" Bowling_Arm_Angle;
           comprehensive_row_of self data "Non-Bowling Arm Angle" Non_Bowling_Arm_Angle;
           comprehensive_row_of self data "Head Position" Head_Position;
           comprehensive_row_of self data "Pelvis Rotation" Pelvis_Rotation;
           comprehensive_row_of self data "Front Ankle Angle" Front_Ankle_Angle;
           comprehensive_row_of self data "Back Ankle Angle" Back_Ankle_Angle;
           comprehensive_row_of self data "Spine Angle" Spine_Angle ]).
Proof.
  unfold summary_rows, comprehensive_features.
  change (getcolumn data "Elbow Angle") with (Ok (map Elbow_Angle data)).
  change (getcolumn data "Back Knee Angle") with (Ok (map Back_Knee_Angle data)).
  cbn [fmap result_fmap mbind result_bind mapM].
  rewrite (comprehensive_row_eq self data "Trunk Lean" Trunk_Lean eq_refl).
  rewrite (comprehensive_row_eq self data "Hip-Shoulder Separation" Hip_Shoulder_Separation eq_refl).
  rewrite (comprehensive_row_eq self data "Shoulder Alignment" Shoulder_Alignment eq_refl).
  rewrite (comprehensive_row_eq self data "Bowling Arm Angle" Bowling_Arm_Angle eq_refl).
  rewrite (comprehensive_row_eq self data "Non-Bowling Arm Angle" Non_Bowling_Arm_Angle eq_refl).
  rewrite (comprehensive_row_eq self data "Head Position" Head_Position eq_refl).
  rewrite (comprehensive_row_eq self data "Pelvis Rotation" Pelvis_Rotation eq_refl).
  rewrite (comprehensive_row_eq self data "Front Ankle Angle" Front_Ankle_Angle eq_refl).
  rewrite (comprehensive_row_eq self data "Back Ankle Angle" Back_Ankle_Angle eq_refl).
  rewrite (comprehensive_row_eq self data "Spine Angle" Spine_Angle eq_refl).
  cbn [mbind result_bind mret result_ret].
  rewrite <- !app_assoc. reflexivity.
Qed.

(** The whole pipeline on a non-empty table: it returns a report, assembled
    from the extracted records and the two phase analyses. *)
Lemma calculate_biomechanical_summary_spec (d : DataFrame) :
  d <> [] ->
  exists self' features fk bk front back rows,
    detect_front_foot_contact (init (PyDataFrame d)) = Ok self' /\
    extract_features_post_ffc (init (PyDataFrame d)) =
      Ok (Extracted features fk bk, self') /\
    features <> [] /\
    analyze_front_knee_phases fk = Ok front /\
    analyze_back_knee_phases bk = Ok back /\
    summary_rows self' (release_window features) front back = Ok rows /\
    calculate_biomechanical_summary (init (PyDataFrame d)) = Ok (rows, self').
Proof.
  intros Hne.
  destruct (extract_features_spec d Hne) as (self' & ffc & Hdet & _ & Hffc & Hpost & Hex).
  set (s := extraction_loop self' _ _) in Hex. cbv zeta in Hex.
  assert (Hfeat : frame_features s <> []).
  { unfold s. rewrite extraction_loop_features. cbn [frame_features app].
    intros E. apply map_eq_nil in E. contradiction. }
  assert (Hfront : exists front, analyze_front_knee_phases (front_knee_angles s) = Ok front).
  { pose proof (analyze_front_knee_phases_spec (front_knee_angles s)) as H.
    destruct (valid_angles_of (front_knee_angles s)) as [|[f0 a0] ?];
      [eauto | destruct H as (p & H & _); eauto]. }
  destruct Hfront as [front Hfront].
  destruct (analyze_back_knee_phases_total (back_knee_angles s)) as [back Hback].
  eexists self', (frame_features s), (front_knee_angles s), (back_knee_angles s),
    front, back, _.
  split; [exact Hdet |]. split; [exact Hex |]. split; [exact Hfeat |].
  split; [exact Hfront |]. split; [exact Hback |].
  split; [apply summary_rows_eq |].
  unfold calculate_biomechanical_summary. rewrite Hex.
  cbn [mbind result_bind].
  rewrite (bool_decide_eq_false_2 _ Hfeat), Hfront, Hback.
  cbn [mbind result_bind]. rewrite summary_rows_eq. reflexivity.
Qed.

Lemma count_feature_app (name : string) (l1 l2 : list SummaryRow) :
  count_feature name (l1 ++ l2) = (count_feature name l1 + count_feature name l2)%nat.
Proof. unfold count_feature. rewrite List.filter_app, length_app. reflexivity. Qed.

Lemma count_feature_append_if_defined (name : string) (phases : option KneePhases)
    (value : KneePhases -> float) (row : KneePhases -> SummaryRow) :
  (forall p, Feature (row p) <> name) ->
  count_feature name (append_if_defined phases value row) = 0%nat.
Proof.
  intros Hother. unfold append_if_defined, count_feature.
  destruct phases as [p|]; [| reflexivity].
  destruct (negb _); [| reflexivity].
  cbn. rewrite (bool_decide_eq_false_2 _ (Hother p)). reflexivity.
Qed.

Lemma count_feature_optional (name feature : string) (c : bool) (r : SummaryRow) :
  Feature r = feature ->
  count_feature name (if c then [r] else []) =
  if c && bool_decide (feature = name) then 1%nat else 0%nat.
Proof.
  intros <-. unfold count_feature. destruct c; [| reflexivity].
  cbn. destruct (bool_decide _); reflexivity.
Qed.

Lemma Feature_comprehensive_row_of (self : Extractor) (data : list FrameFeatures)
    (name : string) (col : FrameFeatures -> float) :
  Feature (comprehensive_row_of self data name col) = name.
Proof. unfold comprehensive_row_of. destruct (negb _); reflexivity. Qed.

Lemma count_feature_cons (name : string) (r : SummaryRow) (l : list SummaryRow) :
  count_feature name (r :: l) =
  ((if bool_decide (Feature r = name) then 1 else 0) + count_feature name l)%nat.
Proof. unfold count_feature. cbn. destruct (bool_decide _); reflexivity. Qed.

Ltac count_rows :=
  rewrite ?count_feature_app;
  rewrite ?count_feature_append_if_defined by (intros ?; cbn; discriminate);
  rewrite ?(count_feature_optional _ "Elbow Angle") by reflexivity;
  rewrite ?(count_feature_optional _ "Back Knee Angle") by reflexivity;
  rewrite ?count_feature_cons, ?Feature_comprehensive_row_of;
  repeat match goal with
         | |- context [bool_decide (dropna ?l = [])] =>
             destruct (bool_decide (dropna l = []))
         end;
  reflexivity.

(** How many rows each catalog feature gets: the ten features of the
    comprehensive loop always one, Elbow Angle and Back Knee Angle one only
    when the release window holds a defined value of theirs. *)
Lemma summary_rows_counts (self : Extractor) (data : list FrameFeatures)
    (front back : option KneePhases) (rows : list SummaryRow) :
  summary_rows self data front back = Ok rows ->
  count_feature "Elbow Angle" rows =
    (if bool_decide (dropna (map Elbow_Angle data) = []) then 0 else 1)%nat /\
  count_feature "Back Knee Angle" rows =
    (if bool_decide (dropna (map Back_Knee_Angle data) = []) then 0 else 1)%nat /\
  forall name col,
    (name, name) ∈ comprehensive_features ->
    column name = Some col ->
    count_feature name rows = 1%nat /\
    comprehensive_row_of self data name col ∈ rows.
Proof.
  rewrite summary_rows_eq. intros [= <-]. split; [| split].
  - count_rows.
  - count_rows.
  - intros name col Hin Hcol. unfold comprehensive_features in Hin.
    repeat (apply elem_of_cons in Hin as [Hin|Hin];
            [injection Hin as ->; vm_compute in Hcol; injection Hcol as <-;
             split; [count_rows |
                     rewrite !elem_of_app; right; right;
                     repeat first [apply list_elem_of_here | apply list_elem_of_further]] |]).
    apply elem_of_nil in Hin. contradiction.
Qed.

Lemma elem_of_append_if_defined (phases : option KneePhases)
    (value : KneePhases -> float) (row : KneePhases -> SummaryRow) (r : SummaryRow) :
  r ∈ append_if_defined phases value row <->
  exists p, phases = Some p /\ isnan (value p) = false /\ r = row p.
Proof.
  unfold append_if_defined. destruct phases as [p|].
  - destruct (isnan (value p)) eqn:E; cbn.
    + rewrite elem_of_nil. split; [contradiction |].
      intros (p' & [= <-] & H & _). congruence.
    + rewrite list_elem_of_singleton. split; [eauto |].
      intros (p' & [= <-] & _ & H). exact H.
  - rewrite elem_of_nil. split; [contradiction | intros (p' & H & _); discriminate].
Qed.

(** The event references of the rows: every row carries the global
    BallRelease frame, and every row but "Front Knee at FFC" the global FFC
    frame; that row carries the frame of the first defined front-knee angle. *)
Lemma summary_rows_references (self : Extractor) (data : list FrameFeatures)
    (front back : option KneePhases) (rows : list SummaryRow) (r : SummaryRow) :
  summary_rows self data front back = Ok rows ->
  r ∈ rows ->
  Release_Frame r = ball_release_frame self /\
  (Feature r <> "Front Knee at FFC" -> FFC_Frame r = ffc_frame self) /\
  (Feature r = "Front Knee at FFC" ->
   exists p, front = Some p /\ FFC_Frame r = Some (contact_frame p)).
Proof.
  rewrite summary_rows_eq. intros [= <-]. rewrite !elem_of_app.
  rewrite !elem_of_append_if_defined.
  intros Hin.
  repeat match goal with
         | H : _ \/ _ |- _ => destruct H as [H|H]
         | H : exists p, _ |- _ => destruct H as (p & Hp & _ & ->)
         end.
  - destruct (negb _) in Hin; [| apply elem_of_nil in Hin; contradiction].
    apply list_elem_of_singleton in Hin as ->. cbn. repeat split; congruence.
  - cbn. repeat split; [congruence | eauto].
  - cbn. repeat split; discriminate.
  - cbn. repeat split; discriminate.
  - cbn. repeat split; discriminate.
  - cbn. repeat split; discriminate.
  - cbn. repeat split; discriminate.
  - cbn. repeat split; discriminate.
  - cbn. repeat split; discriminate.
  - destruct (negb _) in Hin; [| apply elem_of_nil in Hin; contradiction].
    apply list_elem_of_singleton in Hin as ->. cbn. repeat split; congruence.
  - repeat (apply elem_of_cons in Hin as [->|Hin];
            [rewrite Feature_comprehensive_row_of; unfold comprehensive_row_of;
             destruct (negb _); cbn; repeat split; discriminate |]).
    apply elem_of_nil in Hin. contradiction.
Qed.

Lemma front_contact_row_in (self : Extractor) (data : list FrameFeatures)
    (p : KneePhases) (back : option KneePhases) (rows : list SummaryRow) :
  summary_rows self data (Some p) back = Ok rows ->
  isnan (contact_angle p) = false ->
  phase_row "Front Knee at FFC" "Front Foot Contact" (contact_angle p)
    (Some (contact_frame p)) (ball_release_frame self) ∈ rows.
Proof.
  rewrite summary_rows_eq. intros [= <-] Hdef.
  rewrite !elem_of_app. left. right. left.
  unfold append_if_defined. rewrite Hdef. apply list_elem_of_here.
Qed.

(** The catalog rows of the report of a non-empty trial: each of the ten
    features of the comprehensive loop has exactly one row, which is the
    NaN/count-0 row when the release window holds no defined value of it;
    "Elbow Angle" and "Back Knee Angle" have a row only when the window holds
    a defined value of theirs. *)
Lemma report_catalog_rows (d : DataFrame) :
  d <> [] ->
  exists rows self' features fk bk,
    calculate_biomechanical_summary (init (PyDataFrame d)) = Ok (rows, self') /\
    extract_features_post_ffc (init (PyDataFrame d)) =
      Ok (Extracted features fk bk, self') /\
    features <> [] /\
    count_feature "Elbow Angle" rows =
      (if bool_decide (dropna (map Elbow_Angle (release_window features)) = [])
       then 0 else 1)%nat /\
    count_feature "Back Knee Angle" rows =
      (if bool_decide (dropna (map Back_Knee_Angle (release_window features)) = [])
       then 0 else 1)%nat /\
    forall name col,
      (name, name) ∈ comprehensive_features ->
      column name = Some col ->
      count_feature name rows = 1%nat /\
      (dropna (map col (release_window features)) = [] ->
       empty_row self' name ∈ rows).
Proof.
  intros Hne.
  destruct (calculate_biomechanical_summary_spec d Hne)
    as (self' & features & fk & bk & front & back & rows
        & _ & Hex & Hfeat & _ & _ & Hrows & Hcalc).
  destruct (summary_rows_counts _ _ _ _ _ Hrows) as (Helbow & Hknee & Hcomp).
  exists rows, self', features, fk, bk.
  repeat (split; [assumption |]).
  intros name col Hin Hcol. destruct (Hcomp name col Hin Hcol) as (Hone & Hrow).
  split; [exact Hone |]. intros Hnone.
  unfold comprehensive_row_of in Hrow. rewrite Hnone in Hrow. exact Hrow.
Qed.

(** The event references of the report of a non-empty trial: every row
    carries the BallRelease frame the detector set, and every row other than
    "Front Knee at FFC" carries the FFC frame the detector set. *)
Lemma report_event_references (d : DataFrame) :
  d <> [] ->
  exists rows self',
    detect_front_foot_contact (init (PyDataFrame d)) = Ok self' /\
    calculate_biomechanical_summary (init (PyDataFrame d)) = Ok (rows, self') /\
    forall r, r ∈ rows ->
      Release_Frame r = ball_release_frame self' /\
      (Feature r <> "Front Knee at FFC" -> FFC_Frame r = ffc_frame self').
Proof.
  intros Hne.
  destruct (calculate_biomechanical_summary_spec d Hne)
    as (self' & features & fk & bk & front & back & rows
        & Hdet & _ & _ & _ & _ & Hrows & Hcalc).
  exists rows, self'. split; [exact Hdet |]. split; [exact Hcalc |].
  intros r Hr.
  destruct (summary_rows_references _ _ _ _ _ r Hrows Hr) as (H1 & H2 & _).
  auto.
Qed.


(** ** The report on sample trials *)

Lemma elbow_hidden_extract :
  exists rec fk bk,
    Elbow_Angle rec =
      calculate_angle (Fin 0.6, Fin 0.2) (NaN, NaN) (Fin 0.7, Fin 0.1) /\
    Bowling_Arm_Angle rec =
      calculate_angle (Fin 0.6, Fin 0.2) (NaN, NaN) (Fin 0.7, Fin 0.1) /\
    is_ball_release rec = true /\
    extract_features_post_ffc (init (PyDataFrame elbow_hidden)) =
    Ok (Extracted [rec] fk bk,
        {| df := PyDataFrame elbow_hidden;
           ffc_frame := Some 0;
           ball_release_frame := Some 0 |}).
Proof. eexists _, _, _. repeat split; reflexivity. Qed.

(** C1, on the code: in this one-frame trial the elbow is undefined in the
    release window; the report has no "Elbow Angle" row at all, while for
    "Bowling Arm Angle", the same angle under its other name, it has the row
    with NaN statistics and count 0. *)
Theorem elbow_row_omitted :
  exists rows self',
    calculate_biomechanical_summary (init (PyDataFrame elbow_hidden)) = Ok (rows, self') /\
    count_feature "Elbow Angle" rows = 0%nat /\
    count_feature "Bowling Arm Angle" rows = 1%nat /\
    empty_row self' "Bowling Arm Angle" ∈ rows.
Proof.
  destruct (calculate_biomechanical_summary_spec elbow_hidden)
    as (self' & features & fk & bk & front & back & rows
        & _ & Hex & _ & _ & _ & Hrows & Hcalc); [discriminate |].
  destruct elbow_hidden_extract as (rec & fk' & bk' & Helbow & Harm & Hrel & Hex').
  rewrite Hex' in Hex. injection Hex as <- <- <- <-.
  assert (Hwindow : release_window [rec] = [rec]).
  { unfold release_window. cbn [List.filter]. rewrite Hrel. reflexivity. }
  rewrite Hwindow in Hrows.
  destruct (summary_rows_counts _ _ _ _ _ Hrows) as (Hcount & _ & Hcomp).
  destruct (Hcomp "Bowling Arm Angle" Bowling_Arm_Angle) as (Hone & Hin).
  { unfold comprehensive_features.
    repeat first [apply list_elem_of_here | apply list_elem_of_further]. }
  { reflexivity. }
  eexists rows, _. split; [exact Hcalc |].
  cbn [map] in Hcount. rewrite Helbow, calculate_angle_nan_vertex in Hcount.
  split; [exact Hcount |]. split; [exact Hone |].
  unfold comprehensive_row_of in Hin. cbn [map] in Hin.
  rewrite Harm, calculate_angle_nan_vertex in Hin. exact Hin.
Qed.

Lemma knee_hidden_ffc_idx :
  ffc_frame_idx_of (front_ankle_y_of knee_hidden_at_ffc) = Ok 0%nat.
Proof.
  change (front_ankle_y_of knee_hidden_at_ffc) with [Fin 0.9; Fin 0.5].
  unfold ffc_frame_idx_of. cbn [map isnan negb boolean_index argmax argmax_loop].
  rewrite le_fin_true by lra. reflexivity.
Qed.

Lemma knee_hidden_detect :
  detect_front_foot_contact (init (PyDataFrame knee_hidden_at_ffc)) =
  Ok {| df := PyDataFrame knee_hidden_at_ffc;
        ffc_frame := Some 0;
        ball_release_frame := Some 1 |}.
Proof.
  apply (detect_ankle_branch knee_hidden_at_ffc 0
           (landmarks_row 0 (("RIGHT_KNEE", (NaN, NaN)) :: pose))
           (landmarks_row 1 (("RIGHT_ANKLE", (Fin 0.6, Fin 0.5)) :: pose)));
    [| exact knee_hidden_ffc_idx | reflexivity..].
  exists 0%nat, (Fin 0.9). split; reflexivity.
Qed.

Lemma knee_hidden_extract :
  exists features bk,
    extract_features_post_ffc (init (PyDataFrame knee_hidden_at_ffc)) =
    Ok (Extracted features
          [ (0, calculate_angle (Fin 0.55, Fin 0.5) (NaN, NaN) (Fin 0.6, Fin 0.9));
            (1, calculate_angle (Fin 0.55, Fin 0.5) (Fin 0.6, Fin 0.7) (Fin 0.6, Fin 0.5)) ]
          bk,
        {| df := PyDataFrame knee_hidden_at_ffc;
           ffc_frame := Some 0;
           ball_release_frame := Some 1 |}).
Proof.
  unfold extract_features_post_ffc. cbn [init ffc_frame].
  rewrite knee_hidden_detect. eexists _, _. reflexivity.
Qed.

(** C6, on the code: FFC is detected at frame 0, where the front knee angle
    is undefined; the first defined front-knee angle is that of frame 1, and
    the "Front Knee at FFC" row of the report carries 1, not the global FFC
    frame 0, in its FFC_Frame field. *)
Theorem front_knee_row_carries_its_own_frame :
  exists rows self' r,
    calculate_biomechanical_summary (init (PyDataFrame knee_hidden_at_ffc)) =
      Ok (rows, self') /\
    ffc_frame self' = Some 0 /\
    r ∈ rows /\
    Feature r = "Front Knee at FFC" /\
    FFC_Frame r = Some 1.
Proof.
  destruct (calculate_biomechanical_summary_spec knee_hidden_at_ffc)
    as (self' & features & fk & bk & front & back & rows
        & _ & Hex & _ & Hfront & _ & Hrows & Hcalc); [discriminate |].
  destruct knee_hidden_extract as (features' & bk' & Hex').
  rewrite Hex' in Hex. injection Hex as <- <- <- <-.
  pose proof (analyze_front_knee_phases_spec
    [ (0, calculate_angle (Fin 0.55, Fin 0.5) (NaN, NaN) (Fin 0.6, Fin 0.9));
      (1, calculate_angle (Fin 0.55, Fin 0.5) (Fin 0.6, Fin 0.7) (Fin 0.6, Fin 0.5)) ])
    as Hspec.
  unfold valid_angles_of in Hspec. cbn [List.filter snd] in Hspec.
  rewrite calculate_angle_nan_vertex in Hspec.
  destruct (calculate_angle_measurable 0.55 0.5 0.6 0.7 0.6 0.5)
    as (v & Hv & _); [lra | lra |].
  rewrite Hv in Hspec. cbn [isnan negb] in Hspec.
  destruct Hspec as (p & Hp & Hframe & Hangle & Hdef).
  rewrite calculate_angle_nan_vertex, Hv, Hp in Hfront. injection Hfront as <-.
  eexists rows, _, _. split; [exact Hcalc |]. split; [reflexivity |].
  split; [apply (front_contact_row_in _ _ _ _ _ Hrows); rewrite Hangle; exact Hdef |].
  cbn. rewrite Hframe. split; reflexivity.
Qed.

(** ** More on the Angle Calculator *)

Lemma add_comm (x y : float) : add x y = add y x.
Proof.
  destruct x as [|s|a], y as [|t|b]; cbn; try reflexivity.
  - destruct s, t; reflexivity.
  - f_equal. lra.
Qed.

Lemma mul_comm (x y : float) : mul x y = mul y x.
Proof.
  destruct x as [|s|a], y as [|t|b]; cbn; try reflexivity.
  - destruct s, t; reflexivity.
  - f_equal. lra.
Qed.

Lemma dot_comm (u v : point) : dot u v = dot v u.
Proof. unfold dot. rewrite (mul_comm u.1), (mul_comm u.2). reflexivity. Qed.

(** X2.  The angle does not depend on the order of its two end points:
    [calculate_angle(a, b, c)] and [calculate_angle(c, b, a)] are the same
    value for all arguments, NaN and infinite coordinates included. *)
Theorem calculate_angle_symmetric (a b c : point) :
  calculate_angle a b c = calculate_angle c b a.
Proof.
  unfold calculate_angle.
  rewrite (dot_comm (vsub a b)), (mul_comm (norm (vsub a b))). reflexivity.
Qed.

Lemma degrees_arccos_clip (x : float) :
  degrees (arccos (clip x (-1) 1)) = NaN \/
  exists v : R, degrees (arccos (clip x (-1) 1)) = Fin v /\ (0 <= v <= 180)%R.
Proof.
  destruct x as [|s|r]; cbn [clip arccos].
  - left. reflexivity.
  - right. destruct (decide (-1 <= (if s then -1 else 1) <= 1)%R) as [_|H];
      [| destruct H; destruct s; lra].
    eexists. split; [reflexivity | apply degrees_acos_bounds].
  - right. destruct (decide (-1 <= Rmin (Rmax r (-1)) 1 <= 1)%R) as [_|H];
      [| destruct H; apply clip_range].
    eexists. split; [reflexivity | apply degrees_acos_bounds].
Qed.

(** X1.  Whatever its arguments hold (NaN and infinite coordinates
    included), [calculate_angle] returns NaN or a number of degrees between
    0 and 180: never an infinity, never a value outside that range. *)
Theorem calculate_angle_nan_or_degrees (a b c : point) :
  calculate_angle a b c = NaN \/
  exists v : R, calculate_angle a b c = Fin v /\ (0 <= v <= 180)%R.
Proof. unfold calculate_angle. apply degrees_arccos_clip. Qed.

Lemma add_nan_r (x : float) : add x NaN = NaN.
Proof. destruct x; reflexivity. Qed.

Lemma mul_nan_r (x : float) : mul x NaN = NaN.
Proof. destruct x; reflexivity. Qed.

Lemma div_nan_r (x : float) : div x NaN = NaN.
Proof. destruct x; reflexivity. Qed.

Lemma sub_nan_r (x : float) : sub x NaN = NaN.
Proof. unfold sub. cbn. apply add_nan_r. Qed.

Lemma norm_nan (u : point) : isnan u.1 = true \/ isnan u.2 = true -> norm u = NaN.
Proof.
  destruct u as [x y]. cbn [fst snd]. unfold norm, dot. cbn [fst snd].
  intros [H|H].
  - destruct x; try discriminate. reflexivity.
  - destruct y; try discriminate. rewrite mul_nan_r, add_nan_r. reflexivity.
Qed.

Lemma vsub_nan (a b : point) :
  isnan a.1 = true \/ isnan a.2 = true \/ isnan b.1 = true \/ isnan b.2 = true ->
  isnan (vsub a b).1 = true \/ isnan (vsub a b).2 = true.
Proof.
  destruct a as [ax ay], b as [bx by']. unfold vsub. cbn [fst snd].
  intros [H|[H|[H|H]]].
  - left. destruct ax; try discriminate. reflexivity.
  - right. destruct ay; try discriminate. reflexivity.
  - left. destruct bx; try discriminate. rewrite sub_nan_r. reflexivity.
  - right. destruct by'; try discriminate. rewrite sub_nan_r. reflexivity.
Qed.

(** X3.  A NaN in any of the six coordinates makes the angle NaN. *)
Theorem calculate_angle_nan (a b c : point) :
  isnan a.1 = true \/ isnan a.2 = true \/
  isnan b.1 = true \/ isnan b.2 = true \/
  isnan c.1 = true \/ isnan c.2 = true ->
  calculate_angle a b c = NaN.
Proof.
  intros H. unfold calculate_angle.
  assert (Hn : norm (vsub a b) = NaN \/ norm (vsub c b) = NaN).
  { destruct H as [H|[H|[H|[H|[H|H]]]]].
    - left. apply norm_nan, vsub_nan. auto.
    - left. apply norm_nan, vsub_nan. auto.
    - left. apply norm_nan, vsub_nan. auto.
    - left. apply norm_nan, vsub_nan. auto.
    - right. apply norm_nan, vsub_nan. auto.
    - right. apply norm_nan, vsub_nan. auto. }
  destruct Hn as [-> | ->].
  - cbn [mul]. rewrite div_nan_r. reflexivity.
  - rewrite mul_nan_r, div_nan_r. reflexivity.
Qed.

Lemma calculate_angle_nan_witness :
  calculate_angle (Fin 0.6, Fin 0.2) (NaN, Fin 0.3) (Fin 0.7, Fin 0.1) = NaN.
Proof. apply calculate_angle_nan. cbn. auto. Defined.

Lemma ltb_leb (x y : PrimFloat.float) :
  PrimFloat.ltb x y = true -> PrimFloat.leb x y = true.
Proof.
  rewrite FloatAxioms.ltb_spec, FloatAxioms.leb_spec.
  unfold SpecFloat.SFltb, SpecFloat.SFleb.
  destruct (SpecFloat.SFcompare _ _) as [[]|]; auto.
Qed.

(** X22.  [np.clip] in binary64 arithmetic: a NaN cosine is passed on, and
    every other value, the infinities included, is brought between -1 and 1,
    where [acos] is defined.  The clip is needed: with both end points at
    (2, 3) from the vertex the computed cosine exceeds 1, and the angle
    returned is that of cosine 1. *)
Theorem binary64_clip_keeps_cosine_in_domain (x : PrimFloat.float) :
  (PrimFloat.is_nan x = true ->
   binary64.clip x (PrimFloat.opp PrimFloat.one) PrimFloat.one = x) /\
  (PrimFloat.is_nan x = false ->
   PrimFloat.leb (PrimFloat.opp PrimFloat.one)
     (binary64.clip x (PrimFloat.opp PrimFloat.one) PrimFloat.one) = true /\
   PrimFloat.leb
     (binary64.clip x (PrimFloat.opp PrimFloat.one) PrimFloat.one) PrimFloat.one = true) /\
  PrimFloat.ltb PrimFloat.one
    (PrimFloat.div (binary64.dot binary64.off_axes binary64.off_axes)
       (PrimFloat.mul (binary64.norm binary64.off_axes)
                      (binary64.norm binary64.off_axes))) = true /\
  forall acos : PrimFloat.float -> PrimFloat.float,
    binary64.calculate_angle acos binary64.off_axes binary64.vertex binary64.off_axes =
    binary64.degrees (acos PrimFloat.one).
Proof.
  split; [| split; [| split]].
  - intros Hnan. unfold binary64.clip. rewrite Hnan. cbn [orb]. rewrite Hnan. reflexivity.
  - intros Hnum. unfold binary64.clip. rewrite Hnum. cbn [orb].
    destruct (PrimFloat.ltb (PrimFloat.opp PrimFloat.one) x) eqn:Hlo.
    + rewrite Hnum. cbn [orb].
      destruct (PrimFloat.ltb x PrimFloat.one) eqn:Hhi.
      * split; apply ltb_leb; assumption.
      * split; reflexivity.
    + split; reflexivity.
  - vm_compute. reflexivity.
  - intros acos. vm_compute. reflexivity.
Qed.

Lemma binary64_clip_keeps_cosine_in_domain_witness :
  (PrimFloat.leb (PrimFloat.opp PrimFloat.one)
     (binary64.clip PrimFloat.infinity (PrimFloat.opp PrimFloat.one) PrimFloat.one)
   = true /\
   PrimFloat.leb
     (binary64.clip PrimFloat.infinity (PrimFloat.opp PrimFloat.one) PrimFloat.one)
     PrimFloat.one = true) /\
  binary64.clip PrimFloat.nan (PrimFloat.opp PrimFloat.one) PrimFloat.one =
    PrimFloat.nan.
Proof.
  split.
  - apply (binary64_clip_keeps_cosine_in_domain PrimFloat.infinity). reflexivity.
  - apply (binary64_clip_keeps_cosine_in_domain PrimFloat.nan). reflexivity.
Defined.

Lemma zero_or_nan_cases (x : PrimFloat.float) :
  zero_or_nan x ->
  x = PrimFloat.nan \/ x = PrimFloat.zero \/ x = PrimFloat.neg_zero.
Proof.
  unfold zero_or_nan. intros H.
  rewrite <- (FloatAxioms.SF2Prim_Prim2SF x).
  destruct (FloatOps.Prim2SF x) as [s|s| |s m e]; try contradiction.
  - destruct s; [right; right | right; left]; reflexivity.
  - left. reflexivity.
Qed.

Lemma div_zero_or_nan_l (x y : PrimFloat.float) :
  zero_or_nan x -> zero_or_nan (PrimFloat.div x y).
Proof.
  unfold zero_or_nan. rewrite FloatAxioms.div_spec.
  destruct (FloatOps.Prim2SF x) as [s|s| |s m e]; try contradiction; intros _;
    destruct (FloatOps.Prim2SF y) as [t|t| |t n f]; exact I.
Qed.

(** X23.  A right angle in binary64 arithmetic: with the vertex at the origin,
    one end point on the x axis and the other on the y axis, the dot product
    is computed as an exact zero, and [calculate_angle] returns NaN or
    exactly 90.0, for every pair of floats and every [acos] that returns the
    float nearest to pi/2 for a zero. *)
Theorem binary64_right_angle (acos : PrimFloat.float -> PrimFloat.float)
    (x y : PrimFloat.float) :
  acos PrimFloat.zero = binary64.half_pi ->
  acos PrimFloat.neg_zero = binary64.half_pi ->
  binary64.calculate_angle acos (x, PrimFloat.zero) binary64.vertex (PrimFloat.zero, y)
    = PrimFloat.nan \/
  binary64.calculate_angle acos (x, PrimFloat.zero) binary64.vertex (PrimFloat.zero, y)
    = binary64.right_angle.
Proof.
  intros Hpos Hneg. unfold binary64.calculate_angle. cbv zeta.
  set (cosine := PrimFloat.div _ _).
  assert (Hc : zero_or_nan cosine).
  { apply div_zero_or_nan_l. unfold binary64.dot, binary64.vsub, binary64.vertex.
    cbn [fst snd]. apply add_zero_or_nan.
    - apply mul_zero_or_nan_r. apply sub_diag_zero_or_nan.
    - apply mul_zero_or_nan_l. apply sub_diag_zero_or_nan. }
  destruct (zero_or_nan_cases cosine Hc) as [-> | [-> | ->]].
  - left. reflexivity.
  - right. change (binary64.clip PrimFloat.zero _ _) with PrimFloat.zero.
    unfold binary64.arccos. cbn. rewrite Hpos. reflexivity.
  - right. change (binary64.clip PrimFloat.neg_zero _ _) with PrimFloat.neg_zero.
    unfold binary64.arccos. cbn. rewrite Hneg. reflexivity.
Qed.

Lemma binary64_right_angle_witness :
  binary64.calculate_angle (fun _ => binary64.half_pi)
    (PrimFloat.one, PrimFloat.zero) binary64.vertex (PrimFloat.zero, PrimFloat.one)
    = PrimFloat.nan \/
  binary64.calculate_angle (fun _ => binary64.half_pi)
    (PrimFloat.one, PrimFloat.zero) binary64.vertex (PrimFloat.zero, PrimFloat.one)
    = binary64.right_angle.
Proof. apply binary64_right_angle; reflexivity. Defined.

(** ** More on the Event Detector *)

(** Where the detector reads its two events, in positions of the table. *)
Lemma detect_positions (d : DataFrame) :
  d <> [] ->
  exists p q ffc_row release_row,
    d !! p = Some ffc_row /\ d !! q = Some release_row /\
    (p <= q <= p + 8)%nat /\
    detect_front_foot_contact (init (PyDataFrame d)) =
    Ok {| df := PyDataFrame d;
          ffc_frame := Some (frame ffc_row);
          ball_release_frame := Some (frame release_row) |}.
Proof.
  intros Hne.
  assert (Hlen : (0 < length d)%nat) by (destruct d; [contradiction | cbn; lia]).
  destruct (existsb (fun b => b)
              (map (fun y => negb (isnan y)) (front_ankle_y_of d))) eqn:Hex.
  - apply existsb_valid in Hex.
    destruct (ffc_frame_idx_spec _ Hex) as (p & y & Hp & Hy & _).
    apply lookup_lt_Some in Hy. unfold front_ankle_y_of in Hy. rewrite length_map in Hy.
    destruct (lookup_lt_is_Some_2 d p Hy) as [ffc_row Hrow].
    destruct (lookup_lt_is_Some_2 d (p + Nat.min 8 (length d - p - 1))%nat)
      as [release_row Hrel]; [lia |].
    exists p, (p + Nat.min 8 (length d - p - 1))%nat, ffc_row, release_row.
    repeat split; [assumption | assumption | lia | lia |].
    eapply detect_ankle_branch; eauto.
  - assert (Hdiv : (length d / 2 < length d)%nat) by (apply Nat.div_lt; lia).
    destruct (lookup_lt_is_Some_2 d (length d / 2)%nat Hdiv) as [ffc_row Hrow].
    destruct (lookup_lt_is_Some_2 d (Nat.min (length d / 2 + 5) (length d - 1)))
      as [release_row Hrel]; [lia |].
    exists (length d / 2)%nat, (Nat.min (length d / 2 + 5) (length d - 1)),
      ffc_row, release_row.
    repeat split; [assumption | assumption | lia | lia |].
    eapply detect_midpoint_branch; eauto.
    intros q y Hq. destruct (isnan y) eqn:E; [reflexivity |].
    assert (existsb (fun b => b)
              (map (fun y => negb (isnan y)) (front_ankle_y_of d)) = true)
      by (apply existsb_valid; eauto).
    congruence.
Qed.

(** X5.  Detection on any non-empty table: it does not raise, keeps the table,
    and sets both events to frames of rows of the table, BallRelease being
    read at the FFC position or at most eight positions after it. *)
Theorem detection_events_in_table (d : DataFrame) :
  d <> [] ->
  exists self' p q ffc_row release_row,
    detect_front_foot_contact (init (PyDataFrame d)) = Ok self' /\
    df self' = PyDataFrame d /\
    d !! p = Some ffc_row /\ ffc_frame self' = Some (frame ffc_row) /\
    d !! q = Some release_row /\ ball_release_frame self' = Some (frame release_row) /\
    (p <= q <= p + 8)%nat.
Proof.
  intros Hne.
  destruct (detect_positions d Hne) as (p & q & ffc_row & release_row & Hp & Hq & Hpq & Hdet).
  eexists _, p, q, ffc_row, release_row. split; [exact Hdet |]. cbn. auto 10.
Qed.

Lemma detection_events_in_table_witness :
  exists self' ffc release,
    detect_front_foot_contact (init (PyDataFrame two_frames)) = Ok self' /\
    ffc_frame self' = Some ffc /\ ball_release_frame self' = Some release.
Proof.
  destruct (detection_events_in_table two_frames)
    as (self' & p & q & ffc_row & release_row & H1 & _ & _ & H2 & _ & H3 & _).
  - discriminate.
  - eauto 10.
Defined.

(** X6.  The fallback: when no row has a defined front-ankle height (the column
    may also be absent), FFC is the frame at position [len // 2] and
    BallRelease the frame five positions later, or the last frame when
    there are not that many. *)
Theorem midpoint_fallback (d : DataFrame) :
  d <> [] ->
  (forall q row, d !! q = Some row -> isnan (get row "RIGHT_ANKLE_y" NaN) = true) ->
  exists self' ffc_row release_row,
    detect_front_foot_contact (init (PyDataFrame d)) = Ok self' /\
    d !! (length d / 2)%nat = Some ffc_row /\
    ffc_frame self' = Some (frame ffc_row) /\
    d !! Nat.min (length d / 2 + 5) (length d - 1) = Some release_row /\
    ball_release_frame self' = Some (frame release_row).
Proof.
  intros Hne Hnan.
  assert (Hlen : (0 < length d)%nat) by (destruct d; [contradiction | cbn; lia]).
  assert (Hdiv : (length d / 2 < length d)%nat) by (apply Nat.div_lt; lia).
  destruct (lookup_lt_is_Some_2 d (length d / 2)%nat Hdiv) as [ffc_row Hrow].
  destruct (lookup_lt_is_Some_2 d (Nat.min (length d / 2 + 5) (length d - 1)))
    as [release_row Hrel]; [lia |].
  eexists _, ffc_row, release_row. split.
  - apply (detect_midpoint_branch d ffc_row release_row); [| assumption..].
    intros q y Hq. rewrite front_ankle_y_lookup in Hq.
    destruct (d !! q) as [row|] eqn:Hrowq; [| discriminate].
    cbn in Hq. injection Hq as <-. eauto.
  - cbn. auto.
Qed.

Lemma midpoint_fallback_witness :
  exists self',
    detect_front_foot_contact (init (PyDataFrame ankle_hidden)) = Ok self' /\
    ffc_frame self' = Some 4 /\ ball_release_frame self' = Some 7.
Proof.
  destruct (midpoint_fallback ankle_hidden)
    as (self' & ffc_row & release_row & H1 & H2 & H3 & H4 & H5).
  - discriminate.
  - intros [|[|[|q]]] row Hq; cbn in Hq; try discriminate;
      injection Hq as <-; reflexivity.
  - exists self'. split; [exact H1 |].
    cbn in H2, H4. injection H2 as <-. injection H4 as <-. auto.
Defined.

(** ** More on the Frame Feature Extractor *)

(** The records of a non-empty table are those of its post-FFC rows. *)
Lemma extraction_records (d : DataFrame) :
  d <> [] ->
  exists self' ffc fk bk,
    detect_front_foot_contact (init (PyDataFrame d)) = Ok self' /\
    ffc_frame self' = Some ffc /\
    extract_features_post_ffc (init (PyDataFrame d)) =
      Ok (Extracted
            (map (features_of_row self') (List.filter (fun row => ffc <=? frame row) d))
            fk bk, self').
Proof.
  intros Hne.
  destruct (extract_features_spec d Hne) as (self' & ffc & Hdet & _ & Hffc & _ & Hex).
  eexists self', ffc, _, _. split; [exact Hdet |]. split; [exact Hffc |].
  rewrite Hex. cbv zeta. rewrite extraction_loop_features. reflexivity.
Qed.

(** X7.  The flags of the records: a record is tagged as the FFC frame (as the
    BallRelease frame) exactly when its row holds every column the extractor
    reads and its frame index is the FFC (the BallRelease) index; the record
    of a row with a column missing carries no tag, whatever its frame. *)
Theorem extraction_flags (d : DataFrame) :
  d <> [] ->
  exists self' ffc features fk bk,
    extract_features_post_ffc (init (PyDataFrame d)) =
      Ok (Extracted features fk bk, self') /\
    ffc_frame self' = Some ffc /\
    forall i row rec,
      List.filter (fun row => ffc <=? frame row) d !! i = Some row ->
      features !! i = Some rec ->
      (is_ffc rec = true <-> has_columns row /\ frame row = ffc) /\
      (is_ball_release rec = true <->
       has_columns row /\ Some (frame row) = ball_release_frame self').
Proof.
  intros Hne.
  destruct (extraction_records d Hne) as (self' & ffc & fk & bk & _ & Hffc & Hex).
  eexists self', ffc, _, fk, bk. split; [exact Hex |]. split; [exact Hffc |].
  intros i row rec Hrow Hrec.
  rewrite list_lookup_fmap, Hrow in Hrec. injection Hrec as <-.
  unfold features_of_row. destruct (decide (has_columns row)) as [Hc|Hm].
  - cbn [is_ffc is_ball_release computed_features]. rewrite Hffc.
    rewrite !bool_decide_eq_true. split; split.
    + intros [= E]. auto.
    + intros [_ ->]. reflexivity.
    + auto.
    + intros [_ E]. exact E.
  - cbn. split; split; try discriminate; intros [Hc _]; contradiction.
Qed.

Lemma extraction_flags_witness :
  exists self' features fk bk,
    extract_features_post_ffc (init (PyDataFrame two_frames)) =
      Ok (Extracted features fk bk, self').
Proof.
  destruct (extraction_flags two_frames) as (self' & ffc & features & fk & bk & H & _).
  - discriminate.
  - eauto.
Defined.

Ltac run_late_step r :=
  let H := fresh "Hstep" in
  destruct r eqn:H;
  cbn [mbind M_bind lift append_front_knee append_back_knee append_features
       front_knee_angles back_knee_angles frame_features];
  [ try (apply landmark_angle_ok_inv in H as (? & ? & ?))
  | eexists _, _; split; [reflexivity | split; reflexivity] ].

(** A lookup that fails after the front knee angle was appended leaves that
    entry in the series. *)
Lemma try_block_raise_late (self : Extractor) (row : Row) (s : Locals) :
  has_landmark row "RIGHT_HIP" -> has_landmark row "RIGHT_KNEE" ->
  has_landmark row "RIGHT_ANKLE" ->
  ~ has_columns row ->
  exists e s',
    try_block self row s = (Raise e, s') /\
    front_knee_angles s' =
      front_knee_angles s ++
      [(frame row, calculate_angle (pt row "RIGHT_HIP") (pt row "RIGHT_KNEE")
                     (pt row "RIGHT_ANKLE"))] /\
    frame_features s' = frame_features s.
Proof.
  intros Hh Hk Ha Hmissing. unfold try_block.
  rewrite (landmark_angle_ok row "RIGHT_HIP" "RIGHT_KNEE" "RIGHT_ANKLE" Hh Hk Ha).
  cbn [mbind M_bind lift append_front_knee append_back_knee append_features
       front_knee_angles back_knee_angles frame_features].
  run_late_step (landmark_angle row "RIGHT_SHOULDER" "RIGHT_ELBOW" "RIGHT_WRIST").
  run_late_step (landmark_angle row "LEFT_HIP" "LEFT_KNEE" "LEFT_ANKLE").
  run_late_step (landmark_angle row "LEFT_SHOULDER" "RIGHT_HIP" "RIGHT_KNEE").
  run_late_step (landmark_angle row "LEFT_HIP" "RIGHT_SHOULDER" "RIGHT_HIP").
  run_late_step (shoulder_alignment_of row).
  run_late_step (landmark_angle row "LEFT_SHOULDER" "LEFT_ELBOW" "LEFT_WRIST").
  run_late_step (landmark_angle row "LEFT_SHOULDER" "NOSE" "RIGHT_SHOULDER").
  run_late_step (pelvis_rotation_of row).
  run_late_step (landmark_angle row "RIGHT_KNEE" "RIGHT_ANKLE" "RIGHT_FOOT_INDEX").
  run_late_step (landmark_angle row "LEFT_KNEE" "LEFT_ANKLE" "LEFT_FOOT_INDEX").
  exfalso. apply Hmissing. unfold has_columns, required_landmarks.
  repeat (apply Forall_cons; split; [assumption |]). apply Forall_nil_2.
Qed.

(** X8.  A frame that has the hip, knee and ankle of the front leg but lacks
    another column read later gets two entries in the front-knee series, its
    angle and then NaN, while its record has every feature NaN: the knee
    phases still use the angle of a frame whose record shows none. *)
Theorem knee_series_keeps_angle_of_failed_frame
    (self : Extractor) (row : Row) (s : Locals) :
  has_landmark row "RIGHT_HIP" -> has_landmark row "RIGHT_KNEE" ->
  has_landmark row "RIGHT_ANKLE" ->
  ~ has_columns row ->
  front_knee_angles (loop_body self row s).2 =
    front_knee_angles s ++
    [ (frame row, calculate_angle (pt row "RIGHT_HIP") (pt row "RIGHT_KNEE")
                    (pt row "RIGHT_ANKLE"));
      (frame row, NaN) ] /\
  frame_features (loop_body self row s).2 =
    frame_features s ++ [nan_features (frame row)].
Proof.
  intros Hh Hk Ha Hmissing.
  destruct (try_block_raise_late self row s Hh Hk Ha Hmissing)
    as (e & s' & Htry & Hfront & Hfeat).
  unfold loop_body, try_except. rewrite Htry.
  unfold except_block, mbind, M_bind, append_front_knee, append_back_knee,
    append_features.
  cbn [front_knee_angles frame_features snd].
  rewrite Hfront, Hfeat, <- app_assoc. split; reflexivity.
Qed.

Lemma knee_series_keeps_angle_of_failed_frame_witness :
  front_knee_angles
    (loop_body (init (PyDataFrame frame_without_nose))
       (landmarks_row 0 (tail pose))
       {| front_knee_angles := []; back_knee_angles := []; frame_features := [] |}).2 =
  [ (0, calculate_angle (Fin 0.55, Fin 0.5) (Fin 0.6, Fin 0.7) (Fin 0.6, Fin 0.9));
    (0, NaN) ].
Proof.
  apply (knee_series_keeps_angle_of_failed_frame
           (init (PyDataFrame frame_without_nose)) (landmarks_row 0 (tail pose))).
  - split; eexists; reflexivity.
  - split; eexists; reflexivity.
  - split; eexists; reflexivity.
  - intros Hc.
    assert (Hn : has_landmark (landmarks_row 0 (tail pose)) "NOSE").
    { apply (has_columns_landmark _ _ Hc). unfold required_landmarks.
      repeat first [apply list_elem_of_here | apply list_elem_of_further]. }
    destruct Hn as [[v Hv] _]. discriminate.
Defined.

(** ** More on the Phase Analyzer *)

(** The loop of [np.argmin] keeps the position of the first minimum. *)
Lemma argmin_loop_spec (ip pre : list float) (mp : float) (mi i : nat) :
  Forall (fun x => isnan x = false) ip ->
  isnan mp = false ->
  length pre = i ->
  pre !! mi = Some mp ->
  (forall j x, pre !! j = Some x -> le mp x = true) ->
  exists m,
    (pre ++ ip) !! argmin_loop mp mi i ip = Some m /\
    (forall j x, (pre ++ ip) !! j = Some x -> le m x = true).
Proof.
  revert pre mp mi i.
  induction ip as [|x rest IH]; intros pre mp mi i Hnn Hmp Hlen Hmi Hmin.
  - cbn. rewrite app_nil_r. eauto.
  - apply Forall_cons in Hnn as [Hx Hrest]. cbn [argmin_loop]. unfold ge.
    replace (pre ++ x :: rest) with ((pre ++ [x]) ++ rest)
      by (rewrite <- app_assoc; reflexivity).
    destruct (le mp x) eqn:Hle.
    + apply IH; auto.
      * rewrite length_app; cbn; lia.
      * apply lookup_app_l_Some; exact Hmi.
      * intros j y Hj. apply lookup_app_Some in Hj as [Hj|[_ Hj]]; [eauto |].
        apply list_lookup_singleton_Some in Hj as [_ <-]. exact Hle.
    + rewrite Hx. apply IH; auto.
      * rewrite length_app; cbn; lia.
      * rewrite lookup_app_r by lia. rewrite Hlen, Nat.sub_diag. reflexivity.
      * intros j y Hj. apply lookup_app_Some in Hj as [Hj|[_ Hj]].
        -- eapply le_trans; [| eapply Hmin; eauto]. apply le_total; auto.
        -- apply list_lookup_singleton_Some in Hj as [_ <-]. apply le_refl; auto.
Qed.

Lemma argmin_spec (a : list float) :
  a <> [] ->
  Forall (fun x => isnan x = false) a ->
  exists k m,
    argmin a = Some k /\ a !! k = Some m /\
    (forall j x, a !! j = Some x -> le m x = true).
Proof.
  intros Hne Hnn. destruct a as [|x rest]; [contradiction |].
  apply Forall_cons in Hnn as [Hx Hrest]. cbn [argmin]. rewrite Hx.
  destruct (argmin_loop_spec rest [x] x 0 1 Hrest Hx eq_refl eq_refl) as (m & H1 & H2).
  - intros [|j] y Hj; cbn in Hj; [| discriminate]. inversion Hj; subst. apply le_refl; auto.
  - exists (argmin_loop x 0 1 rest), m. auto.
Qed.

Lemma deviation_of_fin (c e : R) : deviation_of (Fin c) (Fin e) = Fin (e - c).
Proof. unfold deviation_of, sub. cbn. f_equal. Qed.

Lemma valid_angles_nil (series : list (Z * float)) :
  valid_angles_of series = [] <-> Forall (fun fa => isnan fa.2 = true) series.
Proof.
  unfold valid_angles_of. induction series as [|[f a] series IH]; cbn.
  - split; [constructor | reflexivity].
  - destruct (isnan a) eqn:E; cbn.
    + rewrite IH. split; [intros H; constructor; auto |].
      intros H. apply Forall_cons in H as [_ H]. exact H.
    + split; [discriminate |]. intros H. apply Forall_cons in H as [H _].
      cbn in H. congruence.
Qed.

(** X14.  The phases of the front knee, when some angle of the series is defined:
    the contact is the first defined entry, the flexion the smallest and the
    extension the largest defined angle, each with the frame it was measured
    at; hence flexion <= contact <= extension, and the deviation of finite
    angles is their difference, never negative. *)
Theorem front_knee_phases_ordered (series : list (Z * float)) :
  valid_angles_of series <> [] ->
  exists p,
    analyze_front_knee_phases series = Ok (Some p) /\
    valid_angles_of series !! 0%nat = Some (contact_frame p, contact_angle p) /\
    (max_flexion_frame p, max_flexion_angle p) ∈ valid_angles_of series /\
    (max_extension_frame p, max_extension_angle p) ∈ valid_angles_of series /\
    (forall f a, (f, a) ∈ valid_angles_of series ->
       le (max_flexion_angle p) a = true /\ le a (max_extension_angle p) = true) /\
    le (max_flexion_angle p) (contact_angle p) = true /\
    le (contact_angle p) (max_extension_angle p) = true /\
    (forall c e, contact_angle p = Fin c -> max_extension_angle p = Fin e ->
       deviation p = Fin (e - c) /\ (0 <= e - c)%R).
Proof.
  intros Hvalid.
  set (valid := valid_angles_of series) in *.
  assert (Hseries : series <> []) by (intros E; subst series; apply Hvalid; reflexivity).
  assert (Hangles : map snd valid <> [])
    by (intros E; apply Hvalid; destruct valid; [reflexivity | discriminate]).
  pose proof (valid_angles_not_nan series) as Hnn. fold valid in Hnn.
  destruct (argmin_spec _ Hangles Hnn) as (kf & mf & Hkf & Hmf & Hmin).
  destruct (argmax_spec _ Hangles Hnn) as (ke & me & Hke & Hme & Hmax & _).
  destruct valid as [|[f0 a0] rest] eqn:Ev; [contradiction |].
  rewrite <- Ev in *.
  assert (H0 : valid !! 0%nat = Some (f0, a0)) by (rewrite Ev; reflexivity).
  rewrite list_lookup_fmap in Hmf, Hme.
  destruct (valid !! kf) as [[ff af]|] eqn:Hf; [| discriminate].
  destruct (valid !! ke) as [[fe ae]|] eqn:He; [| discriminate].
  cbn in Hmf, Hme. injection Hmf as <-. injection Hme as <-.
  assert (Hall : forall f a, (f, a) ∈ valid -> le af a = true /\ le a ae = true).
  { intros f a Hin. apply list_elem_of_lookup in Hin as [j Hj].
    split; [apply (Hmin j) | apply (Hmax j)]; rewrite list_lookup_fmap, Hj; reflexivity. }
  exists {| contact_angle := a0; max_flexion_angle := af; max_extension_angle := ae;
            contact_frame := f0; max_flexion_frame := ff; max_extension_frame := fe;
            deviation := deviation_of a0 ae |}.
  split.
  { unfold analyze_front_knee_phases. fold valid.
    rewrite (bool_decide_eq_false_2 _ Hseries), (bool_decide_eq_false_2 _ Hvalid).
    rewrite (item_lookup (map snd valid) 0 a0) by (rewrite list_lookup_fmap, H0; reflexivity).
    rewrite (item_lookup (map fst valid) 0 f0) by (rewrite list_lookup_fmap, H0; reflexivity).
    rewrite Hkf, Hke. cbn [mbind result_bind from_option].
    rewrite (item_lookup (map snd valid) kf af) by (rewrite list_lookup_fmap, Hf; reflexivity).
    rewrite (item_lookup (map fst valid) kf ff) by (rewrite list_lookup_fmap, Hf; reflexivity).
    cbn [mbind result_bind].
    rewrite (item_lookup (map snd valid) ke ae) by (rewrite list_lookup_fmap, He; reflexivity).
    rewrite (item_lookup (map fst valid) ke fe) by (rewrite list_lookup_fmap, He; reflexivity).
    reflexivity. }
  cbn [contact_angle contact_frame max_flexion_angle max_flexion_frame
       max_extension_angle max_extension_frame deviation].
  assert (Hin0 : (f0, a0) ∈ valid) by (eapply list_elem_of_lookup_2; eauto).
  split; [exact H0 |].
  split; [eapply list_elem_of_lookup_2; eauto |].
  split; [eapply list_elem_of_lookup_2; eauto |].
  split; [exact Hall |].
  split; [apply (Hall f0 a0 Hin0) |].
  split; [apply (Hall f0 a0 Hin0) |].
  intros c e -> ->. rewrite deviation_of_fin. split; [reflexivity |].
  destruct (Hall f0 (Fin c) Hin0) as [_ Hle]. cbn in Hle.
  apply bool_decide_eq_true_1 in Hle. lra.
Qed.

Lemma front_knee_phases_ordered_witness :
  exists p,
    analyze_front_knee_phases back_knee_series = Ok (Some p) /\
    le (max_flexion_angle p) (contact_angle p) = true /\
    le (contact_angle p) (max_extension_angle p) = true.
Proof.
  destruct (front_knee_phases_ordered back_knee_series)
    as (p & H1 & _ & _ & _ & _ & H2 & H3 & _).
  - unfold back_knee_series, valid_angles_of. cbn [List.filter snd isnan negb].
    discriminate.
  - eauto.
Defined.

(** X15.  The phases of the back knee, when some angle of the series is defined:
    the contact is the first defined entry and the flexion the smallest
    defined angle, so flexion <= contact and flexion <= extension. *)
Theorem back_knee_phases_ordered (series : list (Z * float)) :
  valid_angles_of series <> [] ->
  exists p,
    analyze_back_knee_phases series = Ok (Some p) /\
    valid_angles_of series !! 0%nat = Some (contact_frame p, contact_angle p) /\
    (max_flexion_frame p, max_flexion_angle p) ∈ valid_angles_of series /\
    (max_extension_frame p, max_extension_angle p) ∈ valid_angles_of series /\
    (forall f a, (f, a) ∈ valid_angles_of series ->
       le (max_flexion_angle p) a = true) /\
    le (max_flexion_angle p) (contact_angle p) = true /\
    le (max_flexion_angle p) (max_extension_angle p) = true /\
    deviation p = deviation_of (contact_angle p) (max_extension_angle p).
Proof.
  intros Hvalid.
  set (valid := valid_angles_of series) in *.
  assert (Hseries : series <> []) by (intros E; subst series; apply Hvalid; reflexivity).
  assert (Hangles : map snd valid <> [])
    by (intros E; apply Hvalid; destruct valid; [reflexivity | discriminate]).
  pose proof (valid_angles_not_nan series) as Hnn. fold valid in Hnn.
  destruct (argmin_spec _ Hangles Hnn) as (kf & mf & Hkf & Hmf & Hmin).
  destruct (back_max_ext_idx_spec _ Hangles Hnn) as (ke & me & Hke & _ & Hme & _).
  destruct valid as [|[f0 a0] rest] eqn:Ev; [contradiction |].
  rewrite <- Ev in *.
  assert (H0 : valid !! 0%nat = Some (f0, a0)) by (rewrite Ev; reflexivity).
  rewrite list_lookup_fmap in Hmf, Hme.
  destruct (valid !! kf) as [[ff af]|] eqn:Hf; [| discriminate].
  destruct (valid !! ke) as [[fe ae]|] eqn:He; [| discriminate].
  cbn in Hmf, Hme. injection Hmf as <-. injection Hme as <-.
  assert (Hall : forall f a, (f, a) ∈ valid -> le af a = true).
  { intros f a Hin. apply list_elem_of_lookup in Hin as [j Hj].
    apply (Hmin j). rewrite list_lookup_fmap, Hj. reflexivity. }
  exists {| contact_angle := a0; max_flexion_angle := af; max_extension_angle := ae;
            contact_frame := f0; max_flexion_frame := ff; max_extension_frame := fe;
            deviation := deviation_of a0 ae |}.
  split.
  { unfold analyze_back_knee_phases. fold valid.
    rewrite (bool_decide_eq_false_2 _ Hseries), (bool_decide_eq_false_2 _ Hvalid).
    rewrite (item_lookup (map fst valid) 0 f0) by (rewrite list_lookup_fmap, H0; reflexivity).
    rewrite (item_lookup (map snd valid) 0 a0) by (rewrite list_lookup_fmap, H0; reflexivity).
    rewrite Hkf, Hke. cbn [mbind result_bind from_option].
    rewrite (item_lookup (map snd valid) kf af) by (rewrite list_lookup_fmap, Hf; reflexivity).
    rewrite (item_lookup (map fst valid) kf ff) by (rewrite list_lookup_fmap, Hf; reflexivity).
    cbn [mbind result_bind].
    rewrite (item_lookup (map snd valid) ke ae) by (rewrite list_lookup_fmap, He; reflexivity).
    rewrite (item_lookup (map fst valid) ke fe) by (rewrite list_lookup_fmap, He; reflexivity).
    reflexivity. }
  cbn [contact_angle contact_frame max_flexion_angle max_flexion_frame
       max_extension_angle max_extension_frame deviation].
  split; [exact H0 |].
  split; [eapply list_elem_of_lookup_2; eauto |].
  split; [eapply list_elem_of_lookup_2; eauto |].
  split; [exact Hall |].
  split; [apply (Hall f0); eapply list_elem_of_lookup_2; eauto |].
  split; [apply (Hall fe); eapply list_elem_of_lookup_2; eauto | reflexivity].
Qed.

Lemma back_knee_phases_ordered_witness :
  exists p,
    analyze_back_knee_phases back_knee_series = Ok (Some p) /\
    le (max_flexion_angle p) (max_extension_angle p) = true.
Proof.
  destruct (back_knee_phases_ordered back_knee_series)
    as (p & H1 & _ & _ & _ & _ & _ & H2 & _).
  - unfold back_knee_series, valid_angles_of. cbn [List.filter snd isnan negb].
    discriminate.
  - eauto.
Defined.

Lemma front_knee_phases_spec_some (series : list (Z * float)) :
  valid_angles_of series <> [] ->
  exists p, analyze_front_knee_phases series = Ok (Some p).
Proof.
  intros Hne. pose proof (analyze_front_knee_phases_spec series) as H.
  destruct (valid_angles_of series) as [|[f0 a0] rest]; [contradiction |].
  destruct H as (p & H & _). eauto.
Qed.

Lemma back_knee_phases_spec_some (series : list (Z * float)) :
  valid_angles_of series <> [] ->
  exists p, analyze_back_knee_phases series = Ok (Some p).
Proof.
  intros Hne.
  destruct (analyze_back_knee_phases_total series) as [r Hr].
  destruct r as [p|]; [eauto |]. exfalso.
  unfold analyze_back_knee_phases in Hr.
  assert (Hseries : series <> []) by (intros ->; apply Hne; reflexivity).
  rewrite (bool_decide_eq_false_2 _ Hseries), (bool_decide_eq_false_2 _ Hne) in Hr.
  repeat match type of Hr with
         | context [mbind _ ?m] =>
             let E := fresh in destruct m eqn:E; cbn [mbind result_bind] in Hr;
             [| discriminate]
         end.
  discriminate.
Qed.

(** X16.  Neither analysis raises; each returns the all-None tuple exactly when
    the series holds no defined angle (in particular when it is empty). *)
Theorem phases_none_iff_undefined (series : list (Z * float)) :
  (exists r, analyze_front_knee_phases series = Ok r /\
             (r = None <-> Forall (fun fa => isnan fa.2 = true) series)) /\
  (exists r, analyze_back_knee_phases series = Ok r /\
             (r = None <-> Forall (fun fa => isnan fa.2 = true) series)).
Proof.
  pose proof (valid_angles_nil series) as Hnil.
  destruct (valid_angles_of series) as [|fa rest] eqn:Hv.
  - split.
    + exists None. split; [| split; [intros _; apply Hnil; reflexivity | reflexivity]].
      unfold analyze_front_knee_phases. rewrite Hv.
      destruct (bool_decide (series = [])); reflexivity.
    + exists None. split; [| split; [intros _; apply Hnil; reflexivity | reflexivity]].
      unfold analyze_back_knee_phases. rewrite Hv.
      destruct (bool_decide (series = [])); reflexivity.
  - assert (Hne : valid_angles_of series <> []) by (rewrite Hv; discriminate).
    destruct (front_knee_phases_spec_some series Hne) as (p & Hp).
    destruct (back_knee_phases_spec_some series Hne) as (p' & Hp').
    split; [exists (Some p) | exists (Some p')]; (split; [assumption |]);
      (split; [discriminate | intros HF; apply Hnil in HF; discriminate]).
Qed.

(** ** The shape of the report *)

Lemma sublist_optional (c : bool) (r : SummaryRow) (name : string) :
  Feature r = name ->
  map Feature (if c then [r] else []) `sublist_of` [name].
Proof. intros <-. destruct c; cbn; [reflexivity | apply sublist_nil_l]. Qed.

Lemma sublist_append_if_defined (phases : option KneePhases)
    (value : KneePhases -> float) (row : KneePhases -> SummaryRow) (name : string) :
  (forall p, Feature (row p) = name) ->
  map Feature (append_if_defined phases value row) `sublist_of` [name].
Proof.
  intros Hname. unfold append_if_defined.
  destruct phases as [p|]; [| apply sublist_nil_l].
  destruct (negb _); cbn; [rewrite Hname; reflexivity | apply sublist_nil_l].
Qed.

Lemma length_optional {A : Type} (c : bool) (r : A) :
  (length (if c then [r] else []) <= 1)%nat.
Proof. destruct c; cbn; lia. Qed.

Lemma length_append_if_defined {A : Type} (phases : option KneePhases)
    (value : KneePhases -> float) (row : KneePhases -> A) :
  (length (append_if_defined phases value row) <= 1)%nat.
Proof.
  unfold append_if_defined. destruct phases; [destruct (negb _) |]; cbn; lia.
Qed.

(** The names of the rows of a report, in order: at most one row per name,
    in the order of the appends, the ten comprehensive rows last. *)
Lemma summary_rows_order (self : Extractor) (data : list FrameFeatures)
    (front back : option KneePhases) (rows : list SummaryRow) :
  summary_rows self data front back = Ok rows ->
  map Feature rows `sublist_of` catalog_order /\
  (10 <= length rows <= 20)%nat /\
  drop (length rows - 10) (map Feature rows) = map fst comprehensive_features.
Proof.
  rewrite summary_rows_eq. intros [= <-].
  set (o1 := if negb (bool_decide (dropna (map Elbow_Angle data) = [])) then _ else _).
  set (o2 := append_if_defined front contact_angle _).
  set (o3 := append_if_defined front max_flexion_angle _).
  set (o4 := append_if_defined front max_extension_angle _).
  set (o5 := append_if_defined front deviation _).
  set (o6 := append_if_defined back contact_angle _).
  set (o7 := append_if_defined back max_flexion_angle _).
  set (o8 := append_if_defined back max_extension_angle _).
  set (o9 := append_if_defined back deviation _).
  set (o10 := if negb (bool_decide (dropna (map Back_Knee_Angle data) = [])) then _ else _).
  rewrite (app_assoc (o1 ++ o2 ++ o3 ++ o4 ++ o5 ++ o6 ++ o7 ++ o8 ++ o9) o10).
  set (prefix := (o1 ++ o2 ++ o3 ++ o4 ++ o5 ++ o6 ++ o7 ++ o8 ++ o9) ++ o10).
  assert (Hsub : map Feature prefix `sublist_of` take 10 catalog_order).
  { unfold prefix. rewrite !map_app.
    change (take 10 catalog_order) with
      ((["Elbow Angle"] ++ ["Front Knee at FFC"] ++ ["Front Knee Max Flexion"] ++
        ["Front Knee Max Extension"] ++ ["Knee Angle Deviation"] ++
        ["Back Knee at BFC"] ++ ["Back Knee Max Flexion"] ++
        ["Back Knee Max Extension"] ++ ["Back Knee Deviation"]) ++ ["Back Knee Angle"]).
    repeat apply sublist_app;
      first [ apply sublist_optional; reflexivity
            | apply sublist_append_if_defined; intros p; reflexivity ]. }
  assert (Hlen : (length prefix <= 10)%nat).
  { apply sublist_length in Hsub. rewrite length_map in Hsub. exact Hsub. }
  split; [| split].
  - rewrite map_app.
    change catalog_order with (take 10 catalog_order ++ drop 10 catalog_order).
    apply sublist_app; [exact Hsub |].
    cbn [map]. rewrite !Feature_comprehensive_row_of. reflexivity.
  - rewrite length_app. cbn [length]. lia.
  - rewrite map_app, length_app. cbn [length].
    replace (length prefix + 10 - 10)%nat with (length (map Feature prefix) + 0)%nat
      by (rewrite length_map; lia).
    rewrite drop_app_add. cbn [map drop].
    rewrite !Feature_comprehensive_row_of. reflexivity.
Qed.

(** X19.  The report of a table: the empty table raises in the detector, every
    other table gets a report of ten to twenty rows and the answer
    "success"; the empty report is never returned. *)
Theorem report_size (d : DataFrame) :
  (d = [] /\
   calculate_biomechanical_summary (init (PyDataFrame d)) =
     Raise (IndexError "single positional indexer is out-of-bounds")) \/
  (d <> [] /\
   exists rows self',
     calculate_biomechanical_summary (init (PyDataFrame d)) = Ok (rows, self') /\
     (10 <= length rows <= 20)%nat /\
     analyze_bowling (PyDataFrame d) =
       Ok {| status := "success";
             message := "Video analyzed successfully";
             details := Some rows |}).
Proof.
  destruct d as [|row d]; [left; split; reflexivity | right].
  split; [discriminate |].
  destruct (calculate_biomechanical_summary_spec (row :: d))
    as (self' & features & fk & bk & front & back & rows
        & _ & _ & _ & _ & _ & Hrows & Hcalc); [discriminate |].
  exists rows, self'. split; [exact Hcalc |].
  split; [apply (summary_rows_order _ _ _ _ _ Hrows) |].
  unfold analyze_bowling, try_return. rewrite Hcalc. reflexivity.
Qed.

(** X20.  The rows of a report come in the fixed order of the catalog, no feature
    twice, and the report ends with the ten comprehensive rows. *)
Theorem report_order (d : DataFrame) :
  d <> [] ->
  exists rows self',
    calculate_biomechanical_summary (init (PyDataFrame d)) = Ok (rows, self') /\
    map Feature rows `sublist_of` catalog_order /\
    NoDup (map Feature rows) /\
    drop (length rows - 10) (map Feature rows) = map fst comprehensive_features.
Proof.
  intros Hne.
  destruct (calculate_biomechanical_summary_spec d Hne)
    as (self' & features & fk & bk & front & back & rows
        & _ & _ & _ & _ & _ & Hrows & Hcalc).
  destruct (summary_rows_order _ _ _ _ _ Hrows) as (Hsub & _ & Hlast).
  exists rows, self'. split; [exact Hcalc |]. split; [exact Hsub |].
  split; [| exact Hlast].
  eapply sublist_NoDup; [| exact Hsub].
  unfold catalog_order. apply NoDup_ListNoDup.
  repeat (constructor; [cbn; intuition discriminate |]). constructor.
Qed.

Lemma report_order_witness :
  exists rows self',
    calculate_biomechanical_summary (init (PyDataFrame two_frames)) = Ok (rows, self') /\
    NoDup (map Feature rows).
Proof.
  destruct (report_order two_frames) as (rows & self' & H1 & _ & H2 & _).
  - discriminate.
  - eauto.
Defined.

(** ** The release window *)

Lemma is_ball_release_features_of_row (self : Extractor) (row : Row) :
  is_ball_release (features_of_row self row) =
  bool_decide (has_columns row) &&
  bool_decide (Some (frame row) = ball_release_frame self).
Proof.
  unfold features_of_row. destruct (decide (has_columns row)) as [Hc|Hm].
  - rewrite (bool_decide_eq_true_2 _ Hc). reflexivity.
  - rewrite (bool_decide_eq_false_2 _ Hm). reflexivity.
Qed.

Lemma filter_release_other (self : Extractor) (release : Z) (rows : DataFrame) :
  ball_release_frame self = Some release ->
  release ∉ map frame rows ->
  List.filter is_ball_release (map (features_of_row self) rows) = [].
Proof.
  intros Hrel. induction rows as [|row rows IH]; intros Hnot; [reflexivity |].
  cbn [map] in Hnot. apply not_elem_of_cons in Hnot as [Hne Hnot].
  cbn [map List.filter]. rewrite is_ball_release_features_of_row, Hrel.
  rewrite (bool_decide_eq_false_2 (Some (frame row) = Some release))
    by (intros [= E]; congruence).
  rewrite andb_false_r. apply IH. exact Hnot.
Qed.

(** With distinct frame indices, only the record of the BallRelease row can
    be flagged. *)
Lemma filter_release_unique (self : Extractor) (release_row : Row) (rows : DataFrame) :
  ball_release_frame self = Some (frame release_row) ->
  NoDup (map frame rows) ->
  release_row ∈ rows ->
  List.filter is_ball_release (map (features_of_row self) rows) =
  if decide (has_columns release_row)
  then [computed_features self release_row]
  else [].
Proof.
  intros Hrel Hnd Hin.
  apply list_elem_of_split in Hin as (l1 & l2 & ->).
  rewrite map_app in Hnd. cbn [map] in Hnd.
  apply NoDup_app in Hnd as (_ & Hl1 & Hnd).
  apply NoDup_cons in Hnd as (Hl2 & _).
  rewrite map_app, List.filter_app. cbn [map List.filter].
  rewrite (filter_release_other self (frame release_row) l1 Hrel).
  2:{ intros Hin. apply (Hl1 _ Hin). apply list_elem_of_here. }
  rewrite (filter_release_other self (frame release_row) l2 Hrel Hl2).
  rewrite is_ball_release_features_of_row, Hrel.
  rewrite (bool_decide_eq_true_2 (Some (frame release_row) = Some (frame release_row)))
    by reflexivity.
  rewrite andb_true_r. unfold features_of_row.
  destruct (decide (has_columns release_row)) as [Hc|Hm].
  - rewrite (bool_decide_eq_true_2 _ Hc). reflexivity.
  - rewrite (bool_decide_eq_false_2 _ Hm). reflexivity.
Qed.

Lemma filter_sublist {A : Type} (f : A -> bool) (l : list A) :
  List.filter f l `sublist_of` l.
Proof.
  induction l as [|x l IH]; cbn; [constructor |].
  destruct (f x); [apply sublist_skip | apply sublist_cons]; exact IH.
Qed.

Lemma increasing_frames_NoDup (d : DataFrame) :
  (forall i j ri rj, d !! i = Some ri -> d !! j = Some rj ->
     (i < j)%nat -> frame ri < frame rj) ->
  NoDup (map frame d).
Proof.
  intros Hinc. apply NoDup_alt. intros i j f Hi Hj.
  rewrite list_lookup_fmap in Hi, Hj.
  apply fmap_Some in Hi as (ri & Ei & Hfi).
  apply fmap_Some in Hj as (rj & Ej & Hfj).
  destruct (Nat.lt_trichotomy i j) as [Hlt|[->|Hlt]]; [| reflexivity |].
  - pose proof (Hinc _ _ _ _ Ei Ej Hlt). lia.
  - pose proof (Hinc _ _ _ _ Ej Ei Hlt). lia.
Qed.

(** The release window of a table with increasing frame indices. *)
Lemma release_window_of_table (d : DataFrame) :
  d <> [] ->
  (forall i j ri rj, d !! i = Some ri -> d !! j = Some rj ->
     (i < j)%nat -> frame ri < frame rj) ->
  exists self' features fk bk release_row,
    detect_front_foot_contact (init (PyDataFrame d)) = Ok self' /\
    extract_features_post_ffc (init (PyDataFrame d)) =
      Ok (Extracted features fk bk, self') /\
    release_row ∈ d /\
    ball_release_frame self' = Some (frame release_row) /\
    List.filter is_ball_release features =
      if decide (has_columns release_row)
      then [computed_features self' release_row]
      else [].
Proof.
  intros Hne Hinc.
  destruct (detect_positions d Hne)
    as (p & q & ffc_row & release_row & Hp & Hq & Hpq & Hdet).
  destruct (extraction_records d Hne) as (self' & ffc & fk & bk & Hdet' & Hffc & Hex).
  rewrite Hdet in Hdet'. injection Hdet' as <-.
  cbn [ffc_frame] in Hffc. injection Hffc as <-.
  eexists _, _, fk, bk, release_row.
  split; [exact Hdet |]. split; [exact Hex |].
  split; [eapply list_elem_of_lookup_2; eauto |].
  split; [reflexivity |].
  apply filter_release_unique; [reflexivity | |].
  - apply (sublist_NoDup _ (map frame d));
      [apply (increasing_frames_NoDup d Hinc) | apply fmap_sublist, filter_sublist].
  - apply list_elem_of_In, filter_In. split.
    + apply list_elem_of_In. eapply list_elem_of_lookup_2; eauto.
    + apply Z.leb_le. destruct (decide (p = q)) as [->|Hneq].
      * assert (ffc_row = release_row) by congruence. subst. lia.
      * assert (frame ffc_row < frame release_row) by (eapply Hinc; eauto; lia). lia.
Qed.

(** X17.  With increasing frame indices, the statistics are taken over the record
    of the BallRelease frame alone when its row holds every column the
    extractor reads, and over the last three records otherwise. *)
Theorem release_window_is_release_frame (d : DataFrame) :
  d <> [] ->
  (forall i j ri rj, d !! i = Some ri -> d !! j = Some rj ->
     (i < j)%nat -> frame ri < frame rj) ->
  exists self' features fk bk release_row,
    extract_features_post_ffc (init (PyDataFrame d)) =
      Ok (Extracted features fk bk, self') /\
    release_row ∈ d /\
    ball_release_frame self' = Some (frame release_row) /\
    (has_columns release_row ->
     release_window features = [computed_features self' release_row]) /\
    (~ has_columns release_row ->
     release_window features = drop (length features - 3) features).
Proof.
  intros Hne Hinc.
  destruct (release_window_of_table d Hne Hinc)
    as (self' & features & fk & bk & release_row & _ & Hex & Hin & Hrel & Hfilter).
  exists self', features, fk, bk, release_row.
  split; [exact Hex |]. split; [exact Hin |]. split; [exact Hrel |].
  unfold release_window. rewrite Hfilter. split; intros H.
  - destruct (decide (has_columns release_row)); [reflexivity | contradiction].
  - destruct (decide (has_columns release_row)); [contradiction | reflexivity].
Qed.

Lemma release_window_is_release_frame_witness :
  exists self' features fk bk release_row,
    extract_features_post_ffc (init (PyDataFrame two_frames)) =
      Ok (Extracted features fk bk, self') /\
    release_row ∈ two_frames /\
    ball_release_frame self' = Some (frame release_row).
Proof.
  destruct (release_window_is_release_frame two_frames)
    as (self' & features & fk & bk & release_row & H1 & H2 & H3 & _).
  - discriminate.
  - exact two_frames_increasing.
  - eauto 10.
Defined.

Lemma mean_single (x : R) : mean [Fin x] = Fin x.
Proof.
  unfold mean. cbn [fold_left add length INR div].
  destruct (decide (1 = 0)%R) as [E|_]; [lra |]. f_equal. field.
Qed.

(** X18.  The comprehensive rows of a table with increasing frame indices
    are the values of the BallRelease frame: a feature that is a finite
    number there is reported with that number as average, minimum and
    maximum over one frame. *)
Theorem release_rows_are_release_frame_values (d : DataFrame) :
  d <> [] ->
  (forall i j ri rj, d !! i = Some ri -> d !! j = Some rj ->
     (i < j)%nat -> frame ri < frame rj) ->
  exists rows self' rel_row,
    calculate_biomechanical_summary (init (PyDataFrame d)) = Ok (rows, self') /\
    rel_row ∈ d /\
    ball_release_frame self' = Some (frame rel_row) /\
    (has_columns rel_row ->
     forall name col x,
       (name, name) ∈ comprehensive_features ->
       column name = Some col ->
       col (computed_features self' rel_row) = Fin x ->
       {| Feature := name;
          Average := Fin x; Min := Fin x; Max := Fin x;
          Frames := 1;
          Measurement_Phase := "Ball Release";
          FFC_Frame := ffc_frame self';
          Release_Frame := ball_release_frame self' |} ∈ rows).
Proof.
  intros Hne Hinc.
  destruct (release_window_of_table d Hne Hinc)
    as (self' & features & fk & bk & rel_row & Hdet & Hex & Hin & Hrel & Hfilter).
  destruct (calculate_biomechanical_summary_spec d Hne)
    as (self'' & features' & fk' & bk' & front & back & rows
        & Hdet' & Hex' & _ & _ & _ & Hrows & Hcalc).
  rewrite Hex in Hex'. injection Hex' as <- <- <- <-.
  exists rows, self', rel_row.
  split; [exact Hcalc |]. split; [exact Hin |]. split; [exact Hrel |].
  intros Hc name col x Hname Hcol Hx.
  assert (Hwindow : release_window features = [computed_features self' rel_row]).
  { unfold release_window. rewrite Hfilter.
    destruct (decide (has_columns rel_row)); [reflexivity | contradiction]. }
  rewrite Hwindow in Hrows.
  destruct (summary_rows_counts _ _ _ _ _ Hrows) as (_ & _ & Hcomp).
  destruct (Hcomp name col Hname Hcol) as (_ & Hrow).
  unfold comprehensive_row_of in Hrow. cbn [map] in Hrow.
  rewrite Hx in Hrow. cbn [dropna List.filter isnan negb] in Hrow.
  rewrite bool_decide_eq_false_2 in Hrow by discriminate.
  cbn [negb] in Hrow. unfold release_row in Hrow.
  rewrite mean_single in Hrow. exact Hrow.
Qed.

Lemma release_rows_are_release_frame_values_witness :
  exists rows self' release_row,
    calculate_biomechanical_summary (init (PyDataFrame two_frames)) = Ok (rows, self') /\
    release_row ∈ two_frames /\
    ball_release_frame self' = Some (frame release_row).
Proof.
  destruct (release_rows_are_release_frame_values two_frames)
    as (rows & self' & release_row & H1 & H2 & H3 & _).
  - discriminate.
  - exact two_frames_increasing.
  - eauto 10.
Defined.

(** ** Further properties of the records and the report *)

Lemma release_window_subset (features : list FrameFeatures) (rec : FrameFeatures) :
  rec ∈ release_window features -> rec ∈ features.
Proof.
  unfold release_window, tail3.
  destruct (bool_decide _).
  - apply subseteq_drop.
  - intros H. apply list_elem_of_In in H. apply filter_In in H as [H _].
    apply list_elem_of_In. exact H.
Qed.

Lemma elbow_row_inv (self : Extractor) (data : list FrameFeatures)
    (front back : option KneePhases) (rows : list SummaryRow) (r : SummaryRow) :
  summary_rows self data front back = Ok rows ->
  r ∈ rows -> Feature r = "Elbow Angle" ->
  dropna (map Elbow_Angle data) <> [] /\
  r = release_row self "Elbow Angle" (dropna (map Elbow_Angle data)).
Proof.
  rewrite summary_rows_eq. intros [= <-]. rewrite !elem_of_app.
  rewrite !elem_of_append_if_defined.
  intros Hin Hname.
  repeat match goal with
         | H : _ \/ _ |- _ => destruct H as [H|H]
         | H : exists p, _ |- _ => destruct H as (p & Hp & _ & ->)
         end; try discriminate.
  - destruct (bool_decide (dropna (map Elbow_Angle data) = [])) eqn:E; cbn in Hin.
    + apply elem_of_nil in Hin. contradiction.
    + apply bool_decide_eq_false_1 in E.
      apply list_elem_of_singleton in Hin. auto.
  - destruct (negb _) in Hin; [| apply elem_of_nil in Hin; contradiction].
    apply list_elem_of_singleton in Hin as ->. discriminate.
  - repeat (apply elem_of_cons in Hin as [->|Hin];
            [rewrite Feature_comprehensive_row_of in Hname; discriminate |]).
    apply elem_of_nil in Hin. contradiction.
Qed.

(** X11.  Elbow Angle and Bowling Arm Angle are one and the same number in every
    record; when the report has an "Elbow Angle" row, its "Bowling Arm
    Angle" row shows the same average, minimum, maximum and frame count. *)
Theorem elbow_is_bowling_arm (d : DataFrame) :
  d <> [] ->
  exists rows self' features fk bk,
    extract_features_post_ffc (init (PyDataFrame d)) =
      Ok (Extracted features fk bk, self') /\
    calculate_biomechanical_summary (init (PyDataFrame d)) = Ok (rows, self') /\
    (forall rec, rec ∈ features -> Elbow_Angle rec = Bowling_Arm_Angle rec) /\
    (forall r, r ∈ rows -> Feature r = "Elbow Angle" ->
       exists r', r' ∈ rows /\ Feature r' = "Bowling Arm Angle" /\
                  Average r' = Average r /\ Min r' = Min r /\
                  Max r' = Max r /\ Frames r' = Frames r).
Proof.
  intros Hne.
  destruct (calculate_biomechanical_summary_spec d Hne)
    as (self' & features & fk & bk & front & back & rows
        & _ & Hex & _ & _ & _ & Hrows & Hcalc).
  destruct (extraction_records d Hne) as (self'' & ffc & fk' & bk' & _ & _ & Hex').
  rewrite Hex in Hex'. injection Hex' as Hfeat <- <- <-.
  exists rows, self', features, fk, bk.
  split; [exact Hex |]. split; [exact Hcalc |].
  assert (Hsame : forall rec, rec ∈ features -> Elbow_Angle rec = Bowling_Arm_Angle rec).
  { intros rec Hin. rewrite Hfeat in Hin.
    apply list_elem_of_fmap in Hin as (row & -> & _).
    unfold features_of_row. destruct (decide (has_columns row)); reflexivity. }
  split; [exact Hsame |].
  intros r Hr Hname.
  destruct (elbow_row_inv _ _ _ _ _ r Hrows Hr Hname) as (Hvalues & ->).
  destruct (summary_rows_counts _ _ _ _ _ Hrows) as (_ & _ & Hcomp).
  destruct (Hcomp "Bowling Arm Angle" Bowling_Arm_Angle) as (_ & Hin).
  { unfold comprehensive_features.
    repeat first [apply list_elem_of_here | apply list_elem_of_further]. }
  { reflexivity. }
  assert (Hmap : map Bowling_Arm_Angle (release_window features) =
                 map Elbow_Angle (release_window features)).
  { apply map_ext_in. intros rec Hrec. symmetry. apply Hsame.
    apply release_window_subset, list_elem_of_In. exact Hrec. }
  unfold comprehensive_row_of in Hin. rewrite Hmap in Hin.
  rewrite (bool_decide_eq_false_2 _ Hvalues) in Hin. cbn [negb] in Hin.
  eexists. split; [exact Hin |]. cbn. auto.
Qed.

Lemma elbow_is_bowling_arm_witness :
  exists rows self' features fk bk,
    extract_features_post_ffc (init (PyDataFrame two_frames)) =
      Ok (Extracted features fk bk, self') /\
    calculate_biomechanical_summary (init (PyDataFrame two_frames)) = Ok (rows, self') /\
    (forall rec, rec ∈ features -> Elbow_Angle rec = Bowling_Arm_Angle rec).
Proof.
  destruct (elbow_is_bowling_arm two_frames)
    as (rows & self' & features & fk & bk & H1 & H2 & H3 & _).
  - discriminate.
  - eauto 10.
Defined.

Lemma filter_all_false {A : Type} (f : A -> bool) (l : list A) :
  (forall x, x ∈ l -> f x = false) -> List.filter f l = [].
Proof.
  induction l as [|x l IH]; intros H; [reflexivity |]. cbn.
  rewrite (H x) by apply list_elem_of_here.
  apply IH. intros y Hy. apply H. apply list_elem_of_further. exact Hy.
Qed.

Lemma filter_all_true {A : Type} (f : A -> bool) (l : list A) :
  (forall x, x ∈ l -> f x = true) -> List.filter f l = l.
Proof.
  induction l as [|x l IH]; intros H; [reflexivity |]. cbn.
  rewrite (H x) by apply list_elem_of_here. f_equal.
  apply IH. intros y Hy. apply H. apply list_elem_of_further. exact Hy.
Qed.

(** X9.  With increasing frame indices the frames analysed are exactly the rows
    from the FFC position to the end of the table, in order: one record per
    such row, the first one for the FFC frame. *)
Theorem extraction_covers_suffix (d : DataFrame) :
  d <> [] ->
  (forall i j ri rj, d !! i = Some ri -> d !! j = Some rj ->
     (i < j)%nat -> frame ri < frame rj) ->
  exists self' p ffc_row features fk bk,
    extract_features_post_ffc (init (PyDataFrame d)) =
      Ok (Extracted features fk bk, self') /\
    d !! p = Some ffc_row /\
    ffc_frame self' = Some (frame ffc_row) /\
    map ff_frame features = map frame (drop p d) /\
    length features = (length d - p)%nat.
Proof.
  intros Hne Hinc.
  destruct (detect_positions d Hne)
    as (p & q & ffc_row & release_row & Hp & Hq & Hpq & Hdet).
  destruct (extraction_records d Hne) as (self' & ffc & fk & bk & Hdet' & Hffc & Hex).
  rewrite Hdet in Hdet'. injection Hdet' as <-.
  cbn [ffc_frame] in Hffc. injection Hffc as <-.
  assert (Hfilter : List.filter (fun row => frame ffc_row <=? frame row) d = drop p d).
  { rewrite <- (take_drop p d) at 1. rewrite List.filter_app.
    rewrite filter_all_false, filter_all_true; [reflexivity | |].
    - intros row Hin. apply list_elem_of_lookup in Hin as [j Hj].
      rewrite lookup_drop in Hj. apply Z.leb_le.
      destruct (decide (j = 0%nat)) as [->|Hj0].
      + rewrite Nat.add_0_r in Hj.
        pose proof (eq_trans (eq_sym Hp) Hj) as E. injection E as <-. lia.
      + assert (frame ffc_row < frame row) by (eapply Hinc; eauto; lia). lia.
    - intros row Hin. apply list_elem_of_lookup in Hin as [j Hj].
      apply lookup_take_Some in Hj as [Hj Hlt].
      apply Z.leb_gt. eapply Hinc; eauto. }
  rewrite Hfilter in Hex.
  eexists _, p, ffc_row, _, fk, bk.
  split; [exact Hex |]. split; [exact Hp |]. split; [reflexivity |].
  split.
  - rewrite map_map. apply map_ext. intros row. apply ff_frame_features_of_row.
  - rewrite length_map, length_drop. reflexivity.
Qed.

Lemma extraction_covers_suffix_witness :
  exists self' p features fk bk,
    extract_features_post_ffc (init (PyDataFrame two_frames)) =
      Ok (Extracted features fk bk, self') /\
    length features = (length two_frames - p)%nat.
Proof.
  destruct (extraction_covers_suffix two_frames)
    as (self' & p & ffc_row & features & fk & bk & H1 & _ & _ & _ & H2).
  - discriminate.
  - exact two_frames_increasing.
  - eauto 10.
Defined.




(** X10.  Detection is run once: after it has set the events, extraction uses
    them as they are and returns what it returns on the fresh extractor. *)
Theorem extraction_after_detection (d : DataFrame) (self' : Extractor) :
  detect_front_foot_contact (init (PyDataFrame d)) = Ok self' ->
  extract_features_post_ffc self' =
  extract_features_post_ffc (init (PyDataFrame d)).
Proof.
  intros Hdet.
  assert (Hne : d <> []) by (intros ->; discriminate).
  destruct (detect_positions d Hne)
    as (p & q & ffc_row & release_row & _ & _ & _ & Hdet').
  rewrite Hdet' in Hdet. injection Hdet as <-.
  unfold extract_features_post_ffc at 2. cbn [init ffc_frame].
  rewrite Hdet'. reflexivity.
Qed.

Lemma extraction_after_detection_witness :
  extract_features_post_ffc
    {| df := PyDataFrame elbow_hidden;
       ffc_frame := Some 0; ball_release_frame := Some 0 |} =
  extract_features_post_ffc (init (PyDataFrame elbow_hidden)).
Proof. apply extraction_after_detection. reflexivity. Defined.

(** X13.  Pelvis Rotation is the angle at the right hip between the left hip
    and a point 10 units to the right of the right hip.  It is NaN when the
    two hips coincide.  When the hips are between 1e-150 and 1e150 apart, and
    the right hip is within 1e15 of the origin so that adding 10 moves it, it
    is a value in [0, 180]: 180 for level hips with the left hip to the left
    of the right hip in the image, 0 with the left hip to its right. *)
Theorem pelvis_rotation_values (row : Row) (lx ly rx ry : R) :
  getitem row "LEFT_HIP_x" = Ok (Fin lx) ->
  getitem row "LEFT_HIP_y" = Ok (Fin ly) ->
  getitem row "RIGHT_HIP_x" = Ok (Fin rx) ->
  getitem row "RIGHT_HIP_y" = Ok (Fin ry) ->
  exists v,
    pelvis_rotation_of row = Ok v /\
    ((lx, ly) = (rx, ry) -> v = NaN) /\
    ((1e-300 <= (lx - rx) * (lx - rx) + (ly - ry) * (ly - ry) <= 1e300)%R ->
     (-1e15 <= rx <= 1e15)%R ->
     exists x : R,
       v = Fin x /\ (0 <= x <= 180)%R /\
       (ly = ry -> (lx < rx)%R -> x = 180%R) /\
       (ly = ry -> (rx < lx)%R -> x = 0%R)).
Proof.
  intros Hlx Hly Hrx Hry.
  unfold pelvis_rotation_of, xy.
  change ("LEFT_HIP" +:+ "_x") with "LEFT_HIP_x".
  change ("LEFT_HIP" +:+ "_y") with "LEFT_HIP_y".
  change ("RIGHT_HIP" +:+ "_x") with "RIGHT_HIP_x".
  change ("RIGHT_HIP" +:+ "_y") with "RIGHT_HIP_y".
  rewrite Hlx, Hly, Hrx, Hry. cbn [mbind result_bind mret result_ret add].
  eexists. split; [reflexivity |].
  rewrite calculate_angle_fin.
  pose proof PI_RGT_0 as Hpi.
  destruct (decide (_ \/ _)) as [[E|E]|Hnd].
  - split; [reflexivity |]. inversion E; subst. intros Hb _. lra.
  - inversion E; lra.
  - assert (Hne : (lx, ly) <> (rx, ry)) by tauto.
    split; [contradiction |]. intros _ _.
    eexists. split; [reflexivity |]. split; [apply degrees_acos_bounds |].
    replace (rx + 10 + - rx)%R with 10%R by lra.
    replace (ry + - ry)%R with 0%R by lra.
    replace (10 * 10 + 0 * 0)%R with (10 * 10)%R by lra.
    rewrite (sqrt_square 10) by lra.
    split.
    + intros -> Hlt.
      replace (ry + - ry)%R with 0%R by lra.
      replace ((lx + - rx) * (lx + - rx) + 0 * 0)%R
        with ((rx - lx) * (rx - lx))%R by lra.
      rewrite sqrt_square by lra.
      replace (((lx + - rx) * 10 + 0 * 0) / ((rx - lx) * 10))%R with (- (1))%R
        by (field; lra).
      rewrite Rmax_left, Rmin_left by lra.
      rewrite acos_opp, acos_1. field. lra.
    + intros -> Hlt.
      replace (ry + - ry)%R with 0%R by lra.
      replace ((lx + - rx) * (lx + - rx) + 0 * 0)%R
        with ((lx - rx) * (lx - rx))%R by lra.
      rewrite sqrt_square by lra.
      replace (((lx + - rx) * 10 + 0 * 0) / ((lx - rx) * 10))%R with 1%R
        by (field; lra).
      rewrite Rmax_left, Rmin_left by lra.
      rewrite acos_1. lra.
Qed.

Lemma pelvis_rotation_values_witness :
  pelvis_rotation_of (landmarks_row 0 pose) = Ok (Fin 180).
Proof.
  destruct (pelvis_rotation_values (landmarks_row 0 pose) 0.45 0.5 0.55 0.5)
    as (v & -> & _ & Hdef); try reflexivity.
  destruct Hdef as (x & -> & _ & Hleft & _); [lra | lra |].
  rewrite Hleft; [reflexivity | reflexivity | lra].
Defined.

(** X21.  Given the path of a video, as the upload handler gives it, the
    extractor holds a string where it expects a table: the detector raises
    AttributeError at [iterrows], the aggregator raises with it, and
    [analyze_bowling] answers with status "error" for every path. *)
Theorem analysis_of_path_fails (path : string) :
  detect_front_foot_contact (init (PyStr path)) =
    Raise (AttributeError "'str' object has no attribute 'iterrows'") /\
  calculate_biomechanical_summary (init (PyStr path)) =
    Raise (AttributeError "'str' object has no attribute 'iterrows'") /\
  analyze_bowling (PyStr path) =
    Ok {| status := "error";
          message := "'str' object has no attribute 'iterrows'";
          details := None |}.
Proof. repeat split; reflexivity. Qed.
